(** * Mirroring mailing-list messages onto pull requests

    A shallow embedding of [PublicInboxGitHelper] (lib/public-inbox.ts as
    bundled in src/index.js): the key hasher [hashKey], the merge performed
    over the known references of a mail, the choice of the GitHub call, the
    hunk reader [lineHandler] and the scan [processMails].

    JavaScript strings are sequences of UTF-16 code units, modelled as
    [list Z]; bytes are [Z] values below 256. *)

From Stdlib Require Import ZArith List Lia Bool String Ascii Decimal DecimalString.
From stdpp Require Import base decidable option list countable gmap.
Import ListNotations.

Local Open Scope Z_scope.

(** ** JavaScript strings *)

Abbreviation jsstring := (list Z) (only parsing).

(** A literal of the source: every character of [s] becomes one code unit. *)
Definition lit (s : string) : jsstring :=
  map (fun a => Z.of_N (N_of_ascii a)) (list_ascii_of_string s).

Module Utf8.

(** [new Buffer(str, "utf8")]: a surrogate pair encodes one supplementary
    code point on four bytes, a surrogate on its own is replaced by
    U+FFFD. *)
Definition is_high (u : Z) : bool := (0xD800 <=? u) && (u <=? 0xDBFF).
Definition is_low (u : Z) : bool := (0xDC00 <=? u) && (u <=? 0xDFFF).

Definition encode_code_point (c : Z) : list Z :=
  if c <? 0x80 then [c]
  else if c <? 0x800 then
    [Z.lor 0xC0 (Z.shiftr c 6); Z.lor 0x80 (Z.land c 0x3F)]
  else if c <? 0x10000 then
    [Z.lor 0xE0 (Z.shiftr c 12);
     Z.lor 0x80 (Z.land (Z.shiftr c 6) 0x3F);
     Z.lor 0x80 (Z.land c 0x3F)]
  else
    [Z.lor 0xF0 (Z.shiftr c 18);
     Z.lor 0x80 (Z.land (Z.shiftr c 12) 0x3F);
     Z.lor 0x80 (Z.land (Z.shiftr c 6) 0x3F);
     Z.lor 0x80 (Z.land c 0x3F)].

Definition replacement : list Z := encode_code_point 0xFFFD.

Definition pair_code_point (hi lo : Z) : Z :=
  0x10000 + Z.shiftl (hi - 0xD800) 10 + (lo - 0xDC00).

Fixpoint encode (s : jsstring) : list Z :=
  match s with
  | [] => []
  | u :: rest =>
      if is_high u then
        match rest with
        | l :: rest' =>
            if is_low l
            then encode_code_point (pair_code_point u l) ++ encode rest'
            else replacement ++ encode rest
        | [] => replacement
        end
      else if is_low u then replacement ++ encode rest
      else encode_code_point u ++ encode rest
  end.

(** [Buffer.byteLength(str)] *)
Definition byteLength (s : jsstring) : Z := Z.of_nat (length (encode s)).

End Utf8.

(** [`${n}`] for an integer [n]: its decimal digits (exact for every number
    the source formats, all of them lengths below 2^53). *)
Definition number_toString (n : Z) : jsstring :=
  lit (NilZero.string_of_int (Z.to_int n)).

(** ** SHA-1 (FIPS 180-4), the digest behind [createHash("sha1")] *)

Module Sha1.

Definition w32 (x : Z) : Z := Z.land x 0xFFFFFFFF.
Definition add32 (x y : Z) : Z := w32 (x + y).
Definition rotl (n x : Z) : Z :=
  w32 (Z.lor (Z.shiftl x n) (Z.shiftr x (32 - n))).
Definition not32 (x : Z) : Z := Z.lxor x 0xFFFFFFFF.

Definition f (t b c d : Z) : Z :=
  if t <? 20 then Z.lor (Z.land b c) (Z.land (not32 b) d)
  else if t <? 40 then Z.lxor (Z.lxor b c) d
  else if t <? 60 then Z.lor (Z.lor (Z.land b c) (Z.land b d)) (Z.land c d)
  else Z.lxor (Z.lxor b c) d.

Definition K (t : Z) : Z :=
  if t <? 20 then 0x5A827999
  else if t <? 40 then 0x6ED9EBA1
  else if t <? 60 then 0x8F1BBCDC
  else 0xCA62C1D6.

Definition H0 : list Z :=
  [0x67452301; 0xEFCDAB89; 0x98BADCFE; 0x10325476; 0xC3D2E1F0].

(** Big-endian bytes of a word of [n] bytes. *)
Fixpoint be_bytes (n : nat) (x : Z) : list Z :=
  match n with
  | O => []
  | S k => Z.land (Z.shiftr x (8 * Z.of_nat k)) 0xFF :: be_bytes k x
  end.

Fixpoint be_word (bs : list Z) (acc : Z) : Z :=
  match bs with
  | [] => acc
  | b :: bs' => be_word bs' (Z.lor (Z.shiftl acc 8) b)
  end.

(** Section 5.1.1: one bit, zeros up to 56 mod 64, the bit length on 64
    bits. *)
Definition pad (msg : list Z) : list Z :=
  let len := Z.of_nat (length msg) in
  msg ++ [0x80] ++ repeat 0 (Z.to_nat ((55 - len) mod 64))
      ++ be_bytes 8 (8 * len).

Fixpoint chunks (fuel : nat) (n : nat) (bs : list Z) : list (list Z) :=
  match fuel, bs with
  | O, _ | _, [] => []
  | S k, _ => firstn n bs :: chunks k n (skipn n bs)
  end.

(** The message schedule, most recent word first. *)
Fixpoint extend (k : nat) (rev_w : list Z) : list Z :=
  match k with
  | O => rev_w
  | S k' =>
      let x := Z.lxor (Z.lxor (Z.lxor (nth 2 rev_w 0) (nth 7 rev_w 0))
                              (nth 13 rev_w 0)) (nth 15 rev_w 0) in
      extend k' (rotl 1 x :: rev_w)
  end.

Definition schedule (block : list Z) : list Z :=
  rev (extend 64 (rev (map (fun b => be_word b 0) (chunks 16 4 block)))).

Definition round (st : list Z) (tw : Z * Z) : list Z :=
  match st with
  | [a; b; c; d; e] =>
      let '(t, w) := tw in
      let tmp := add32 (add32 (add32 (add32 (rotl 5 a) (f t b c d)) e) w) (K t) in
      [tmp; a; rotl 30 b; c; d]
  | _ => st
  end.

Definition compress (h : list Z) (block : list Z) : list Z :=
  let ws := schedule block in
  let ts := map Z.of_nat (seq 0 80) in
  let st := fold_left round (combine ts ws) h in
  map (fun p => add32 (fst p) (snd p)) (combine h st).

Definition digest (msg : list Z) : list Z :=
  let padded := pad msg in
  let blocks := chunks (length padded) 64 padded in
  flat_map (be_bytes 4) (fold_left compress blocks H0).

Definition hex_digit (n : Z) : Z :=
  if n <? 10 then 48 + n else 87 + n.

(** [digest("hex")]: two lower-case digits per byte. *)
Definition hex (bs : list Z) : jsstring :=
  flat_map (fun b => [hex_digit (Z.shiftr b 4); hex_digit (Z.land b 0xF)]) bs.

End Sha1.

(** ** The Hash object of Node's crypto module *)

(** [update] may be called any number of times and [digest] is over all the
    data fed so far; a string is fed as its UTF-8 bytes. *)
Record Hash := { fed : list Z }.

Definition createHash_sha1 : Hash := {| fed := [] |}.
Definition update (h : Hash) (data : jsstring) : Hash :=
  {| fed := fed h ++ Utf8.encode data |}.
Definition digest_hex (h : Hash) : jsstring := Sha1.hex (Sha1.digest (fed h)).

(** ** [PublicInboxGitHelper.hashKey] *)

Definition hashKey (key : jsstring) : jsstring :=
  let hash := createHash_sha1 in
  let hash := update hash (lit "blob " ++ number_toString (Utf8.byteLength key + 1)) in
  let hash := update hash ([0] ++ key ++ [10]) in
  digest_hex hash.

(** What the specification computes the digest over: the header of a Git
    blob of [byteLength key + 1] bytes, a NUL, the bytes of the key and a
    line feed. *)
Definition ascii_bytes (s : string) : list Z :=
  map (fun a => Z.of_N (N_of_ascii a)) (list_ascii_of_string s).

Definition git_blob_bytes (key : jsstring) : list Z :=
  ascii_bytes "blob "
    ++ ascii_bytes (NilZero.string_of_int (Z.to_int (Z.of_nat (length (Utf8.encode key)) + 1)))
    ++ [0] ++ Utf8.encode key ++ [10].


(** ** Values of the source *)

(** A variable of type [string | undefined]: undefined and the empty
    string are falsy. *)
Definition truthy_string (s : option jsstring) : bool :=
  match s with
  | Some (_ :: _) => true
  | _ => false
  end.

(** A variable of type [number | undefined]: undefined and zero are
    falsy. *)
Definition truthy_id (n : option Z) : bool :=
  match n with
  | Some z => negb (z =? 0)
  | None => false
  end.

(** The numbers [counter] takes: what [parseInt] returns, decremented. *)
Inductive number := NaN | Num (z : Z).

Definition truthy_number (n : number) : bool :=
  match n with
  | Num z => negb (z =? 0)
  | NaN => false
  end.

Definition decrement (n : number) : number :=
  match n with
  | Num z => Num (z - 1)
  | NaN => NaN
  end.

Fixpoint startsWith (s prefix : jsstring) : bool :=
  match prefix, s with
  | [], _ => true
  | c :: prefix', d :: s' => (c =? d) && startsWith s' prefix'
  | _ :: _, [] => false
  end.

(** [s.substr(n)] *)
Definition substr (n : nat) (s : jsstring) : jsstring := skipn n s.

(** [s.split("\n")], with the piece being read in [cur], last unit first. *)
Fixpoint split_newline (s cur : jsstring) : list jsstring :=
  match s with
  | [] => [rev cur]
  | c :: s' =>
      if c =? 10 then rev cur :: split_newline s' []
      else split_newline s' (c :: cur)
  end.

(** [s.replace(/\//g, "")] *)
Definition remove_slashes (s : jsstring) : jsstring :=
  List.filter (fun c => negb (c =? 47)) s.

(** *** The hunk header: [/^@@ -(\d+,)?\d+ \+(\d+,)?(\d+)?/] *)

Definition is_digit (c : Z) : bool := (48 <=? c) && (c <=? 57).

(** The longest run of digits at the head of [s], and what follows. *)
Fixpoint span_digits (s : jsstring) : jsstring * jsstring :=
  match s with
  | c :: s' =>
      if is_digit c
      then let '(ds, r) := span_digits s' in (c :: ds, r)
      else ([], s)
  | [] => ([], [])
  end.

Fixpoint strip_prefix (prefix s : jsstring) : option jsstring :=
  match prefix, s with
  | [], _ => Some s
  | c :: prefix', d :: s' => if c =? d then strip_prefix prefix' s' else None
  | _ :: _, [] => None
  end.

(** [(\d+,)?]: the group takes part when digits are followed by a comma;
    what the rest of the expression is then matched against. *)
Definition skip_optional_start (s : jsstring) : jsstring :=
  match span_digits s with
  | (_ :: _, 44 :: r) => r
  | _ => s
  end.

(** [line.match(...)]: [None] when the line does not match, else the third
    group, [None] when that group took no part ([undefined]). *)
Definition match_hunk_header (line : jsstring) : option (option jsstring) :=
  match strip_prefix (lit "@@ -") line with
  | None => None
  | Some s1 =>
      match span_digits (skip_optional_start s1) with
      | ([], _) => None
      | (_ :: _, r2) =>
          match strip_prefix (lit " +") r2 with
          | None => None
          | Some s3 =>
              match span_digits (skip_optional_start s3) with
              | ([], _) => Some None
              | (d :: ds, _) => Some (Some (d :: ds))
              end
          end
      end
  end.

Definition decimal_value (ds : jsstring) : Z :=
  fold_left (fun acc d => 10 * acc + (d - 48)) ds 0.

(** [parseInt(match[3], 10)]: [undefined] reads as NaN, digits as their
    value (a JavaScript number holds it exactly below 2^53). *)
Definition parseInt (group : option jsstring) : number :=
  match group with
  | Some ds => Num (decimal_value ds)
  | None => NaN
  end.

(** ** Records *)

Record IMailMetadata := {
  messageID : jsstring;
  pullRequestURL : jsstring;
  originalCommit : option jsstring;
  issueCommentId : option Z;
}.

Record IGitMailingListMirrorState := {
  latestRevision : option jsstring;
}.

(** What a note holds: the record of a mail, or the state of the mirror. *)
Inductive note :=
| MailMetadata (data : IMailMetadata)
| MirrorState (s : IGitMailingListMirrorState).

Record IParsedMBox := {
  from : option jsstring;
  headers : option (list (jsstring * jsstring));
  body : jsstring;
}.

Definition stateKey : jsstring := lit "git@vger.kernel.org <-> GitGitGadget".
Definition replyToThisURL : jsstring :=
  lit "https://github.com/gitgitgadget/gitgitgadget/wiki/ReplyToThis".

(** ** Calls out of the class, and their trace *)

Inductive github_call :=
| addPRCommentReply (url : jsstring) (id : Z) (comment : jsstring)
| addPRCommitComment (url commit dir comment : jsstring)
| addPRComment (url comment : jsstring).

Inductive failure := GitError | NotesError | GitHubError | MBoxError.

Inductive console_line :=
| LogMessage (mid : jsstring) (len : Z) (url : jsstring)
    (commit : option jsstring) (id : option Z)
| LogSkipping (reason : failure).

(** Every call is recorded in order of issue; a GitHub call is recorded
    with the Message-ID of the mail it is made for. *)
Inductive event :=
| EvGit (args : list jsstring) (dir : jsstring)
| EvRevParse (argument dir : jsstring)
| EvNotesGet (key : jsstring)
| EvNotesSet (key : jsstring) (value : note) (force : bool)
| EvParseIds (mbox : jsstring)
| EvParseMBox (mbox : jsstring)
| EvGitHub (mid : jsstring) (call : github_call)
| EvConsole (l : console_line).

(** The collaborators: what each call answers, given the calls made so far.
    [None] (or [false]) is a rejected promise. [mbox2markdown] and the
    removal of the address from the sender ([/ *<.*>/]) only shape the text
    of the comment and are left as parameters. *)
Record environment := {
  notesRef : jsstring;
  workDir : jsstring;
  publicInboxGitDir : jsstring;
  git : list event -> list jsstring -> jsstring -> option jsstring;
  git_lines : list event -> list jsstring -> jsstring -> list jsstring * bool;
  revParse : list event -> jsstring -> jsstring -> option jsstring;
  notes_get_ok : list event -> jsstring -> bool;
  notes_set_ok : list event -> jsstring -> note -> bool;
  github : list event -> github_call -> option Z;
  parseMBoxMessageIDAndReferences :
    list event -> jsstring -> option (jsstring * list jsstring);
  parseMBox : list event -> jsstring -> option IParsedMBox;
  mbox2markdown : IParsedMBox -> option jsstring;
  strip_address : jsstring -> jsstring;
}.

(** ** State *)

(** [this.state], the notes behind [this.gggNotes], the variables [keys],
    [buffer] and [counter] of [processMails], and the trace. *)
Record state := {
  this_state : IGitMailingListMirrorState;
  notes : gmap (list Z) note;
  keys : gset (list Z);
  buffer : jsstring;
  counter : number;
  trace : list event;
}.

Definition set_this_state (s : IGitMailingListMirrorState) (st : state) : state :=
  {| this_state := s; notes := notes st; keys := keys st;
     buffer := buffer st; counter := counter st; trace := trace st |}.
Definition set_notes (n : gmap (list Z) note) (st : state) : state :=
  {| this_state := this_state st; notes := n; keys := keys st;
     buffer := buffer st; counter := counter st; trace := trace st |}.
Definition set_keys (k : gset (list Z)) (st : state) : state :=
  {| this_state := this_state st; notes := notes st; keys := k;
     buffer := buffer st; counter := counter st; trace := trace st |}.
Definition set_buffer (b : jsstring) (st : state) : state :=
  {| this_state := this_state st; notes := notes st; keys := keys st;
     buffer := b; counter := counter st; trace := trace st |}.
Definition set_counter (c : number) (st : state) : state :=
  {| this_state := this_state st; notes := notes st; keys := keys st;
     buffer := buffer st; counter := c; trace := trace st |}.
Definition record (e : event) (st : state) : state :=
  {| this_state := this_state st; notes := notes st; keys := keys st;
     buffer := buffer st; counter := counter st; trace := trace st ++ [e] |}.

(** ** Promises: a state transformer that resolves or rejects *)

Inductive result (A : Type) :=
| Ok (a : A)
| Throw (reason : failure).
Arguments Ok {A} a.
Arguments Throw {A} reason.

Definition M (A : Type) : Type := state -> result A * state.

Definition ret {A} (a : A) : M A := fun st => (Ok a, st).
Definition bind {A B} (m : M A) (k : A -> M B) : M B :=
  fun st =>
    match m st with
    | (Ok a, st') => k a st'
    | (Throw r, st') => (Throw r, st')
    end.
Definition try_catch {A} (m : M A) (handler : failure -> M A) : M A :=
  fun st =>
    match m st with
    | (Ok a, st') => (Ok a, st')
    | (Throw r, st') => handler r st'
    end.
Definition modify (f : state -> state) : M unit := fun st => (Ok tt, f st).

Notation "'await' x <- m ; k" := (bind m (fun x => k))
  (at level 10, x name, m at level 100, k at level 200).

(** ** The variables of [mboxHandler] *)

(** The variables [pullRequestURL], [originalCommit] and [issueCommentId]
    of [mboxHandler]. *)
Module Vars.
Record t := {
  pullRequestURL : option jsstring;
  originalCommit : option jsstring;
  issueCommentId : option Z;
}.
Definition undefined : t :=
  {| pullRequestURL := None; originalCommit := None; issueCommentId := None |}.
End Vars.

(** The body of the loop over the known references, once the note [data] of
    [reference] is read. *)
Definition consider (prFilter : option (jsstring -> bool))
    (reference : jsstring) (data : option note) (v : Vars.t) : Vars.t :=
  match data with
  | Some (MailMetadata data) =>
      if truthy_string (Some (pullRequestURL data)) then
        if match prFilter with
           | Some accepts => negb (accepts (pullRequestURL data))
           | None => false
           end
        then v
        else
          (* Cover letters were recorded with their tip commits *)
          let commit :=
            if startsWith reference (lit "pull") then None
            else originalCommit data in
          if negb (truthy_string (Vars.pullRequestURL v))
             || (negb (truthy_string (Vars.originalCommit v))
                 && truthy_string commit)
             || (negb (truthy_id (Vars.issueCommentId v))
                 && truthy_id (issueCommentId data))
          then {| Vars.pullRequestURL := Some (pullRequestURL data);
                  Vars.issueCommentId := issueCommentId data;
                  Vars.originalCommit := commit |}
          else v
      else v
  | _ => v
  end.


(** ** The collaborators as promises *)

Section Scan.

Context (env : environment).

Definition call_git (args : list jsstring) (dir : jsstring) : M jsstring :=
  fun st =>
    let st' := record (EvGit args dir) st in
    match git env (trace st) args dir with
    | Some out => (Ok out, st')
    | None => (Throw GitError, st')
    end.

Definition call_revParse (argument dir : jsstring) : M jsstring :=
  fun st =>
    let st' := record (EvRevParse argument dir) st in
    match revParse env (trace st) argument dir with
    | Some rev => (Ok rev, st')
    | None => (Throw GitError, st')
    end.

(** Modelled from the spec: [GitNotes.get] (lib/git-notes.ts is not part of
    the sources). The record of a key is kept under the digest of the
    key; a key without a note reads as undefined. *)
Definition notes_get (key : jsstring) : M (option note) :=
  fun st =>
    let st' := record (EvNotesGet key) st in
    if notes_get_ok env (trace st) key
    then (Ok (notes st !! hashKey key), st')
    else (Throw NotesError, st').

(** Modelled from the spec: [GitNotes.set] (lib/git-notes.ts is not part of
    the sources). The value is stored under the digest of the key. *)
Definition notes_set (key : jsstring) (value : note) (force : bool) : M unit :=
  fun st =>
    let st' := record (EvNotesSet key value force) st in
    if notes_set_ok env (trace st) key value
    then (Ok tt, set_notes (<[hashKey key := value]> (notes st)) st')
    else (Throw NotesError, st').

Definition call_github (mid : jsstring) (call : github_call) : M Z :=
  fun st =>
    let st' := record (EvGitHub mid call) st in
    match github env (trace st) call with
    | Some id => (Ok id, st')
    | None => (Throw GitHubError, st')
    end.

Definition call_parseMBoxMessageIDAndReferences (mbox : jsstring)
  : M (jsstring * list jsstring) :=
  fun st =>
    let st' := record (EvParseIds mbox) st in
    match parseMBoxMessageIDAndReferences env (trace st) mbox with
    | Some parsed => (Ok parsed, st')
    | None => (Throw MBoxError, st')
    end.

Definition call_parseMBox (mbox : jsstring) : M IParsedMBox :=
  fun st =>
    let st' := record (EvParseMBox mbox) st in
    match parseMBox env (trace st) mbox with
    | Some parsed => (Ok parsed, st')
    | None => (Throw MBoxError, st')
    end.

Definition call_mbox2markdown (parsed : IParsedMBox) : M jsstring :=
  fun st =>
    match mbox2markdown env parsed with
    | Some text => (Ok text, st)
    | None => (Throw MBoxError, st)
    end.

Definition console_log (l : console_line) : M unit :=
  modify (record (EvConsole l)).

(** ** [processMails] *)

(** [seen]: [keys.has(PublicInboxGitHelper.hashKey(messageID))] *)
Definition seen (st : state) (messageID : jsstring) : bool :=
  bool_decide (hashKey messageID ∈ keys st).


(** The loop [for (const reference of references.filter(seen))]. *)
Fixpoint resolve (prFilter : option (jsstring -> bool))
    (references : list jsstring) (v : Vars.t) : M Vars.t :=
  match references with
  | [] => ret v
  | reference :: rest =>
      await data <- notes_get reference;
      resolve prFilter rest (consider prFilter reference data v)
  end.

(** The comment is posted by one of three calls; the first two give the new
    value of [issueCommentId], the third leaves it as it is. *)
Definition deliver (messageID url : jsstring) (v : Vars.t) (comment : jsstring)
  : M (option Z) :=
  if truthy_id (Vars.issueCommentId v) then
    await result <- call_github messageID
      (addPRCommentReply url (default 0 (Vars.issueCommentId v)) comment);
    ret (Some result)
  else if truthy_string (Vars.originalCommit v) then
    await result <- call_github messageID
      (addPRCommitComment url (default [] (Vars.originalCommit v))
         (workDir env) comment);
    ret (Some result)
  else
    (* We will not use the ID of this comment, as it is an issue comment,
       really, not a Pull Request comment. *)
    await _ <- call_github messageID (addPRComment url comment);
    ret (Vars.issueCommentId v).

Definition mboxHandler (prFilter : option (jsstring -> bool))
    (messageID : jsstring) (references : list jsstring) (mbox : jsstring)
  : M unit :=
  fun st =>
    if seen st messageID then (Ok tt, st)
    else
      (await v <- resolve prFilter (List.filter (seen st) references)
                    Vars.undefined;
       match Vars.pullRequestURL v with
       | Some (c :: u) =>
           let url := c :: u in
           await _ <- console_log
             (LogMessage messageID (Z.of_nat (length mbox)) url
                (Vars.originalCommit v) (Vars.issueCommentId v));
           await parsed <- call_parseMBox mbox;
           let pigURL := lit "https://public-inbox.org/git/" ++ messageID in
           let header :=
             lit "[On the Git mailing list](" ++ pigURL ++ lit "), "
               ++ (if truthy_string (from parsed)
                   then strip_address env (default [] (from parsed))
                   else lit "Somebody")
               ++ lit " wrote ([reply to this](" ++ replyToThisURL
               ++ lit ")):" ++ [10; 10] in
           await text <- call_mbox2markdown parsed;
           let comment := header ++ text in
           await issueCommentId <- deliver messageID url v comment;
           await _ <- notes_set messageID
             (MailMetadata {| issueCommentId := issueCommentId;
                              messageID := messageID;
                              originalCommit := Vars.originalCommit v;
                              pullRequestURL := url |}) false;
           (* It is now known *)
           modify (fun st' => set_keys ({[hashKey messageID]} ∪ keys st') st')
       | _ => ret tt
       end) st.

Definition lineHandler (prFilter : option (jsstring -> bool)) (line : jsstring)
  : M unit :=
  fun st =>
    if startsWith line (lit "@@ ") then
      match match_hunk_header line with
      | Some group3 =>
          (Ok tt, set_buffer [] (set_counter (parseInt group3) st))
      | None => (Ok tt, st)
      end
    else if truthy_number (counter st) then
      let st := set_buffer (buffer st ++ substr 1 line ++ [10]) st in
      let st := set_counter (decrement (counter st)) st in
      if truthy_number (counter st) then (Ok tt, st)
      else
        try_catch
          (await parsed <- call_parseMBoxMessageIDAndReferences (buffer st);
           mboxHandler prFilter (fst parsed) (snd parsed) (buffer st))
          (fun reason => console_log (LogSkipping reason)) st
    else (Ok tt, st).

(** Modelled from the spec: [git(..., { lineHandler })] (lib/git.ts is not
    part of the sources) streams the output line by line, and the handler
    of a line has returned before the next line is handed over. *)
Fixpoint each_line (prFilter : option (jsstring -> bool))
    (lines : list jsstring) : M unit :=
  match lines with
  | [] => ret tt
  | line :: rest =>
      await _ <- lineHandler prFilter line;
      each_line prFilter rest
  end.

(** The lines come first; a failure of the command is known afterwards. *)
Definition call_git_lines (prFilter : option (jsstring -> bool))
    (args : list jsstring) (dir : jsstring) : M unit :=
  fun st =>
    let '(lines, exited_ok) := git_lines env (trace st) args dir in
    (await _ <- each_line prFilter lines;
     if exited_ok then ret tt else (fun st' => (Throw GitError, st')))
      (record (EvGit args dir) st).

Definition first_revision : jsstring :=
  lit "cf3590b3a1ce08a52b01142307b8fcc089acb6a6".

(** The revision the scan starts from: [this.state.latestRevision] once the
    default is filled in. *)
Definition cursor (s : IGitMailingListMirrorState) : jsstring :=
  if truthy_string (latestRevision s)
  then default [] (latestRevision s)
  else first_revision.

Definition keys_of_ls_tree (out : jsstring) : gset (list Z) :=
  fold_left (fun keys line => {[remove_slashes (substr 53 line)]} ∪ keys)
    (split_newline out []) ∅.

Definition processMails (prFilter : option (jsstring -> bool)) : M bool :=
  await out <- call_git [lit "ls-tree"; lit "-r"; notesRef env ++ lit ":"]
                 (workDir env);
  await _ <- modify (fun st =>
    set_counter (Num 0) (set_buffer [] (set_keys (keys_of_ls_tree out) st)));
  await _ <- modify (fun st =>
    if truthy_string (latestRevision (this_state st)) then st
    else set_this_state {| latestRevision := Some first_revision |} st);
  await head <- call_revParse (lit "master") (publicInboxGitDir env);
  fun st =>
    if bool_decide (latestRevision (this_state st) = Some head)
    then (Ok false, st)
    else
      (let range :=
         default [] (latestRevision (this_state st)) ++ lit ".." ++ head in
       await _ <- call_git_lines prFilter
         [lit "log"; lit "-p"; lit "--reverse"; range] (publicInboxGitDir env);
       await _ <- modify (set_this_state {| latestRevision := Some head |});
       await _ <- (fun st' =>
         notes_set stateKey (MirrorState (this_state st')) true st');
       ret true) st.

End Scan.

Arguments hashKey : simpl never.
Arguments lit : simpl never.

(** ** Reading a trace *)

(** The state [st] once the calls [es] are recorded. *)
Definition extend (es : list event) (st : state) : state :=
  {| this_state := this_state st; notes := notes st; keys := keys st;
     buffer := buffer st; counter := counter st; trace := trace st ++ es |}.

(** The calls recorded since the trace was [before]. *)
Definition events_since (before : list event) (st : state) : list event :=
  skipn (length before) (trace st).

Definition is_github (e : event) : bool :=
  match e with EvGitHub _ _ => true | _ => false end.
Definition is_notes_set (e : event) : bool :=
  match e with EvNotesSet _ _ _ => true | _ => false end.
Definition is_parse_ids (e : event) : bool :=
  match e with EvParseIds _ => true | _ => false end.

(** Neither a call to GitHub nor a write to the notes. *)
Definition quiet (e : event) : bool := negb (is_github e) && negb (is_notes_set e).

(** Neither a call to GitHub, nor a write to the notes, nor the start of a
    new mail. *)
Definition silent (e : event) : bool := quiet e && negb (is_parse_ids e).

(** The log says that a mail was skipped for [reason]. *)
Definition logged_skipping (reason : failure) (es : list event) : bool :=
  existsb (fun e =>
             match e, reason with
             | EvConsole (LogSkipping GitError), GitError
             | EvConsole (LogSkipping NotesError), NotesError
             | EvConsole (LogSkipping GitHubError), GitHubError
             | EvConsole (LogSkipping MBoxError), MBoxError => true
             | _, _ => false
             end) es.

(** The GitHub calls of a trace, in order, each with the Message-ID it was
    made for. *)
Definition github_calls (es : list event) : list (jsstring * github_call) :=
  flat_map (fun e => match e with EvGitHub mid c => [(mid, c)] | _ => [] end) es.

(** The GitHub calls of [es] that were answered, [tr] being the trace
    before [es]. *)
Fixpoint answered (env : environment) (tr es : list event)
  : list (jsstring * github_call) :=
  match es with
  | [] => []
  | e :: es' =>
      match e with
      | EvGitHub mid call =>
          match github env tr call with
          | Some _ => (mid, call) :: answered env (tr ++ [e]) es'
          | None => answered env (tr ++ [e]) es'
          end
      | _ => answered env (tr ++ [e]) es'
      end
  end.

(** The target the loop of [mboxHandler] arrives at when every read of the
    notes succeeds. *)
Definition resolved (prFilter : option (jsstring -> bool))
    (store : gmap (list Z) note) (references : list jsstring) (v : Vars.t)
  : Vars.t :=
  fold_left (fun v reference =>
               consider prFilter reference (store !! hashKey reference) v)
    references v.

(** The call the comment is posted with. *)
Definition delivery_call (dir url : jsstring) (v : Vars.t) (comment : jsstring)
  : github_call :=
  if truthy_id (Vars.issueCommentId v)
  then addPRCommentReply url (default 0 (Vars.issueCommentId v)) comment
  else if truthy_string (Vars.originalCommit v)
  then addPRCommitComment url (default [] (Vars.originalCommit v)) dir comment
  else addPRComment url comment.

(** The [issueCommentId] written once the call has answered [id]. *)
Definition recorded_id (v : Vars.t) (id : Z) : option Z :=
  if truthy_id (Vars.issueCommentId v) || truthy_string (Vars.originalCommit v)
  then Some id
  else Vars.issueCommentId v.

(** The text of the comment. *)
Definition comment_of (env : environment) (messageID : jsstring)
    (parsed : IParsedMBox) (text : jsstring) : jsstring :=
  (lit "[On the Git mailing list]("
     ++ (lit "https://public-inbox.org/git/" ++ messageID) ++ lit "), "
     ++ (if truthy_string (from parsed)
         then strip_address env (default [] (from parsed))
         else lit "Somebody")
     ++ lit " wrote ([reply to this](" ++ replyToThisURL
     ++ lit ")):" ++ [10; 10]) ++ text.

Arguments comment_of : simpl never.
Arguments delivery_call : simpl never.

(** The target of a mail: [resolved] over the references already seen. *)
Definition target (prFilter : option (jsstring -> bool)) (st : state)
    (references : list jsstring) : Vars.t :=
  resolved prFilter (notes st) (List.filter (seen st) references) Vars.undefined.

(** The note written for a mail once GitHub has answered [id]. *)
Definition note_of (messageID url : jsstring) (v : Vars.t) (id : Z) : note :=
  MailMetadata {| issueCommentId := recorded_id v id;
                  messageID := messageID;
                  originalCommit := Vars.originalCommit v;
                  pullRequestURL := url |}.

Arguments target : simpl never.
Arguments note_of : simpl never.

(** ** The ways [mboxHandler] ends on a mail not seen before *)

Section Outcomes.

Context (env : environment) (prFilter : option (jsstring -> bool)).
Context (mid : jsstring) (refs : list jsstring) (mbox : jsstring) (st : state).

Inductive handled : result unit * state -> Prop :=
| handled_read_failed es :
    Forall (fun e => silent e = true) es ->
    (exists tr key, notes_get_ok env tr key = false) ->
    handled (Throw NotesError, extend es st)
| handled_unresolved es :
    Forall (fun e => silent e = true) es ->
    truthy_string (Vars.pullRequestURL (target prFilter st refs)) = false ->
    handled (Ok tt, extend es st)
| handled_render_failed es :
    Forall (fun e => silent e = true) es ->
    truthy_string (Vars.pullRequestURL (target prFilter st refs)) = true ->
    ((exists tr, parseMBox env tr mbox = None)
     \/ (exists tr parsed, parseMBox env tr mbox = Some parsed
                          /\ mbox2markdown env parsed = None)) ->
    handled (Throw MBoxError, extend es st)
| handled_delivery_failed es url tr parsed text call :
    Forall (fun e => silent e = true) es ->
    Vars.pullRequestURL (target prFilter st refs) = Some url -> url <> [] ->
    parseMBox env tr mbox = Some parsed ->
    mbox2markdown env parsed = Some text ->
    call = delivery_call (workDir env) url (target prFilter st refs)
             (comment_of env mid parsed text) ->
    github env (trace st ++ es) call = None ->
    handled (Throw GitHubError, extend (es ++ [EvGitHub mid call]) st)
| handled_record_failed es url tr parsed text call id value :
    Forall (fun e => silent e = true) es ->
    Vars.pullRequestURL (target prFilter st refs) = Some url -> url <> [] ->
    parseMBox env tr mbox = Some parsed ->
    mbox2markdown env parsed = Some text ->
    call = delivery_call (workDir env) url (target prFilter st refs)
             (comment_of env mid parsed text) ->
    github env (trace st ++ es) call = Some id ->
    value = note_of mid url (target prFilter st refs) id ->
    notes_set_ok env (trace st ++ es ++ [EvGitHub mid call]) mid value = false ->
    handled (Throw NotesError,
             extend (es ++ [EvGitHub mid call; EvNotesSet mid value false]) st)
| handled_delivered es url tr parsed text call id value :
    Forall (fun e => silent e = true) es ->
    Vars.pullRequestURL (target prFilter st refs) = Some url -> url <> [] ->
    parseMBox env tr mbox = Some parsed ->
    mbox2markdown env parsed = Some text ->
    call = delivery_call (workDir env) url (target prFilter st refs)
             (comment_of env mid parsed text) ->
    github env (trace st ++ es) call = Some id ->
    value = note_of mid url (target prFilter st refs) id ->
    notes_set_ok env (trace st ++ es ++ [EvGitHub mid call]) mid value = true ->
    handled (Ok tt,
             set_keys ({[hashKey mid]} ∪ keys st)
               (set_notes (<[hashKey mid := value]> (notes st))
                  (extend (es ++ [EvGitHub mid call; EvNotesSet mid value false]) st))).

End Outcomes.

(** What one mail changes: the trace grows by [es], the keys grow by the
    digest of the mail at most, and GitHub is called for this mail only. *)
Record mail_effect (mid : jsstring) (st st' : state) (es : list event) : Prop := {
  effect_trace : trace st' = trace st ++ es;
  effect_keys : keys st ⊆ keys st';
  effect_new_keys : keys st' ⊆ {[hashKey mid]} ∪ keys st;
  effect_this_state : this_state st' = this_state st;
  effect_buffer : buffer st' = buffer st;
  effect_counter : counter st' = counter st;
  effect_calls : forall mid' call, In (mid', call) (github_calls es) -> mid' = mid;
  effect_parse_ids : List.filter is_parse_ids es = [];
}.

(** ** Why a mail has no target *)

(** The note of [reference] is the record of a mail with a pull request. *)
Definition carries_url (store : gmap (list Z) note) (reference : jsstring) : bool :=
  match store !! hashKey reference with
  | Some (MailMetadata data) => truthy_string (Some (pullRequestURL data))
  | _ => false
  end.

(** The pull request of [reference] is refused by the filter of the caller. *)
Definition vetoed (prFilter : option (jsstring -> bool))
    (store : gmap (list Z) note) (reference : jsstring) : bool :=
  match store !! hashKey reference, prFilter with
  | Some (MailMetadata data), Some accepts => negb (accepts (pullRequestURL data))
  | _, _ => false
  end.

(** ** The ways [lineHandler] ends on a line *)

(** A line of the hunk goes to the buffer and the counter goes down. *)
Definition collect (line : jsstring) (st : state) : state :=
  set_counter (decrement (counter st))
    (set_buffer (buffer st ++ substr 1 line ++ [10]) st).

Section Steps.

Context (env : environment) (prFilter : option (jsstring -> bool)).
Context (line : jsstring) (st : state).

Inductive stepped : state -> Prop :=
| stepped_header group3 :
    startsWith line (lit "@@ ") = true ->
    match_hunk_header line = Some group3 ->
    stepped (set_buffer [] (set_counter (parseInt group3) st))
| stepped_other_header :
    startsWith line (lit "@@ ") = true ->
    match_hunk_header line = None ->
    stepped st
| stepped_seeking :
    startsWith line (lit "@@ ") = false ->
    truthy_number (counter st) = false ->
    stepped st
| stepped_collecting :
    startsWith line (lit "@@ ") = false ->
    truthy_number (counter st) = true ->
    truthy_number (decrement (counter st)) = true ->
    stepped (collect line st)
| stepped_unparsed :
    startsWith line (lit "@@ ") = false ->
    truthy_number (counter st) = true ->
    truthy_number (decrement (counter st)) = false ->
    parseMBoxMessageIDAndReferences env (trace st) (buffer (collect line st)) = None ->
    stepped (extend [EvParseIds (buffer (collect line st));
                     EvConsole (LogSkipping MBoxError)] (collect line st))
| stepped_known mid refs :
    startsWith line (lit "@@ ") = false ->
    truthy_number (counter st) = true ->
    truthy_number (decrement (counter st)) = false ->
    parseMBoxMessageIDAndReferences env (trace st) (buffer (collect line st))
      = Some (mid, refs) ->
    seen st mid = true ->
    stepped (extend [EvParseIds (buffer (collect line st))] (collect line st))
| stepped_handled mid refs st' :
    startsWith line (lit "@@ ") = false ->
    truthy_number (counter st) = true ->
    truthy_number (decrement (counter st)) = false ->
    parseMBoxMessageIDAndReferences env (trace st) (buffer (collect line st))
      = Some (mid, refs) ->
    seen st mid = false ->
    handled env prFilter mid refs (buffer (collect line st))
      (extend [EvParseIds (buffer (collect line st))] (collect line st))
      (Ok tt, st') ->
    stepped st'
| stepped_skipped mid refs reason st' :
    startsWith line (lit "@@ ") = false ->
    truthy_number (counter st) = true ->
    truthy_number (decrement (counter st)) = false ->
    parseMBoxMessageIDAndReferences env (trace st) (buffer (collect line st))
      = Some (mid, refs) ->
    seen st mid = false ->
    handled env prFilter mid refs (buffer (collect line st))
      (extend [EvParseIds (buffer (collect line st))] (collect line st))
      (Throw reason, st') ->
    stepped (record (EvConsole (LogSkipping reason)) st').

End Steps.

(** ** Hunks *)

(** A run of digits, at least one. *)
Definition digits (ds : jsstring) : Prop :=
  ds <> [] /\ Forall (fun c => is_digit c = true) ds.

(** The range of the old file in a hunk header: a line number, with or
    without a count. *)
Definition old_range (r : jsstring) : Prop :=
  digits r \/ exists a b, digits a /\ digits b /\ r = a ++ 44 :: b.

(** A hunk header whose new range has the start [c] and the count [ds]:
    [@@ -old +c,ds] and what follows. *)
Definition hunk_header (old c ds tail : jsstring) : jsstring :=
  lit "@@ -" ++ old ++ lit " +" ++ c ++ [44] ++ ds ++ tail.

(** What [tail] starts with is not a digit. *)
Definition no_digit_ahead (tail : jsstring) : Prop :=
  match tail with
  | c :: _ => is_digit c = false
  | [] => True
  end.

(** The lines of a hunk as they are put in the buffer. *)
Definition collected (lines : list jsstring) : jsstring :=
  flat_map (fun line => substr 1 line ++ [10]) lines.

(** ** The scan *)

Definition ls_tree_args (env : environment) : list jsstring :=
  [lit "ls-tree"; lit "-r"; notesRef env ++ lit ":"].

Definition log_args (from_revision head : jsstring) : list jsstring :=
  [lit "log"; lit "-p"; lit "--reverse"; from_revision ++ lit ".." ++ head].

(** The state once the notes are listed as [out], the variables are set and
    the first revision is filled in. *)
Definition started (env : environment) (out : jsstring) (st : state) : state :=
  let st := record (EvGit (ls_tree_args env) (workDir env)) st in
  let st := set_counter (Num 0) (set_buffer [] (set_keys (keys_of_ls_tree out) st)) in
  if truthy_string (latestRevision (this_state st)) then st
  else set_this_state {| latestRevision := Some first_revision |} st.

(** The state once the head of the archive is asked for. *)
Definition asked (env : environment) (out : jsstring) (st : state) : state :=
  record (EvRevParse (lit "master") (publicInboxGitDir env)) (started env out st).

(** The state once the log from the cursor to [head] is asked for. *)
Definition logging (env : environment) (out head : jsstring) (st : state) : state :=
  record (EvGit (log_args (cursor (this_state st)) head) (publicInboxGitDir env))
    (asked env out st).

(** ** A small world to run the scan in *)

Module Demo.

(** A mail is read as its Message-ID on the first line and one reference
    on each following line. *)
Definition parse_ids (mbox : jsstring) : option (jsstring * list jsstring) :=
  match split_newline mbox [] with
  | mid :: rest => Some (mid, List.filter (fun r => negb (bool_decide (r = []))) rest)
  | [] => None
  end.

Definition parsed : IParsedMBox :=
  {| from := Some (lit "A U Thor <author@example.com>");
     headers := Some []; body := lit "Hello" |}.

(** Every call succeeds; GitHub numbers the comments from 1000 on. *)
Definition env (ls_tree : jsstring) (head : jsstring) (log : list jsstring)
  : environment :=
  {| notesRef := lit "refs/notes/gitgitgadget";
     workDir := lit ".";
     publicInboxGitDir := lit "public-inbox";
     git := fun _ _ _ => Some ls_tree;
     git_lines := fun _ _ _ => (log, true);
     revParse := fun _ _ _ => Some head;
     notes_get_ok := fun _ _ => true;
     notes_set_ok := fun _ _ _ => true;
     github := fun tr _ => Some (1000 + Z.of_nat (length tr));
     parseMBoxMessageIDAndReferences := fun _ => parse_ids;
     parseMBox := fun _ _ => Some parsed;
     mbox2markdown := fun p => Some (body p);
     strip_address := fun s => s |}.

(** The same world with GitHub down. *)
Definition env_github_down (e : environment) : environment :=
  {| notesRef := notesRef e; workDir := workDir e;
     publicInboxGitDir := publicInboxGitDir e;
     git := git e; git_lines := git_lines e; revParse := revParse e;
     notes_get_ok := notes_get_ok e; notes_set_ok := notes_set_ok e;
     github := fun _ _ => None;
     parseMBoxMessageIDAndReferences := parseMBoxMessageIDAndReferences e;
     parseMBox := parseMBox e; mbox2markdown := mbox2markdown e;
     strip_address := strip_address e |}.

(** The same world where the notes of mails cannot be written (the state of
    the mirror can). *)
Definition env_notes_readonly (e : environment) : environment :=
  {| notesRef := notesRef e; workDir := workDir e;
     publicInboxGitDir := publicInboxGitDir e;
     git := git e; git_lines := git_lines e; revParse := revParse e;
     notes_get_ok := notes_get_ok e;
     notes_set_ok := fun _ key _ => bool_decide (key = stateKey);
     github := github e;
     parseMBoxMessageIDAndReferences := parseMBoxMessageIDAndReferences e;
     parseMBox := parseMBox e; mbox2markdown := mbox2markdown e;
     strip_address := strip_address e |}.

Definition url : jsstring := lit "https://github.com/gitgitgadget/git/pull/5".

Definition A : IMailMetadata :=
  {| messageID := lit "a@x"; pullRequestURL := url;
     originalCommit := None; issueCommentId := None |}.
Definition B : IMailMetadata :=
  {| messageID := lit "b@x"; pullRequestURL := url;
     originalCommit := None; issueCommentId := Some 7 |}.
Definition C : IMailMetadata :=
  {| messageID := lit "c@x"; pullRequestURL := url;
     originalCommit := Some (lit "c0ffee"); issueCommentId := None |}.

Definition store_of (records : list IMailMetadata) : gmap (list Z) note :=
  fold_left (fun m r => <[hashKey (messageID r) := MailMetadata r]> m) records ∅.

Definition state_of (records : list IMailMetadata) (revision : option jsstring)
  : state :=
  {| this_state := {| latestRevision := revision |};
     notes := store_of records;
     keys := dom (store_of records);
     buffer := []; counter := Num 0; trace := [] |}.

(** The listing of the notes of [records], as [git ls-tree -r] prints it. *)
Definition ls_tree_of (records : list IMailMetadata) : jsstring :=
  flat_map (fun r =>
              lit "100644 blob " ++ repeat 48 40 ++ [9]
                ++ firstn 2 (hashKey (messageID r)) ++ [47]
                ++ skipn 2 (hashKey (messageID r)) ++ [10]) records.

(** A mail not seen before, and a world with nothing to scan. *)
Definition M0 : jsstring := lit "m@x".
Definition world : environment := env [] (lit "h1") [].

(** The diff that adds the mail [M0], which refers to A. *)
Definition diff_of_M0 : list jsstring :=
  [lit "diff --git a/m b/m"; lit "@@ -0,0 +1,2 @@"; lit "+m@x"; lit "+a@x"].

(** A world where A is known and [M0] has arrived. *)
Definition world_with_M0 : environment :=
  env (ls_tree_of [A]) (lit "h1") diff_of_M0.

End Demo.

(** ** More observations on the scan *)

(** A read of the notes. *)
Definition is_notes_get (e : event) : bool :=
  match e with EvNotesGet _ => true | _ => false end.

(** The pull request a call is made on. *)
Definition url_of_call (call : github_call) : jsstring :=
  match call with
  | addPRCommentReply url _ _ => url
  | addPRCommitComment url _ _ _ => url
  | addPRComment url _ => url
  end.

(** The selection made from the note [data] of [reference]. *)
Definition selection (reference : jsstring) (data : IMailMetadata) : Vars.t :=
  {| Vars.pullRequestURL := Some (pullRequestURL data);
     Vars.issueCommentId := issueCommentId data;
     Vars.originalCommit :=
       if startsWith reference (lit "pull") then None else originalCommit data |}.

(** Some note of a mail in [store] has the pull request [url]. *)
Definition url_known (store : gmap (list Z) note) (url : jsstring) : Prop :=
  exists digest data,
    store !! digest = Some (MailMetadata data) /\ pullRequestURL data = url.

(** *** The listing of the notes *)

(** A lower-case hexadecimal digit. *)
Definition is_hex_digit (c : Z) : bool :=
  ((48 <=? c) && (c <=? 57)) || ((97 <=? c) && (c <=? 102)).

(** The path of a note in the tree of the notes: at each level of the
    fan-out two more digits of the digest make a directory. *)
Fixpoint fan_out (levels : nat) (digest : jsstring) : jsstring :=
  match levels with
  | O => digest
  | S levels => firstn 2 digest ++ [47] ++ fan_out levels (skipn 2 digest)
  end.

(** A line of [git ls-tree -r]: mode, type, object name, a tab and the
    path. *)
Definition ls_tree_line (object path : jsstring) : jsstring :=
  lit "100644 blob " ++ object ++ [9] ++ path.

(** The output of [git ls-tree -r] for the notes of [entries]: each has
    the name of its object, and the levels of the fan-out and the digest
    that make its path. *)
Definition ls_tree_output (entries : list (jsstring * (nat * jsstring)))
  : jsstring :=
  flat_map (fun entry =>
              ls_tree_line (fst entry) (fan_out (fst (snd entry)) (snd (snd entry)))
                ++ [10])
    entries.

(** ** [PublicInboxGitHelper.get] *)

Section Get.

Context (env : environment).

(** [await gggNotes.get<IGitMailingListMirrorState>(stateKey) || {}]: a
    note that is not a state of the mirror has no [latestRevision]. *)
Definition PublicInboxGitHelper_get : M unit :=
  await data <- notes_get env stateKey;
  let state :=
    match data with
    | Some (MirrorState s) => s
    | Some (MailMetadata _) => {| latestRevision := None |}
    | None => {| latestRevision := None |}
    end in
  modify (set_this_state state).

End Get.

(** ** [mbox2markdown] *)

Module Markdown.

Definition is_blank (c : Z) : bool := (c =? 9) || (c =? 32).

(** The line terminators before which [$] matches under the [m] flag. *)
Definition is_line_terminator (c : Z) : bool :=
  (c =? 10) || (c =? 13) || (c =? 0x2028) || (c =? 0x2029).

Definition at_line_end (rest : jsstring) : bool :=
  match rest with
  | [] => true
  | d :: _ => is_line_terminator d
  end.

(** [.replace(/[\t\x20]$/gm, "")]: a tab or a space is removed where the
    input ends or a line terminator follows. *)
Fixpoint strip_blank_at_line_end (s : jsstring) : jsstring :=
  match s with
  | [] => []
  | c :: rest =>
      if is_blank c && at_line_end rest
      then strip_blank_at_line_end rest
      else c :: strip_blank_at_line_end rest
  end.

(** [.replace(/=(?:\r\n?|\n|$)/g, "")]: without the [m] flag [$] matches at
    the end of the input only. *)
Fixpoint remove_soft_breaks (s : jsstring) : jsstring :=
  match s with
  | [] => []
  | c :: rest =>
      if c =? 61 then
        match rest with
        | [] => []
        | d :: rest' =>
            if d =? 13 then
              match rest' with
              | [] => []
              | e :: rest'' =>
                  if e =? 10 then remove_soft_breaks rest''
                  else remove_soft_breaks rest'
              end
            else if d =? 10 then remove_soft_breaks rest'
            else c :: remove_soft_breaks rest
        end
      else c :: remove_soft_breaks rest
  end.

(** [[a-fA-F0-9]] *)
Definition is_hex (c : Z) : bool :=
  ((48 <=? c) && (c <=? 57)) || ((65 <=? c) && (c <=? 70))
  || ((97 <=? c) && (c <=? 102)).

Definition hex_value (c : Z) : Z :=
  if c <=? 57 then c - 48 else if c <=? 70 then c - 55 else c - 87.

(** [.replace(/=([a-fA-F0-9]{2})/g, ...)]: [parseInt($1, 16)] of the two
    digits, made a code unit by [String.fromCharCode]; what replaces a match
    is not scanned again. *)
Fixpoint decode_escapes (s : jsstring) : jsstring :=
  match s with
  | [] => []
  | c :: rest =>
      match rest with
      | h :: l :: rest' =>
          if (c =? 61) && is_hex h && is_hex l
          then (16 * hex_value h + hex_value l) :: decode_escapes rest'
          else c :: decode_escapes rest
      | _ => c :: decode_escapes rest
      end
  end.

Definition quoted_printable (body : jsstring) : jsstring :=
  decode_escapes (remove_soft_breaks (strip_blank_at_line_end body)).

Definition ascii_lower (c : Z) : Z :=
  if (65 <=? c) && (c <=? 90) then c + 32 else c.

(** [value.toLowerCase() === target] for a target of ASCII lower-case
    letters other than [k], digits and hyphens. [toLowerCase] maps [A]-[Z]
    to [a]-[z]; of the characters outside ASCII only the Kelvin sign
    becomes an ASCII letter, which is [k]: against such a target the
    comparison is that of the ASCII lower-casing. *)
Definition lower_is (value target : jsstring) : bool :=
  bool_decide (map ascii_lower value = target).

Definition fence : jsstring := lit "``````````" ++ [10].

Definition endsWith_newline (s : jsstring) : bool :=
  match rev s with
  | c :: _ => c =? 10
  | [] => false
  end.

(** The last statements of [mbox2markdown], on the decoded body. *)
Definition fenced (body : jsstring) : jsstring :=
  if (length body =? 0)%nat then []
  else fence ++ body ++ (if endsWith_newline body then [] else [10]) ++ fence.

Section Decode.

(** [Buffer.from(body, "base64").toString()], which is Node's. *)
Variable base64 : jsstring -> jsstring.

(** The body of the loop over the headers. *)
Definition decode_header (body : jsstring) (header : jsstring * jsstring)
  : jsstring :=
  if bool_decide (fst header = lit "Content-Transfer-Encoding") then
    if lower_is (snd header) (lit "base64") then base64 body
    else if lower_is (snd header) (lit "quoted-printable")
         then quoted_printable body
         else body
  else body.

(** [mbox.headers!] asserts nothing when the program runs: without headers
    the loop throws. *)
Definition mbox2markdown (mbox : IParsedMBox) : option jsstring :=
  match headers mbox with
  | None => None
  | Some hs => Some (fenced (fold_left decode_header hs (body mbox)))
  end.

End Decode.

(** A byte as [=XX], in upper or in lower case. *)
Definition hex_char (upper : bool) (n : Z) : Z :=
  if n <? 10 then 48 + n else (if upper then 55 else 87) + n.

Definition escape (upper : bool) (b : Z) : jsstring :=
  [61; hex_char upper (b / 16); hex_char upper (b mod 16)].

End Markdown.

(** ** The [/submit] command of the app *)

Module Probot.

(** The parts of the payload of the webhook, and of the answer of GitHub,
    that the handler reads. A property that is missing is [None]; a string
    is falsy when it is missing or empty, a number when it is missing or
    zero, an object when it is missing. *)
Record Account := { login : option jsstring }.
Record Comment := { user : option Account }.
Record Link := { html_url : option jsstring }.
Record Issue := {
  pull_request : option Link;
  title : option jsstring;
  body : option jsstring;
  number : option Z;
}.
Record Repository := { owner : option Account; name : option jsstring }.
Record Payload := {
  comment : option Comment;
  issue : option Issue;
  repository : option Repository;
}.
Record Command := { arguments : option jsstring }.
Record Branch := { label : option jsstring; sha : option jsstring }.
#[warnings="-register-all"] Inductive PullRequest := {
  base : option Branch;
  head : option Branch;
  data : option PullRequest;
}.

(** What [console.log] is given. *)
Inductive message :=
| GettingInstance
| NoUser
| NoURL
| EmptyTitleOrBody
| NoPR
| NoDetails (pr : option PullRequest).

(** What the handler does to the world around it. *)
Inductive effect :=
| ConsoleLog (m : message)
| CreateComment (text : jsstring)
| GitGitGadget_get
| PullRequests_get (issue_number : option Z) (owner_login repo : option jsstring)
| GitGitGadget_submit (gitHubUser pullRequestURL description
                       baseLabel baseCommit headLabel headCommit : jsstring).

(** A promise, once settled. *)
Inductive settled (A : Type) :=
| Fulfilled (a : A)
| Rejected (reason : jsstring).
Arguments Fulfilled {A} a.
Arguments Rejected {A} reason.

(** The answers of GitGitGadget and of GitHub, which may depend on what was
    done so far. *)
Record world := {
  get : list effect -> settled unit;
  pullRequests_get :
    list effect -> option Z -> option jsstring -> option jsstring ->
    settled (option PullRequest);
  submit :
    list effect -> jsstring -> jsstring -> jsstring -> jsstring -> jsstring ->
    jsstring -> jsstring -> settled jsstring;
  createComment : list effect -> jsstring -> settled unit;
}.

(** What is thrown: the reason of a rejected promise, or the TypeError of a
    property read off [undefined]. *)
Inductive thrown :=
| TypeError
| Reason (reason : jsstring).

Inductive outcome (A : Type) :=
| Returns (a : A)
| Throws (t : thrown).
Arguments Returns {A} a.
Arguments Throws {A} t.

(** The variable [gitGitGadget] of the app, and what was done. *)
Record app := {
  gitGitGadget : bool;
  done : list effect;
}.

Definition P (A : Type) : Type := app -> outcome A * app.

Definition pure {A} (a : A) : P A := fun st => (Returns a, st).
Definition throw {A} (t : thrown) : P A := fun st => (Throws t, st).
Definition and_then {A B} (m : P A) (k : A -> P B) : P B :=
  fun st =>
    match m st with
    | (Returns a, st') => k a st'
    | (Throws t, st') => (Throws t, st')
    end.
Definition catch {A} (m : P A) (handler : thrown -> P A) : P A :=
  fun st =>
    match m st with
    | (Returns a, st') => (Returns a, st')
    | (Throws t, st') => handler t st'
    end.

Notation "'perform' x <- m ; k" := (and_then m (fun x => k))
  (at level 10, x name, m at level 100, k at level 200).

Definition emit (e : effect) (st : app) : app :=
  {| gitGitGadget := gitGitGadget st; done := done st ++ [e] |}.

Definition console_log (m : message) : P unit :=
  fun st => (Returns tt, emit (ConsoleLog m) st).

Definition call {A} (e : effect) (answer : list effect -> settled A) : P A :=
  fun st =>
    match answer (done st) with
    | Fulfilled a => (Returns a, emit e st)
    | Rejected reason => (Throws (Reason reason), emit e st)
    end.

(** [`${reason}`]. *)
Definition text_of (t : thrown) : jsstring :=
  match t with
  | Reason reason => reason
  | TypeError => lit "TypeError"
  end.

Definition is_some {A} (o : option A) : bool :=
  match o with Some _ => true | None => false end.

(** A property of an object that may be missing, read where the code has
    made sure, or still tests, that the object is there. *)
Definition property {A B} (o : option A) (f : A -> option B) : option B :=
  match o with
  | Some a => f a
  | None => None
  end.

Notation "o ?. f" := (property o f) (at level 50, left associativity).

Section Handler.
Context (w : world).

Definition addComment (text : jsstring) : P unit :=
  call (CreateComment text) (fun tr => createComment w tr text).

Definition the_instance : P unit :=
  fun st =>
    if gitGitGadget st then (Returns tt, st)
    else
      (perform _ <- console_log GettingInstance;
       perform _ <- call GitGitGadget_get (get w);
       fun st' => (Returns tt, {| gitGitGadget := true; done := done st' |})) st.

(** [if (pr && !pr.base && pr.data && pr.data.base) pr = pr.data]. *)
Definition unwrapped (pr : option PullRequest) : option PullRequest :=
  match pr with
  | Some r =>
      if negb (is_some (base r)) && is_some (data r)
         && is_some (data r ?. base)
      then data r
      else pr
  | None => None
  end.

Definition submitted_as (coverMid : jsstring) : jsstring :=
  lit "Submitted as [" ++ coverMid ++ lit "](https://public-inbox.org/git/"
  ++ coverMid ++ lit ")".

Definition error_occurred (reason : thrown) : jsstring :=
  lit "An error occurred while submitting:" ++ [10; 10] ++ text_of reason.

Definition handler (context : Payload) (command : Command) : P unit :=
  if truthy_string (arguments command)
  then addComment (lit "/submit does not take arguments")
  else
    perform _ <- the_instance;
    let gitHubUser := comment context ?. user ?. login in
    if negb (truthy_string gitHubUser)
    then console_log NoUser
    else
      match issue context with
      | None => console_log NoURL
      | Some issue =>
          let pullRequestURL := pull_request issue ?. html_url in
          if negb (truthy_string pullRequestURL)
          then console_log NoURL
          else if negb (truthy_string (title issue))
                  || negb (truthy_string (body issue))
          then console_log EmptyTitleOrBody
          else
            let description :=
              default [] (title issue) ++ [10; 10] ++ default [] (body issue) in
            let repository := repository context in
            perform _ <-
              (if negb (is_some repository)
                  || negb (is_some (repository ?. owner))
                  || negb (truthy_string (repository ?. owner ?. login))
                  || negb (truthy_string (repository ?. name))
                  || negb (truthy_id (number issue))
               then console_log NoPR
               else pure tt);
            match repository with
            | None => throw (A := unit) TypeError
            | Some repository =>
                match owner repository with
                | None => throw (A := unit) TypeError
                | Some account =>
                    perform pr <-
                      call (PullRequests_get (number issue) (login account)
                              (name repository))
                        (fun tr => pullRequests_get w tr (number issue)
                                     (login account) (name repository));
                    let pr := unwrapped pr in
                    if negb (is_some pr)
                       || negb (is_some (pr ?. base))
                       || negb (truthy_string (pr ?. base ?. label))
                       || negb (truthy_string (pr ?. base ?. sha))
                       || negb (is_some (pr ?. head))
                       || negb (truthy_string (pr ?. head ?. label))
                       || negb (truthy_string (pr ?. head ?. sha))
                    then console_log (NoDetails pr)
                    else
                      let gitHubUser := default [] gitHubUser in
                      let pullRequestURL := default [] pullRequestURL in
                      let baseLabel := default [] (pr ?. base ?. label) in
                      let baseCommit := default [] (pr ?. base ?. sha) in
                      let headLabel := default [] (pr ?. head ?. label) in
                      let headCommit := default [] (pr ?. head ?. sha) in
                      catch
                        (perform coverMid <-
                           call (GitGitGadget_submit gitHubUser pullRequestURL
                                   description baseLabel baseCommit headLabel
                                   headCommit)
                             (fun tr => submit w tr gitHubUser pullRequestURL
                                          description baseLabel baseCommit
                                          headLabel headCommit);
                         addComment (submitted_as coverMid))
                        (fun reason => addComment (error_occurred reason))
                end
            end
      end.

End Handler.

(** What a run of the handler did. *)
Definition effects (before : app) (after : app) : list effect :=
  skipn (length (done before)) (done after).

Definition is_comment (e : effect) : bool :=
  match e with CreateComment _ => true | _ => false end.
Definition is_submit (e : effect) : bool :=
  match e with GitGitGadget_submit _ _ _ _ _ _ _ => true | _ => false end.
Definition is_pullRequests_get (e : effect) : bool :=
  match e with PullRequests_get _ _ _ => true | _ => false end.
Definition is_get (e : effect) : bool :=
  match e with GitGitGadget_get => true | _ => false end.

End Probot.

(** ** More small worlds *)

Module Worlds.
Import Demo.

(** The same world where the head of the archive cannot be resolved. *)
Definition env_archive_down (e : environment) : environment :=
  {| notesRef := notesRef e; workDir := workDir e;
     publicInboxGitDir := publicInboxGitDir e;
     git := git e; git_lines := git_lines e; revParse := fun _ _ _ => None;
     notes_get_ok := notes_get_ok e; notes_set_ok := notes_set_ok e;
     github := github e;
     parseMBoxMessageIDAndReferences := parseMBoxMessageIDAndReferences e;
     parseMBox := parseMBox e; mbox2markdown := mbox2markdown e;
     strip_address := strip_address e |}.

(** The same world where the log of the archive gives its lines and then
    fails. *)
Definition env_log_fails (e : environment) : environment :=
  {| notesRef := notesRef e; workDir := workDir e;
     publicInboxGitDir := publicInboxGitDir e;
     git := git e;
     git_lines := fun tr args dir => (fst (git_lines e tr args dir), false);
     revParse := revParse e;
     notes_get_ok := notes_get_ok e; notes_set_ok := notes_set_ok e;
     github := github e;
     parseMBoxMessageIDAndReferences := parseMBoxMessageIDAndReferences e;
     parseMBox := parseMBox e; mbox2markdown := mbox2markdown e;
     strip_address := strip_address e |}.

(** The same world where the notes cannot be read. *)
Definition env_notes_unreadable (e : environment) : environment :=
  {| notesRef := notesRef e; workDir := workDir e;
     publicInboxGitDir := publicInboxGitDir e;
     git := git e; git_lines := git_lines e; revParse := revParse e;
     notes_get_ok := fun _ _ => false; notes_set_ok := notes_set_ok e;
     github := github e;
     parseMBoxMessageIDAndReferences := parseMBoxMessageIDAndReferences e;
     parseMBox := parseMBox e; mbox2markdown := mbox2markdown e;
     strip_address := strip_address e |}.

(** The same world where no mail can be parsed for its Message-ID. *)
Definition env_unparsable (e : environment) : environment :=
  {| notesRef := notesRef e; workDir := workDir e;
     publicInboxGitDir := publicInboxGitDir e;
     git := git e; git_lines := git_lines e; revParse := revParse e;
     notes_get_ok := notes_get_ok e; notes_set_ok := notes_set_ok e;
     github := github e;
     parseMBoxMessageIDAndReferences := fun _ _ => None;
     parseMBox := parseMBox e; mbox2markdown := mbox2markdown e;
     strip_address := strip_address e |}.

(** A filter that accepts the pull requests of one organisation. *)
Definition of_gitgitgadget (pullRequestURL : jsstring) : bool :=
  startsWith pullRequestURL (lit "https://github.com/gitgitgadget/").

(** A pull request as GitHub answers it, under [data]. *)
Definition pr : Probot.PullRequest :=
  {| Probot.base := Some {| Probot.label := Some (lit "gitgitgadget:master");
                            Probot.sha := Some (lit "b0") |};
     Probot.head := Some {| Probot.label := Some (lit "dscho:fix");
                            Probot.sha := Some (lit "h0") |};
     Probot.data := None |}.

Definition answer : Probot.PullRequest :=
  {| Probot.base := None; Probot.head := None; Probot.data := Some pr |}.

(** GitHub and GitGitGadget do what they are asked. *)
Definition up : Probot.world :=
  {| Probot.get := fun _ => Probot.Fulfilled tt;
     Probot.pullRequests_get := fun _ _ _ _ => Probot.Fulfilled (Some answer);
     Probot.submit := fun _ _ _ _ _ _ _ _ => Probot.Fulfilled (lit "cover@mid");
     Probot.createComment := fun _ _ => Probot.Fulfilled tt |}.

(** The same, but GitHub refuses the first comment. *)
Definition comment_refused : Probot.world :=
  {| Probot.get := fun _ => Probot.Fulfilled tt;
     Probot.pullRequests_get := fun _ _ _ _ => Probot.Fulfilled (Some answer);
     Probot.submit := fun _ _ _ _ _ _ _ _ => Probot.Fulfilled (lit "cover@mid");
     Probot.createComment := fun tr _ =>
       if existsb Probot.is_comment tr then Probot.Fulfilled tt
       else Probot.Rejected (lit "Not Found") |}.

Definition the_issue : Probot.Issue :=
  {| Probot.pull_request := Some {| Probot.html_url := Some url |};
     Probot.title := Some (lit "Fix");
     Probot.body := Some (lit "It works");
     Probot.number := Some 5 |}.

Definition payload : Probot.Payload :=
  {| Probot.comment :=
       Some {| Probot.user := Some {| Probot.login := Some (lit "dscho") |} |};
     Probot.issue := Some the_issue;
     Probot.repository :=
       Some {| Probot.owner := Some {| Probot.login := Some (lit "gitgitgadget") |};
               Probot.name := Some (lit "git") |} |}.

Definition payload_without_repository : Probot.Payload :=
  {| Probot.comment := Probot.comment payload;
     Probot.issue := Probot.issue payload;
     Probot.repository := None |}.

Definition plain : Probot.Command := {| Probot.arguments := None |}.

Definition fresh : Probot.app := {| Probot.gitGitGadget := false; Probot.done := [] |}.
Definition warm : Probot.app := {| Probot.gitGitGadget := true; Probot.done := [] |}.

Definition the_submission : Probot.effect :=
  Probot.GitGitGadget_submit (lit "dscho") url (lit "Fix" ++ [10; 10] ++ lit "It works")
    (lit "gitgitgadget:master") (lit "b0") (lit "dscho:fix") (lit "h0").

End Worlds.
Example sha1_abc :
  Sha1.hex (Sha1.digest (ascii_bytes "abc")) = lit "a9993e364706816aba3e25717850c26c9cd0d89d".
Proof. vm_compute. reflexivity. Qed.

Example hashKey_empty :
  hashKey [] = lit "8b137891791fe96927ad78e64b0aad7bded08bdc".
Proof. vm_compute. reflexivity. Qed.

Example hashKey_abc :
  hashKey (lit "abc") = lit "8baef1b4abc478178b004d62031cf7fe6db6f903".
Proof. vm_compute. reflexivity. Qed.

(** U+00E9 and U+20AC: two code units, five bytes. *)
Example hashKey_accents :
  hashKey [0xE9; 0x20AC] = lit "81c40fca67c4b5307e78b82fe23150cc037aa059".
Proof. vm_compute. reflexivity. Qed.

(** U+1F600 as a surrogate pair: two code units, four bytes. *)
Example hashKey_pair :
  hashKey [0xD83D; 0xDE00] = lit "b41d3dbc54bd11bd42b47123dd20d9527191493d".
Proof. vm_compute. reflexivity. Qed.

(** More than one SHA-1 block. *)
Example hashKey_long :
  hashKey (repeat 97 70) = lit "1bbb1ffec8319e82cfb887ea547dfc17484f4bdd".
Proof. vm_compute. reflexivity. Qed.

(** ** The hasher agrees with Git's object name *)

Section HashKey.

Lemma encode_below_0x80 (s : jsstring) :
  Forall (fun u : Z => (u < 0x80)%Z) s -> Utf8.encode s = s.
Proof.
  induction 1 as [|u s' Hu _ IH]; [reflexivity|].
  cbn [Utf8.encode].
  assert (Utf8.is_high u = false) as -> by (unfold Utf8.is_high; lia).
  assert (Utf8.is_low u = false) as -> by (unfold Utf8.is_low; lia).
  unfold Utf8.encode_code_point.
  assert ((u <? 0x80) = true) as -> by lia.
  cbn. by rewrite IH.
Qed.

(** Appending to a string that does not end a surrogate pair with the
    first unit appended. *)
Lemma encode_app_not_low (s t : jsstring) :
  (forall l t', t = l :: t' -> Utf8.is_low l = false) ->
  Utf8.encode (s ++ t) = Utf8.encode s ++ Utf8.encode t.
Proof.
  intros Ht.
  assert (forall n (s : jsstring), (length s <= n)%nat ->
            Utf8.encode (s ++ t) = Utf8.encode s ++ Utf8.encode t) as Hn.
  { induction n as [|n IH]; intros [|u r] Hlen; cbn in Hlen; try lia;
      try reflexivity.
    cbn [app Utf8.encode].
    destruct (Utf8.is_high u) eqn:Hh.
    - destruct r as [|l r'].
      + cbn [app]. destruct t as [|l t'] eqn:Et; [reflexivity|].
        by rewrite (Ht l t' eq_refl).
      + cbn [app]. destruct (Utf8.is_low l).
        * rewrite (IH r') by (cbn in Hlen; lia). by rewrite app_assoc.
        * change (l :: r' ++ t) with ((l :: r') ++ t).
          rewrite (IH (l :: r')) by (cbn in *; lia). by rewrite app_assoc.
    - destruct (Utf8.is_low u);
        rewrite (IH r) by lia; by rewrite app_assoc. }
  by apply (Hn (length s)).
Qed.

Lemma string_of_uint_ascii (d : uint) :
  Forall (fun u : Z => (u < 0x80)%Z) (lit (NilEmpty.string_of_uint d)).
Proof.
  induction d; cbn; constructor; try done; try lia.
Qed.

Lemma number_toString_ascii (n : Z) :
  Forall (fun u : Z => (u < 0x80)%Z) (number_toString n).
Proof.
  unfold number_toString, NilZero.string_of_int, NilZero.string_of_uint.
  destruct (Z.to_int n) as [d|d].
  - destruct d; try apply string_of_uint_ascii. by repeat constructor.
  - change (lit (String "-" ?s)) with (45 :: lit s).
    constructor; [lia|].
    destruct d; try apply string_of_uint_ascii. by repeat constructor.
Qed.

End HashKey.

(** C3: for every string [key] (empty, ASCII or with characters of several
    bytes), [hashKey key] is the SHA-1 hex digest of the bytes
    ["blob " + (byteLength(key)+1) + NUL + key + "\n"], the name Git gives
    the object holding the key and one line feed. *)
Theorem hashKey_is_git_object_name (key : jsstring) :
  hashKey key = Sha1.hex (Sha1.digest (git_blob_bytes key)).
Proof.
  unfold hashKey, digest_hex, update, createHash_sha1, git_blob_bytes; cbn [fed].
  do 2 f_equal. rewrite app_nil_l.
  rewrite encode_below_0x80.
  2:{ apply Forall_app; split; [by repeat constructor|apply number_toString_ascii]. }
  unfold number_toString, Utf8.byteLength.
  change (lit ?s) with (ascii_bytes s).
  rewrite <- app_assoc. do 2 f_equal.
  change ([0] ++ key ++ [10]) with (0 :: (key ++ [10])).
  change (Utf8.encode (0 :: (key ++ [10]))) with ([0] ++ Utf8.encode (key ++ [10])).
  f_equal. apply encode_app_not_low. by intros l t' [= <- <-].
Qed.

(** ** Traces only grow *)

Lemma extend_nil (st : state) : extend [] st = st.
Proof. destruct st; unfold extend; cbn. by rewrite app_nil_r. Qed.

Lemma extend_extend (es1 es2 : list event) (st : state) :
  extend es2 (extend es1 st) = extend (es1 ++ es2) st.
Proof. unfold extend; cbn. by rewrite app_assoc. Qed.

Lemma record_extend (e : event) (es : list event) (st : state) :
  record e (extend es st) = extend (es ++ [e]) st.
Proof. unfold record, extend; cbn. by rewrite app_assoc. Qed.

Lemma events_since_extend (es : list event) (st : state) :
  events_since (trace st) (extend es st) = es.
Proof. unfold events_since; cbn. by rewrite skipn_app, skipn_all, Nat.sub_diag. Qed.

Lemma events_since_frame tr k n (st : state) :
  events_since tr (set_keys k (set_notes n st)) = events_since tr st.
Proof. reflexivity. Qed.

Lemma seen_extend (es : list event) (st : state) (mid : jsstring) :
  seen (extend es st) mid = seen st mid.
Proof. reflexivity. Qed.

(** ** The loop over the known references *)

Section Handlers.

Context (env : environment) (prFilter : option (jsstring -> bool)).

(** The loop only reads the notes; when it ends it has computed
    [resolved], and otherwise a read was rejected. *)
Lemma resolve_shape (references : list jsstring) (v : Vars.t) (st : state) :
  exists es, Forall (fun e => silent e = true) es /\
    (resolve env prFilter references v st
       = (Ok (resolved prFilter (notes st) references v), extend es st)
     \/ (resolve env prFilter references v st = (Throw NotesError, extend es st)
         /\ exists tr key, notes_get_ok env tr key = false)).
Proof.
  revert v st. induction references as [|reference rest IH]; intros v st.
  - exists []. split; [constructor|]. left. cbn. by rewrite extend_nil.
  - cbn [resolve]. unfold bind, notes_get.
    destruct (notes_get_ok env (trace st) reference) eqn:Hget.
    + destruct (IH (consider prFilter reference (notes st !! hashKey reference) v)
                   (record (EvNotesGet reference) st)) as (es & Hes & H).
      exists (EvNotesGet reference :: es). split; [by constructor|].
      change (record (EvNotesGet reference) st) with (extend [EvNotesGet reference] st) in H.
      rewrite extend_extend in H.
      destruct H as [H|H]; [left|right]; exact H.
    + exists [EvNotesGet reference]. split; [by repeat constructor|].
      right. split; [done|]. by exists (trace st), reference.
Qed.

End Handlers.

Section Handled.

Context (env : environment) (prFilter : option (jsstring -> bool)).

Lemma mboxHandler_known (mid : jsstring) (refs : list jsstring)
    (mbox : jsstring) (st : state) :
  seen st mid = true ->
  mboxHandler env prFilter mid refs mbox st = (Ok tt, st).
Proof. intros H. unfold mboxHandler. by rewrite H. Qed.

Lemma deliver_shape (mid url : jsstring) (v : Vars.t) (comment : jsstring)
    (st : state) :
  let call := delivery_call (workDir env) url v comment in
  deliver env mid url v comment st =
    match github env (trace st) call with
    | Some id => (Ok (recorded_id v id), record (EvGitHub mid call) st)
    | None => (Throw GitHubError, record (EvGitHub mid call) st)
    end.
Proof.
  unfold deliver, delivery_call, recorded_id.
  destruct (truthy_id (Vars.issueCommentId v));
    [|destruct (truthy_string (Vars.originalCommit v))];
    unfold bind, call_github, ret; cbn [orb];
    match goal with |- context [github env ?tr ?c] => destruct (github env tr c) end;
    reflexivity.
Qed.

Lemma mboxHandler_handled (mid : jsstring) (refs : list jsstring)
    (mbox : jsstring) (st : state) :
  seen st mid = false ->
  handled env prFilter mid refs mbox st (mboxHandler env prFilter mid refs mbox st).
Proof.
  intros Hseen. unfold mboxHandler. rewrite Hseen. unfold bind at 1.
  destruct (resolve_shape env prFilter (List.filter (seen st) refs) Vars.undefined st)
    as (es & Hes & [Hr|[Hr Hfail]]); rewrite Hr; [|by apply handled_read_failed].
  fold (target prFilter st refs).
  destruct (Vars.pullRequestURL (target prFilter st refs)) as [[|c u]|] eqn:Hurl;
    try (unfold ret; apply handled_unresolved; [done|by rewrite Hurl]).
  assert (silent_log : forall l, Forall (fun e => silent e = true) (es ++ [EvConsole l])).
  { intros l. apply Forall_app; split; [done|by repeat constructor]. }
  unfold bind at 1, console_log, modify. rewrite record_extend.
  set (es1 := es ++ [EvConsole _]).
  assert (Hes1 : Forall (fun e => silent e = true) es1) by apply silent_log.
  unfold bind at 1, call_parseMBox. rewrite record_extend.
  assert (Hes2 : Forall (fun e => silent e = true) (es1 ++ [EvParseMBox mbox])).
  { apply Forall_app; split; [done|by repeat constructor]. }
  destruct (parseMBox env (trace (extend es1 st)) mbox) as [parsed|] eqn:Hparse.
  2:{ apply handled_render_failed; [done|by rewrite Hurl|]. left. eauto. }
  unfold bind at 1, call_mbox2markdown.
  destruct (mbox2markdown env parsed) as [text|] eqn:Htext.
  2:{ apply handled_render_failed; [done|by rewrite Hurl|]. right. eauto. }
  fold (comment_of env mid parsed text).
  unfold bind at 1. rewrite deliver_shape.
  set (call := delivery_call _ _ _ _).
  set (es2 := es1 ++ [EvParseMBox mbox]) in *.
  change (trace (extend es2 st)) with (trace st ++ es2).
  rewrite record_extend.
  destruct (github env (trace st ++ es2) call) as [id|] eqn:Hgh.
  2:{ by eapply handled_delivery_failed; eauto. }
  unfold bind at 1, notes_set. rewrite record_extend.
  fold (note_of mid (c :: u) (target prFilter st refs) id).
  set (value := note_of _ _ _ _).
  change (trace (extend (es2 ++ [EvGitHub mid call]) st))
    with (trace st ++ es2 ++ [EvGitHub mid call]).
  rewrite <- (app_assoc es2 [EvGitHub mid call] [EvNotesSet mid value false]).
  cbn [app].
  destruct (notes_set_ok env (trace st ++ es2 ++ [EvGitHub mid call]) mid value) eqn:Hset.
  - unfold modify. cbn [keys notes set_notes extend].
    by eapply (handled_delivered env prFilter mid refs mbox st es2); eauto.
  - by eapply handled_record_failed; eauto.
Qed.

End Handled.

(** ** One line of the diff *)

Section Lines.

Context (env : environment) (prFilter : option (jsstring -> bool)).

Lemma lineHandler_stepped (line : jsstring) (st : state) :
  exists st', lineHandler env prFilter line st = (Ok tt, st')
              /\ stepped env prFilter line st st'.
Proof.
  unfold lineHandler.
  destruct (startsWith line (lit "@@ ")) eqn:Hat.
  { destruct (match_hunk_header line) as [group3|] eqn:Hm; eexists; split;
      try reflexivity; [by eapply stepped_header|by apply stepped_other_header]. }
  destruct (truthy_number (counter st)) eqn:Hc.
  2:{ eexists; split; [reflexivity|by apply stepped_seeking]. }
  cbv zeta.
  change (set_counter
            (decrement (counter (set_buffer (buffer st ++ substr 1 line ++ [10]) st)))
            (set_buffer (buffer st ++ substr 1 line ++ [10]) st))
    with (collect line st).
  change (counter (collect line st)) with (decrement (counter st)).
  destruct (truthy_number (decrement (counter st))) eqn:Hd.
  { eexists; split; [reflexivity|by apply stepped_collecting]. }
  unfold try_catch, bind, call_parseMBoxMessageIDAndReferences.
  change (trace (collect line st)) with (trace st).
  change (record ?e (collect line st)) with (extend [e] (collect line st)).
  destruct (parseMBoxMessageIDAndReferences env (trace st) (buffer (collect line st)))
    as [[mid refs]|] eqn:Hp; cbn [fst snd].
  2:{ eexists; split; [reflexivity|].
      unfold console_log, modify. rewrite record_extend. by apply stepped_unparsed. }
  destruct (seen st mid) eqn:Hseen.
  { rewrite mboxHandler_known by exact Hseen.
    eexists; split; [reflexivity|]. by eapply stepped_known. }
  pose proof (mboxHandler_handled env prFilter mid refs (buffer (collect line st))
                (extend [EvParseIds (buffer (collect line st))] (collect line st)) Hseen) as H.
  destruct (mboxHandler env prFilter mid refs (buffer (collect line st))
              (extend [EvParseIds (buffer (collect line st))] (collect line st)))
    as [[[]|reason] st'].
  - eexists; split; [reflexivity|]. by eapply stepped_handled.
  - eexists; split; [reflexivity|]. by eapply stepped_skipped.
Qed.

(** No line makes the scan stop. *)
Lemma lineHandler_returns (line : jsstring) (st : state) :
  fst (lineHandler env prFilter line st) = Ok tt.
Proof. destruct (lineHandler_stepped line st) as (st' & -> & _). reflexivity. Qed.

Lemma each_line_returns (lines : list jsstring) (st : state) :
  fst (each_line env prFilter lines st) = Ok tt.
Proof.
  revert st. induction lines as [|line rest IH]; intros st; [reflexivity|].
  cbn [each_line]. unfold bind.
  destruct (lineHandler_stepped line st) as (st' & -> & _). apply IH.
Qed.

(** A property of the state kept by every line is kept by the stream. *)
Lemma each_line_invariant (P : state -> Prop) :
  (forall line st, P st -> P (snd (lineHandler env prFilter line st))) ->
  forall lines st, P st -> P (snd (each_line env prFilter lines st)).
Proof.
  intros Hstep lines. induction lines as [|line rest IH]; intros st HP; [exact HP|].
  cbn [each_line]. unfold bind.
  pose proof (Hstep line st HP) as H1.
  destruct (lineHandler_stepped line st) as (st' & Hst' & _).
  rewrite Hst' in *. by apply IH.
Qed.

End Lines.

(** ** What a mail and a line leave behind *)

Lemma github_calls_app (es1 es2 : list event) :
  github_calls (es1 ++ es2) = github_calls es1 ++ github_calls es2.
Proof. unfold github_calls. apply flat_map_app. Qed.

Lemma github_calls_silent (es : list event) :
  Forall (fun e => silent e = true) es -> github_calls es = [].
Proof.
  induction 1 as [|e es He _ IH]; [reflexivity|].
  destruct e; cbn in *; try done.
Qed.

Lemma notes_set_silent (es : list event) :
  Forall (fun e => silent e = true) es -> List.filter is_notes_set es = [].
Proof.
  induction 1 as [|e es He _ IH]; [reflexivity|].
  destruct e; cbn in *; try done.
Qed.

Lemma parse_ids_silent (es : list event) :
  Forall (fun e => silent e = true) es -> List.filter is_parse_ids es = [].
Proof.
  induction 1 as [|e es He _ IH]; [reflexivity|].
  destruct e; cbn in *; try done.
Qed.

Lemma seen_keys (st st' : state) (mid : jsstring) :
  keys st ⊆ keys st' -> seen st mid = true -> seen st' mid = true.
Proof.
  unfold seen. rewrite !bool_decide_eq_true. set_solver.
Qed.

Lemma unseen_keys (st st' : state) (mid : jsstring) :
  keys st ⊆ keys st' -> seen st' mid = false -> seen st mid = false.
Proof.
  unfold seen. rewrite !bool_decide_eq_false. set_solver.
Qed.

(** The six ways a mail is handled, with names. *)
Ltac handled_cases H :=
  inversion H as
    [ es Hes Hfail Heq
    | es Hes Hnourl Heq
    | es Hes Hsomeurl Hrender Heq
    | es url' tr' parsed' text' call' Hes Hurl' Hne' Hparse' Htext' Hcall' Hgh' Heq
    | es url' tr' parsed' text' call' id' value' Hes Hurl' Hne' Hparse' Htext'
        Hcall' Hgh' Hvalue' Hset' Heq
    | es url' tr' parsed' text' call' id' value' Hes Hurl' Hne' Hparse' Htext'
        Hcall' Hgh' Hvalue' Hset' Heq ];
  try (injection Heq as ? ?); subst.

Lemma handled_effect env prFilter mid refs mbox st r st' :
  handled env prFilter mid refs mbox st (r, st') ->
  exists es, mail_effect mid st st' es.
Proof.
  intros H. handled_cases H; eexists;
    (split; cbn [trace keys this_state buffer counter extend set_keys set_notes];
     [ reflexivity
     | first [reflexivity | apply union_subseteq_r]
     | first [reflexivity | apply union_subseteq_r]
     | reflexivity | reflexivity | reflexivity
     | rewrite ?github_calls_app, ?github_calls_silent by done;
       cbn; try done; by intros mid' call'' [[= <- _]|[]]
     | rewrite ?List.filter_app, ?parse_ids_silent by done; reflexivity ]).
Qed.

(** The eight ways a line is handled, with names. *)
Ltac stepped_cases H :=
  inversion H as
    [ group3 Hat Hmatch Heq
    | Hat Hmatch Heq
    | Hat Hcount Heq
    | Hat Hcount Hmore Heq
    | Hat Hcount Hlast Hids Heq
    | mid0 refs0 Hat Hcount Hlast Hids Hseen0 Heq
    | mid0 refs0 st0 Hat Hcount Hlast Hids Hseen0 Hhandled Heq
    | mid0 refs0 reason0 st0 Hat Hcount Hlast Hids Hseen0 Hhandled Heq ];
  subst.

Section Effects.

Context (env : environment) (prFilter : option (jsstring -> bool)).

(** What a line changes. *)
Lemma stepped_effect (line : jsstring) (st st' : state) :
  stepped env prFilter line st st' ->
  exists es, trace st' = trace st ++ es
    /\ keys st ⊆ keys st'
    /\ this_state st' = this_state st
    /\ (forall mid call, In (mid, call) (github_calls es) -> seen st mid = false).
Proof.
  intros Hstep. stepped_cases Hstep;
    try (exists []; cbn; rewrite ?app_nil_r; by repeat split);
    try (eexists; cbn; by repeat split).
  - destruct (handled_effect _ _ _ _ _ _ _ _ Hhandled) as (es & [Ht Hk _ Hs _ _ Hc _]).
    cbn in Ht. exists (EvParseIds (buffer (collect line st)) :: es).
    rewrite Ht, <- app_assoc. repeat split; try done.
    intros mid' call Hin. cbn in Hin. by rewrite (Hc _ _ Hin).
  - destruct (handled_effect _ _ _ _ _ _ _ _ Hhandled) as (es & [Ht Hk _ Hs _ _ Hc _]).
    cbn in Ht.
    exists (EvParseIds (buffer (collect line st)) :: es ++ [EvConsole (LogSkipping reason0)]).
    cbn. rewrite Ht, <- !app_assoc. repeat split; try done.
    intros mid' call Hin. rewrite github_calls_app in Hin. cbn in Hin.
    rewrite app_nil_r in Hin. by rewrite (Hc _ _ Hin).
Qed.

(** What a stream of lines changes. *)
Lemma each_line_effect (lines : list jsstring) (st : state) :
  exists es, trace (snd (each_line env prFilter lines st)) = trace st ++ es
    /\ keys st ⊆ keys (snd (each_line env prFilter lines st))
    /\ this_state (snd (each_line env prFilter lines st)) = this_state st
    /\ (forall mid call, In (mid, call) (github_calls es) -> seen st mid = false).
Proof.
  revert st. induction lines as [|line rest IH]; intros st.
  { exists []. cbn. rewrite app_nil_r. by repeat split. }
  cbn [each_line]. unfold bind.
  destruct (lineHandler_stepped env prFilter line st) as (st1 & -> & Hstep).
  destruct (stepped_effect line st st1 Hstep) as (es1 & Ht1 & Hk1 & Hs1 & Hc1).
  destruct (IH st1) as (es2 & Ht2 & Hk2 & Hs2 & Hc2).
  exists (es1 ++ es2). rewrite Ht2, Ht1, <- app_assoc.
  repeat split; [set_solver|congruence|].
  intros mid call Hin. rewrite github_calls_app in Hin.
  apply in_app_or in Hin as [Hin|Hin]; [by eapply Hc1|].
  eapply unseen_keys; [exact Hk1|by eapply Hc2].
Qed.

End Effects.


(** ** Mails without a target *)

Lemma consider_no_candidate prFilter store reference v :
  carries_url store reference = false \/ vetoed prFilter store reference = true ->
  consider prFilter reference (store !! hashKey reference) v = v.
Proof.
  unfold carries_url, vetoed, consider.
  destruct (store !! hashKey reference) as [[data|s]|]; try done.
  intros [->|H]; [done|].
  destruct prFilter as [accepts|]; [|done]. rewrite H.
  by destruct (truthy_string (Some (pullRequestURL data))).
Qed.

Lemma resolved_no_candidate prFilter store references v :
  Forall (fun reference => carries_url store reference = false
                           \/ vetoed prFilter store reference = true) references ->
  resolved prFilter store references v = v.
Proof.
  unfold resolved. induction 1 as [|reference rest H _ IH]; [reflexivity|].
  cbn [fold_left]. by rewrite consider_no_candidate.
Qed.

Lemma target_no_candidate prFilter st refs :
  (forall ref, In ref refs -> seen st ref = true ->
               carries_url (notes st) ref = false
               \/ vetoed prFilter (notes st) ref = true) ->
  target prFilter st refs = Vars.undefined.
Proof.
  intros H. unfold target. apply resolved_no_candidate.
  apply List.Forall_forall. intros ref Hin.
  apply List.filter_In in Hin as [Hin Hseen]. by apply H.
Qed.

(** A mail without a target is dropped in silence. *)
Lemma mboxHandler_unresolved env prFilter mid refs mbox st :
  seen st mid = false ->
  truthy_string (Vars.pullRequestURL (target prFilter st refs)) = false ->
  exists es, Forall (fun e => silent e = true) es
    /\ snd (mboxHandler env prFilter mid refs mbox st) = extend es st.
Proof.
  intros Hseen Hurl.
  pose proof (mboxHandler_handled env prFilter mid refs mbox st Hseen) as H.
  destruct (mboxHandler env prFilter mid refs mbox st) as [r st'].
  inversion H; subst; try (by eexists; split; [eassumption|reflexivity]);
    try congruence;
    match goal with
    | Hu : Vars.pullRequestURL _ = Some ?u, Hne : ?u <> [] |- _ =>
        rewrite Hu in Hurl; by destruct u
    end.
Qed.

(** C10, as amended: a mail that is skipped, because its digest is a known
    key, because no known reference has a note with a pull request, or
    because the filter of the caller refuses every such note, causes no call
    to GitHub and no write to the notes, and leaves the notes and the keys
    as they were. A mail skipped for the second or the third reason is
    still unseen afterwards, so a later scan may deliver it; a mail skipped
    for the first reason was seen before and stays so. *)
Theorem skipped_mail_changes_nothing (env : environment)
    (prFilter : option (jsstring -> bool)) (mid : jsstring)
    (refs : list jsstring) (mbox : jsstring) (st : state) :
  seen st mid = true
  \/ (forall ref, In ref refs -> seen st ref = true ->
                  carries_url (notes st) ref = false)
  \/ (forall ref, In ref refs -> seen st ref = true ->
                  carries_url (notes st) ref = true ->
                  vetoed prFilter (notes st) ref = true) ->
  let st' := snd (mboxHandler env prFilter mid refs mbox st) in
  github_calls (events_since (trace st) st') = []
  /\ List.filter is_notes_set (events_since (trace st) st') = []
  /\ notes st' = notes st
  /\ keys st' = keys st
  /\ seen st' mid = seen st mid.
Proof.
  intros Hwhy st'. subst st'.
  destruct (seen st mid) eqn:Hseen.
  { rewrite mboxHandler_known by done. cbn [snd].
    unfold events_since. rewrite skipn_all. by repeat split. }
  assert (target prFilter st refs = Vars.undefined) as Ht.
  { apply target_no_candidate. intros ref Hin Hs.
    destruct Hwhy as [?|[H|H]]; [done|left; by apply H|].
    destruct (carries_url (notes st) ref) eqn:Hc; [right; by apply H|by left]. }
  destruct (mboxHandler_unresolved env prFilter mid refs mbox st Hseen)
    as (es & Hes & ->); [by rewrite Ht|].
  rewrite events_since_extend, github_calls_silent, notes_set_silent by done.
  by repeat split.
Qed.

(** ** The call that posts the comment *)

(** The GitHub calls of a mail with a target, once its notes are read and
    its text is rendered: the one call chosen by [delivery_call]. *)
Lemma mboxHandler_calls env prFilter mid refs mbox st url parsed text :
  seen st mid = false ->
  (forall tr key, notes_get_ok env tr key = true) ->
  Vars.pullRequestURL (target prFilter st refs) = Some url -> url <> [] ->
  (forall tr, parseMBox env tr mbox = Some parsed) ->
  mbox2markdown env parsed = Some text ->
  github_calls (events_since (trace st)
                  (snd (mboxHandler env prFilter mid refs mbox st)))
  = [(mid, delivery_call (workDir env) url (target prFilter st refs)
             (comment_of env mid parsed text))].
Proof.
  intros Hseen Hget Hurl Hne Hparse Htext.
  pose proof (mboxHandler_handled env prFilter mid refs mbox st Hseen) as H.
  destruct (mboxHandler env prFilter mid refs mbox st) as [r st'].
  handled_cases H; cbn [snd].
  - destruct Hfail as (tr & key & Hfail). by rewrite Hget in Hfail.
  - rewrite Hurl in Hnourl. by destruct url.
  - destruct Hrender as [(tr & Hfail)|(tr & parsed' & Hp & Hfail)].
    + by rewrite Hparse in Hfail.
    + rewrite Hparse in Hp. injection Hp as <-. congruence.
  - rewrite Hparse in Hparse'. rewrite Hurl in Hurl'. simplify_eq.
    rewrite events_since_extend, github_calls_app, github_calls_silent by done.
    reflexivity.
  - rewrite Hparse in Hparse'. rewrite Hurl in Hurl'. simplify_eq.
    rewrite events_since_extend, github_calls_app, github_calls_silent by done.
    reflexivity.
  - rewrite Hparse in Hparse'. rewrite Hurl in Hurl'. simplify_eq.
    rewrite events_since_frame.
    rewrite events_since_extend, github_calls_app, github_calls_silent by done.
    reflexivity.
Qed.

(** C5: once the target of a mail is resolved (its notes are read, it has a
    pull request, its text is rendered), exactly one call to GitHub is made
    for it: a reply to the comment when [issueCommentId] is known, else a
    comment on the commit when [originalCommit] is known, else a comment on
    the pull request. *)
Theorem exactly_one_delivery_mode (env : environment)
    (prFilter : option (jsstring -> bool)) (mid : jsstring)
    (refs : list jsstring) (mbox : jsstring) (st : state)
    (url : jsstring) (parsed : IParsedMBox) (text : jsstring) :
  seen st mid = false ->
  (forall tr key, notes_get_ok env tr key = true) ->
  Vars.pullRequestURL (target prFilter st refs) = Some url -> url <> [] ->
  (forall tr, parseMBox env tr mbox = Some parsed) ->
  mbox2markdown env parsed = Some text ->
  let v := target prFilter st refs in
  let comment := comment_of env mid parsed text in
  let calls :=
    github_calls (events_since (trace st)
                    (snd (mboxHandler env prFilter mid refs mbox st))) in
  (truthy_id (Vars.issueCommentId v) = true ->
   exists id, Vars.issueCommentId v = Some id
              /\ calls = [(mid, addPRCommentReply url id comment)])
  /\ (truthy_id (Vars.issueCommentId v) = false ->
      truthy_string (Vars.originalCommit v) = true ->
      exists commit, Vars.originalCommit v = Some commit
                     /\ calls = [(mid, addPRCommitComment url commit
                                         (workDir env) comment)])
  /\ (truthy_id (Vars.issueCommentId v) = false ->
      truthy_string (Vars.originalCommit v) = false ->
      calls = [(mid, addPRComment url comment)]).
Proof.
  intros Hseen Hget Hurl Hne Hparse Htext v comment calls.
  assert (calls = [(mid, delivery_call (workDir env) url v comment)]) as ->
    by by eapply mboxHandler_calls.
  unfold delivery_call. repeat split.
  - intros Hid. rewrite Hid.
    destruct (Vars.issueCommentId v) as [id|] eqn:E; [|done]. by exists id.
  - intros Hid Hc. rewrite Hid, Hc.
    destruct (Vars.originalCommit v) as [commit|] eqn:E; [|done]. by exists commit.
  - intros Hid Hc. by rewrite Hid, Hc.
Qed.

(** ** The merge over the known references *)

Lemma consider_accepted prFilter reference data v :
  truthy_string (Some (pullRequestURL data)) = true ->
  (forall accepts, prFilter = Some accepts -> accepts (pullRequestURL data) = true) ->
  consider prFilter reference (Some (MailMetadata data)) v
  = let commit := if startsWith reference (lit "pull") then None
                  else originalCommit data in
    if negb (truthy_string (Vars.pullRequestURL v))
       || (negb (truthy_string (Vars.originalCommit v)) && truthy_string commit)
       || (negb (truthy_id (Vars.issueCommentId v)) && truthy_id (issueCommentId data))
    then {| Vars.pullRequestURL := Some (pullRequestURL data);
            Vars.issueCommentId := issueCommentId data;
            Vars.originalCommit := commit |}
    else v.
Proof.
  intros Hu Hf. unfold consider. rewrite Hu.
  destruct prFilter as [accepts|]; [|done]. by rewrite (Hf accepts eq_refl).
Qed.

(** C1, as amended: for references resolving, in order, to the known
    records A, with a pull request only, B, with a pull request and an
    [issueCommentId], and C, with a pull request and an [originalCommit]
    (C not being a cover letter, none refused by the filter), each record
    that has something the selection lacks replaces the selection as a
    whole: the target is the record C, with the pull request and the
    commit of C and without [issueCommentId], and the call chosen is the
    comment on the commit. *)
Theorem merge_keeps_the_last_richer_record
    (prFilter : option (jsstring -> bool)) (st : state)
    (a b c : jsstring) (A B C : IMailMetadata) :
  seen st a = true -> seen st b = true -> seen st c = true ->
  notes st !! hashKey a = Some (MailMetadata A) ->
  notes st !! hashKey b = Some (MailMetadata B) ->
  notes st !! hashKey c = Some (MailMetadata C) ->
  truthy_string (Some (pullRequestURL A)) = true ->
  originalCommit A = None -> issueCommentId A = None ->
  truthy_string (Some (pullRequestURL B)) = true ->
  originalCommit B = None -> truthy_id (issueCommentId B) = true ->
  truthy_string (Some (pullRequestURL C)) = true ->
  truthy_string (originalCommit C) = true -> issueCommentId C = None ->
  startsWith c (lit "pull") = false ->
  (forall accepts, prFilter = Some accepts ->
     accepts (pullRequestURL A) = true /\ accepts (pullRequestURL B) = true
     /\ accepts (pullRequestURL C) = true) ->
  target prFilter st [a; b; c]
    = {| Vars.pullRequestURL := Some (pullRequestURL C);
         Vars.originalCommit := originalCommit C;
         Vars.issueCommentId := None |}
  /\ forall dir comment,
       delivery_call dir (pullRequestURL C) (target prFilter st [a; b; c]) comment
       = addPRCommitComment (pullRequestURL C) (default [] (originalCommit C))
           dir comment.
Proof.
  intros Ha Hb Hc HA HB HC HAu HAc HAi HBu HBc HBi HCu HCc HCi Hpull Hf.
  assert (target prFilter st [a; b; c]
          = {| Vars.pullRequestURL := Some (pullRequestURL C);
               Vars.originalCommit := originalCommit C;
               Vars.issueCommentId := None |}) as Ht.
  { unfold target, resolved. cbn [List.filter]. rewrite Ha, Hb, Hc.
    cbn [fold_left]. rewrite HA, HB, HC.
    assert (consider prFilter a (Some (MailMetadata A)) Vars.undefined
            = {| Vars.pullRequestURL := Some (pullRequestURL A);
                 Vars.originalCommit := None; Vars.issueCommentId := None |}) as ->.
    { rewrite consider_accepted by (try done; intros ? ?; by edestruct Hf as (? & ? & ?)).
      rewrite HAc, HAi. by destruct (startsWith a (lit "pull")). }
    assert (consider prFilter b (Some (MailMetadata B))
              {| Vars.pullRequestURL := Some (pullRequestURL A);
                 Vars.originalCommit := None; Vars.issueCommentId := None |}
            = {| Vars.pullRequestURL := Some (pullRequestURL B);
                 Vars.originalCommit := None;
                 Vars.issueCommentId := issueCommentId B |}) as ->.
    { rewrite consider_accepted by (try done; intros ? ?; by edestruct Hf as (? & ? & ?)).
      cbn [Vars.pullRequestURL Vars.originalCommit Vars.issueCommentId].
      rewrite HAu, HBc, HBi. by destruct (startsWith b (lit "pull")). }
    rewrite consider_accepted by (try done; intros ? ?; by edestruct Hf as (? & ? & ?)).
    cbn [Vars.pullRequestURL Vars.originalCommit Vars.issueCommentId].
    rewrite HBu, Hpull, HCc, HCi. reflexivity. }
  split; [exact Ht|].
  intros dir comment. rewrite Ht. unfold delivery_call.
  cbn [Vars.issueCommentId Vars.originalCommit truthy_id]. by rewrite HCc.
Qed.

(** ** What is written once the comment is posted *)

(** C9, as amended: when [mboxHandler] has posted the comment and written
    the note of the mail, the note is kept under the digest of the
    Message-ID of the mail and that digest is among the keys from then on.
    After a reply to a comment or a comment on a commit, the [issueCommentId]
    of the note is the identifier GitHub returned; after a comment on the
    pull request the identifier returned is not used, and the note has no
    [issueCommentId]. *)
Theorem delivery_is_recorded (env : environment)
    (prFilter : option (jsstring -> bool)) (mid : jsstring)
    (refs : list jsstring) (mbox : jsstring) (st st' : state) :
  mboxHandler env prFilter mid refs mbox st = (Ok tt, st') ->
  github_calls (events_since (trace st) st') <> [] ->
  exists es call id data,
    events_since (trace st) st'
      = es ++ [EvGitHub mid call; EvNotesSet mid (MailMetadata data) false]
    /\ github_calls es = []
    /\ github env (trace st ++ es) call = Some id
    /\ notes st' !! hashKey mid = Some (MailMetadata data)
    /\ messageID data = mid
    /\ match call with
       | addPRCommentReply _ _ _ | addPRCommitComment _ _ _ _ =>
           issueCommentId data = Some id
       | addPRComment _ _ => truthy_id (issueCommentId data) = false
       end
    /\ keys st' = {[hashKey mid]} ∪ keys st
    /\ seen st' mid = true.
Proof.
  intros Hrun Hcalls.
  destruct (seen st mid) eqn:Hseen.
  { rewrite mboxHandler_known in Hrun by done. injection Hrun as <-.
    unfold events_since in Hcalls. by rewrite skipn_all in Hcalls. }
  pose proof (mboxHandler_handled env prFilter mid refs mbox st Hseen) as H.
  rewrite Hrun in H. handled_cases H.
  { rewrite events_since_extend, github_calls_silent in Hcalls; done. }
  set (v := target prFilter st refs) in *.
  exists es, (delivery_call (workDir env) url' v (comment_of env mid parsed' text')), id',
    {| issueCommentId := recorded_id v id'; messageID := mid;
       originalCommit := Vars.originalCommit v; pullRequestURL := url' |}.
  rewrite events_since_frame, events_since_extend.
  repeat split; try done.
  - by apply github_calls_silent.
  - cbn [notes set_keys set_notes]. by rewrite lookup_insert_eq.
  - unfold delivery_call, recorded_id. cbn [issueCommentId].
    destruct (truthy_id (Vars.issueCommentId v)) eqn:Hid; [done|].
    by destruct (truthy_string (Vars.originalCommit v)).
  - unfold seen. cbn [keys set_keys]. rewrite bool_decide_eq_true. set_solver.
Qed.

(** ** The three records of the specification, run *)

Module Runs.

Import Demo.

(** C1 as stated fails: with A, B and C known and referenced in this order,
    the target of the mail has no [issueCommentId], and the call made is
    not a reply to a comment but a comment on the commit of C. *)
Lemma merge_of_A_B_C_counterexample :
  let st := state_of [A; B; C] None in
  let refs := [messageID A; messageID B; messageID C] in
  List.filter (seen st) refs = refs
  /\ Vars.issueCommentId (target None st refs) = None
  /\ github_calls (trace (snd (mboxHandler world None M0 refs M0 st)))
     = [(M0, addPRCommitComment url (lit "c0ffee") (lit ".")
               (comment_of world M0 parsed (lit "Hello")))]
  /\ ~ (is_Some (Vars.pullRequestURL (target None st refs))
        /\ is_Some (Vars.issueCommentId (target None st refs))
        /\ is_Some (Vars.originalCommit (target None st refs))).
Proof.
  cbv zeta.
  assert (Vars.issueCommentId
            (target None (state_of [A; B; C] None)
               [messageID A; messageID B; messageID C]) = None) as Hid
    by (vm_compute; reflexivity).
  split; [vm_compute; reflexivity|].
  split; [exact Hid|].
  split; [vm_compute; reflexivity|].
  intros (_ & [id Hsome] & _). rewrite Hid in Hsome. discriminate Hsome.
Qed.

(** C9 as stated fails: the mail refers to A, which has a pull request
    only; the comment is posted on the pull request, GitHub answers with
    the identifier 1003, and the note written has no [issueCommentId]. *)
Lemma thread_comment_id_counterexample :
  let st := state_of [A] None in
  let st' := snd (mboxHandler world None M0 [messageID A] M0 st) in
  let call := addPRComment url (comment_of world M0 parsed (lit "Hello")) in
  fst (mboxHandler world None M0 [messageID A] M0 st) = Ok tt
  /\ github_calls (trace st') = [(M0, call)]
  /\ github world (removelast (removelast (trace st'))) call = Some 1003
  /\ notes st' !! hashKey M0
     = Some (MailMetadata {| messageID := M0; pullRequestURL := url;
                             originalCommit := None; issueCommentId := None |})
  /\ notes st' !! hashKey M0
     <> Some (MailMetadata {| messageID := M0; pullRequestURL := url;
                              originalCommit := None;
                              issueCommentId := Some 1003 |}).
Proof.
  cbv zeta.
  assert (notes (snd (mboxHandler world None M0 [messageID A] M0 (state_of [A] None)))
            !! hashKey M0
          = Some (MailMetadata {| messageID := M0; pullRequestURL := url;
                                  originalCommit := None; issueCommentId := None |}))
    as Hnote by (vm_compute; reflexivity).
  split; [vm_compute; reflexivity|].
  split; [vm_compute; reflexivity|].
  split; [vm_compute; reflexivity|].
  split; [exact Hnote|].
  rewrite Hnote. discriminate.
Qed.

(** C10 as stated fails for a mail skipped as known: A is skipped, and it
    is not left to a later scan, it stays among the known keys. *)
Lemma known_mail_stays_known_counterexample :
  let st := state_of [A] None in
  let st' := snd (mboxHandler world None (messageID A) [] M0 st) in
  seen st (messageID A) = true
  /\ github_calls (trace st') = []
  /\ ~ (seen st' (messageID A) = false).
Proof.
  cbv zeta.
  assert (seen (snd (mboxHandler world None (messageID A) [] M0 (state_of [A] None)))
            (messageID A) = true) as Hseen by (vm_compute; reflexivity).
  split; [vm_compute; reflexivity|].
  split; [vm_compute; reflexivity|].
  rewrite Hseen. discriminate.
Qed.

End Runs.

(** ** The hunk header *)

Lemma span_digits_app (ds tail : jsstring) :
  Forall (fun c => is_digit c = true) ds -> no_digit_ahead tail ->
  span_digits (ds ++ tail) = (ds, tail).
Proof.
  intros Hds Htail. induction Hds as [|d ds Hd _ IH].
  - destruct tail as [|c tail]; [reflexivity|]. cbn in *. by rewrite Htail.
  - cbn. by rewrite Hd, IH.
Qed.

Lemma skip_optional_start_comma (ds rest : jsstring) :
  digits ds -> skip_optional_start (ds ++ 44 :: rest) = rest.
Proof.
  intros [Hne Hds]. unfold skip_optional_start.
  rewrite span_digits_app by done. by destruct ds.
Qed.

Lemma old_range_matched (old rest : jsstring) :
  old_range old -> no_digit_ahead rest -> (forall r, rest <> 44 :: r) ->
  exists d ds, span_digits (skip_optional_start (old ++ rest)) = (d :: ds, rest).
Proof.
  intros [[Hne Hold]|(a & b & Ha & [Hne Hb] & ->)] Hrest Hcomma.
  - unfold skip_optional_start. rewrite span_digits_app by done.
    destruct old as [|d ds]; [done|]. exists d, ds.
    destruct rest as [|c r]; [by rewrite span_digits_app|].
    destruct (decide (c = 44)) as [->|Hc]; [by destruct (Hcomma r)|].
    assert (match c with 44 => false | _ => true end = true) as Hc'.
    { destruct c as [|p|p]; try done. repeat (destruct p as [p|p|]; try done). }
    replace (match c with 44 => r | _ => (d :: ds) ++ c :: r end)
      with ((d :: ds) ++ c :: r).
    + by rewrite span_digits_app.
    + destruct c as [|p|p]; try done. repeat (destruct p as [p|p|]; try done).
  - rewrite <- app_assoc. cbn [app].
    rewrite skip_optional_start_comma by done.
    destruct b as [|d ds]; [done|]. exists d, ds. by rewrite span_digits_app.
Qed.

Lemma match_hunk_header_full (old c ds tail : jsstring) :
  old_range old -> digits c -> digits ds -> no_digit_ahead tail ->
  match_hunk_header (hunk_header old c ds tail) = Some (Some ds).
Proof.
  intros Hold Hc [Hdne Hds] Htail.
  unfold match_hunk_header, hunk_header.
  change (lit "@@ -") with [64; 64; 32; 45].
  change (lit " +") with [32; 43].
  cbn [strip_prefix app Z.eqb Pos.eqb].
  destruct (old_range_matched old (32 :: 43 :: c ++ 44 :: ds ++ tail) Hold)
    as (d & ds' & ->); [done|done|].
  cbn [strip_prefix Z.eqb Pos.eqb].
  rewrite skip_optional_start_comma by done.
  rewrite span_digits_app by done.
  by destruct ds.
Qed.

Lemma startsWith_hunk_header (old c ds tail : jsstring) :
  startsWith (hunk_header old c ds tail) (lit "@@ ") = true.
Proof. reflexivity. Qed.

Example hunk_header_of_a_new_file :
  match_hunk_header (lit "@@ -0,0 +1,25 @@") = Some (Some (lit "25"))
  /\ parseInt (Some (lit "25")) = Num 25.
Proof. split; reflexivity. Qed.

(** A new file of one line: the header has no count, and the line number
    is read in its place. *)
Example hunk_header_of_one_line :
  match_hunk_header (lit "@@ -0,0 +1 @@") = Some (Some (lit "1"))
  /\ parseInt (Some (lit "1")) = Num 1.
Proof. split; reflexivity. Qed.

(** ** The lines of a hunk *)

Section Hunks.

Context (env : environment) (prFilter : option (jsstring -> bool)).

Lemma each_line_app (lines1 lines2 : list jsstring) (st : state) :
  each_line env prFilter (lines1 ++ lines2) st
  = each_line env prFilter lines2 (snd (each_line env prFilter lines1 st)).
Proof.
  revert st. induction lines1 as [|line rest IH]; intros st; [reflexivity|].
  cbn [app each_line]. unfold bind.
  destruct (lineHandler_stepped env prFilter line st) as (st1 & -> & _). apply IH.
Qed.

(** On the header the buffer is emptied and the count is taken. *)
Lemma lineHandler_header (old c ds tail : jsstring) (st : state) :
  old_range old -> digits c -> digits ds -> no_digit_ahead tail ->
  lineHandler env prFilter (hunk_header old c ds tail) st
  = (Ok tt, set_buffer [] (set_counter (Num (decimal_value ds)) st)).
Proof.
  intros. unfold lineHandler.
  rewrite startsWith_hunk_header, match_hunk_header_full by done. reflexivity.
Qed.

(** While more lines are expected than come, they are put in the buffer
    and nothing else happens. *)
Lemma each_line_collecting (lines : list jsstring) (st : state) (m : Z) :
  counter st = Num m ->
  Z.of_nat (length lines) < m ->
  Forall (fun line => startsWith line (lit "@@ ") = false) lines ->
  each_line env prFilter lines st
  = (Ok tt, set_buffer (buffer st ++ collected lines)
              (set_counter (Num (m - Z.of_nat (length lines))) st)).
Proof.
  intros Hm Hlen Hlines. revert st m Hm Hlen.
  induction Hlines as [|line rest Hline _ IH]; intros st m Hm Hlen.
  - cbn. unfold ret. f_equal. destruct st; cbn in *.
    unfold set_buffer, set_counter; cbn. rewrite app_nil_r, Z.sub_0_r. by subst.
  - cbn [each_line length] in *. unfold bind.
    assert (lineHandler env prFilter line st = (Ok tt, collect line st)) as ->.
    { destruct (lineHandler_stepped env prFilter line st) as (st1 & -> & Hstep).
      f_equal.
      stepped_cases Hstep; try congruence;
        match goal with
        | H : truthy_number _ = false |- _ =>
            rewrite Hm in H; cbn [truthy_number decrement] in H;
            apply negb_false_iff, Z.eqb_eq in H; try lia
        end. }
    rewrite (IH (collect line st) (m - 1));
      [|unfold collect; cbn [counter set_counter]; by rewrite Hm|lia].
    change (set_buffer ?b (set_counter ?c (collect line st)))
      with (set_buffer b (set_counter c st)).
    change (buffer (collect line st)) with (buffer st ++ substr 1 line ++ [10]).
    change (collected (line :: rest)) with ((substr 1 line ++ [10]) ++ collected rest).
    rewrite <- !app_assoc.
    replace (m - 1 - Z.of_nat (length rest)) with (m - Z.of_nat (S (length rest))) by lia.
    reflexivity.
Qed.

(** The last line expected completes the buffer, which is handed over for
    parsing once. *)
Lemma lineHandler_last (line : jsstring) (st : state) :
  counter st = Num 1 ->
  startsWith line (lit "@@ ") = false ->
  let st' := snd (lineHandler env prFilter line st) in
  counter st' = Num 0
  /\ buffer st' = buffer st ++ substr 1 line ++ [10]
  /\ exists es, events_since (trace st) st' = EvParseIds (buffer st') :: es
                /\ List.filter is_parse_ids es = [].
Proof.
  intros Hm Hline st'. subst st'.
  destruct (lineHandler_stepped env prFilter line st) as (st' & -> & Hstep).
  cbn [snd].
  stepped_cases Hstep; try congruence;
    try (rewrite Hm in *; discriminate).
  - repeat split; try (cbn; by rewrite ?Hm).
    change (trace st) with (trace (collect line st)).
    rewrite events_since_extend. by eexists.
  - repeat split; try (cbn; by rewrite ?Hm).
    change (trace st) with (trace (collect line st)).
    rewrite events_since_extend. by eexists.
  - destruct (handled_effect _ _ _ _ _ _ _ _ Hhandled) as (es & [Ht _ _ _ Hb Hc _ Hp]).
    cbn in Ht, Hb, Hc. rewrite Hm in Hc. repeat split; try done.
    exists es. unfold events_since.
    rewrite Ht, Hb, <- app_assoc, skipn_app, skipn_all, Nat.sub_diag.
    by split.
  - destruct (handled_effect _ _ _ _ _ _ _ _ Hhandled) as (es & [Ht _ _ _ Hb Hc _ Hp]).
    cbn in Ht, Hb, Hc. rewrite Hm in Hc. repeat split; try done.
    exists (es ++ [EvConsole (LogSkipping reason0)]).
    unfold events_since. cbn [trace record buffer].
    rewrite Ht, Hb, <- !app_assoc, skipn_app, skipn_all, Nat.sub_diag.
    split; [done|]. by rewrite List.filter_app, Hp.
Qed.

End Hunks.

(** C4: on a hunk header that carries the positive count [n] of added lines
    (a count a JavaScript number holds exactly; the lines of the hunk being
    lines of a diff, which do not start as a hunk header does), the
    buffer is emptied and the count taken; each of the [n] lines that
    follow is put in the buffer without its first character and with a
    line feed, and until the last of them nothing is handed over; with the
    last of them the buffer, the whole mail, is handed over for parsing
    exactly once and the count is back at zero. *)
Theorem hunk_is_collected_and_handed_over (env : environment)
    (prFilter : option (jsstring -> bool)) (st : state)
    (old c ds tail : jsstring) (lines : list jsstring) :
  old_range old -> digits c -> digits ds -> no_digit_ahead tail ->
  0 < decimal_value ds < 2 ^ 53 ->
  Z.of_nat (length lines) = decimal_value ds ->
  Forall (fun line => startsWith line (lit "@@ ") = false) lines ->
  let n := decimal_value ds in
  let header := hunk_header old c ds tail in
  lineHandler env prFilter header st
    = (Ok tt, set_buffer [] (set_counter (Num n) st))
  /\ (forall k, (k < length lines)%nat ->
        each_line env prFilter (header :: firstn k lines) st
        = (Ok tt, set_buffer (collected (firstn k lines))
                    (set_counter (Num (n - Z.of_nat k)) st)))
  /\ (let st' := snd (each_line env prFilter (header :: lines) st) in
      fst (each_line env prFilter (header :: lines) st) = Ok tt
      /\ buffer st' = collected lines
      /\ counter st' = Num 0
      /\ exists es,
           events_since (trace st) st' = EvParseIds (collected lines) :: es
           /\ List.filter is_parse_ids es = []).
Proof.
  intros Hold Hc Hds Htail [Hpos _] Hlen Hlines n header.
  assert (Hheader : lineHandler env prFilter header st
                    = (Ok tt, set_buffer [] (set_counter (Num n) st)))
    by by apply lineHandler_header.
  assert (Hsome : forall some, (length some < length lines)%nat ->
            Forall (fun line => startsWith line (lit "@@ ") = false) some ->
            each_line env prFilter (header :: some) st
            = (Ok tt, set_buffer (collected some)
                        (set_counter (Num (n - Z.of_nat (length some))) st))).
  { intros some Hk Hsome. cbn [each_line]. unfold bind. rewrite Hheader.
    rewrite (each_line_collecting env prFilter some _ n); [reflexivity|reflexivity| |done].
    subst n. lia. }
  split; [exact Hheader|split].
  - intros k Hk.
    rewrite Hsome; rewrite ?length_firstn; [|lia|by apply Forall_take].
    by rewrite Nat.min_l by lia.
  - destruct (exists_last (l := lines)) as (init & last & ->).
    { intros ->. cbn in Hlen. lia. }
    apply Forall_app in Hlines as [Hinit Hlast].
    apply Forall_inv in Hlast.
    rewrite length_app in Hlen. cbn [length] in Hlen.
    rewrite app_comm_cons, each_line_app.
    rewrite Hsome by (rewrite ?length_app; cbn; try done; lia).
    cbn [snd each_line]. unfold bind.
    set (st1 := set_buffer _ _).
    destruct (lineHandler_last env prFilter last st1) as (Hcount & Hbuf & es & Hes & Hno);
      [cbn; f_equal; subst n; lia|done|].
    destruct (lineHandler_stepped env prFilter last st1) as (st2 & Hrun & _).
    rewrite Hrun in *. cbn [fst snd] in *.
    assert (buffer st2 = collected (init ++ [last])) as Hbuf'.
    { rewrite Hbuf. unfold collected. rewrite flat_map_app. cbn.
      by rewrite app_nil_r. }
    repeat split; try done.
    exists es. by rewrite <- Hbuf'.
Qed.

(** ** The scan *)

Section Scanning.

Context (env : environment) (prFilter : option (jsstring -> bool)).

Lemma started_cursor (out : jsstring) (st : state) :
  latestRevision (this_state (started env out st)) = Some (cursor (this_state st)).
Proof.
  unfold started, cursor.
  destruct st as [[[[|c s]|]] ? ? ? ? ?]; reflexivity.
Qed.

Lemma started_notes (out : jsstring) (st : state) :
  notes (started env out st) = notes st.
Proof.
  unfold started. cbn.
  by destruct (truthy_string (latestRevision (this_state st))).
Qed.

Lemma started_trace (out : jsstring) (st : state) :
  trace (started env out st) = trace st ++ [EvGit (ls_tree_args env) (workDir env)].
Proof.
  unfold started. cbn.
  by destruct (truthy_string (latestRevision (this_state st))).
Qed.

(** The listing of the notes failing, the scan stops there. *)
Lemma processMails_not_listed (st : state) :
  git env (trace st) (ls_tree_args env) (workDir env) = None ->
  processMails env prFilter st
  = (Throw GitError, record (EvGit (ls_tree_args env) (workDir env)) st).
Proof.
  intros Hls. unfold processMails, bind at 1, call_git.
  fold (ls_tree_args env). by rewrite Hls.
Qed.

(** Up to the comparison of the head with the cursor. *)
Lemma processMails_asked (st : state) (out head : jsstring) :
  git env (trace st) (ls_tree_args env) (workDir env) = Some out ->
  revParse env (trace st ++ [EvGit (ls_tree_args env) (workDir env)])
    (lit "master") (publicInboxGitDir env) = Some head ->
  processMails env prFilter st
  = if bool_decide (cursor (this_state st) = head)
    then (Ok false, asked env out st)
    else
      (await _ <- call_git_lines env prFilter
         (log_args (cursor (this_state st)) head) (publicInboxGitDir env);
       await _ <- modify (set_this_state {| latestRevision := Some head |});
       await _ <- (fun st' =>
         notes_set env stateKey (MirrorState (this_state st')) true st');
       ret true) (asked env out st).
Proof.
  intros Hls Hhead. unfold processMails, bind at 1, call_git.
  fold (ls_tree_args env). rewrite Hls.
  unfold bind at 1, modify. unfold bind at 1, modify.
  unfold bind at 1, call_revParse.
  match goal with
  | |- context [revParse env (trace ?s)] =>
      change s with (started env out st)
  end.
  rewrite started_trace, Hhead.
  change (record (EvRevParse (lit "master") (publicInboxGitDir env))
            (started env out st)) with (asked env out st).
  change (this_state (asked env out st)) with (this_state (started env out st)).
  rewrite started_cursor. cbn [default].
  destruct (decide (cursor (this_state st) = head)) as [->|Hne].
  - by rewrite !bool_decide_eq_true_2.
  - rewrite !bool_decide_eq_false_2; [reflexivity|done|congruence].
Qed.

(** With new history, the lines are handled, whatever happens to the mails
    in them, and then the cursor is written. *)
Lemma processMails_advances (st : state) (out head : jsstring)
    (lines : list jsstring) :
  git env (trace st) (ls_tree_args env) (workDir env) = Some out ->
  revParse env (trace st ++ [EvGit (ls_tree_args env) (workDir env)])
    (lit "master") (publicInboxGitDir env) = Some head ->
  cursor (this_state st) <> head ->
  git_lines env (trace (asked env out st))
    (log_args (cursor (this_state st)) head) (publicInboxGitDir env)
  = (lines, true) ->
  let st1 := snd (each_line env prFilter lines (logging env out head st)) in
  let value := MirrorState {| latestRevision := Some head |} in
  processMails env prFilter st
  = if notes_set_ok env (trace st1) stateKey value
    then (Ok true,
          set_notes (<[hashKey stateKey := value]> (notes st1))
            (record (EvNotesSet stateKey value true)
               (set_this_state {| latestRevision := Some head |} st1)))
    else (Throw NotesError,
          record (EvNotesSet stateKey value true)
            (set_this_state {| latestRevision := Some head |} st1)).
Proof.
  intros Hls Hhead Hne Hlog st1 value.
  rewrite (processMails_asked st out head) by done.
  rewrite bool_decide_eq_false_2 by done.
  unfold bind at 1, call_git_lines. rewrite Hlog.
  fold (logging env out head st). unfold bind at 1.
  pose proof (each_line_returns env prFilter lines (logging env out head st)) as Hret.
  subst st1.
  destruct (each_line env prFilter lines (logging env out head st)) as [r st1].
  cbn [fst snd] in *. subst r. unfold ret at 1.
  unfold bind at 1, modify. unfold bind at 1, notes_set.
  cbn [this_state set_this_state trace].
  fold value. by destruct (notes_set_ok env (trace st1) stateKey value).
Qed.

End Scanning.

(** C6: when the head of the archive is the cursor, [processMails] returns
    [false]; all it has done is list the notes and ask for the head: no call
    to GitHub, no write to the notes, no log of the archive; the notes and
    the cursor are as before. *)
Theorem no_new_history_no_effect (env : environment)
    (prFilter : option (jsstring -> bool)) (st : state) (out head : jsstring) :
  git env (trace st) (ls_tree_args env) (workDir env) = Some out ->
  revParse env (trace st ++ [EvGit (ls_tree_args env) (workDir env)])
    (lit "master") (publicInboxGitDir env) = Some head ->
  cursor (this_state st) = head ->
  exists st',
    processMails env prFilter st = (Ok false, st')
    /\ events_since (trace st) st'
       = [EvGit (ls_tree_args env) (workDir env);
          EvRevParse (lit "master") (publicInboxGitDir env)]
    /\ github_calls (events_since (trace st) st') = []
    /\ List.filter is_notes_set (events_since (trace st) st') = []
    /\ notes st' = notes st
    /\ cursor (this_state st') = cursor (this_state st).
Proof.
  intros Hls Hhead Hsame. exists (asked env out st).
  rewrite (processMails_asked env prFilter st out head) by done.
  rewrite bool_decide_eq_true_2 by done.
  assert (events_since (trace st) (asked env out st)
          = [EvGit (ls_tree_args env) (workDir env);
             EvRevParse (lit "master") (publicInboxGitDir env)]) as ->.
  { unfold events_since, asked. cbn [trace record].
    rewrite started_trace, <- app_assoc, skipn_app, skipn_all, Nat.sub_diag.
    reflexivity. }
  repeat split; try done.
  - apply started_notes.
  - unfold asked. cbn [this_state record]. unfold cursor at 1.
    rewrite started_cursor. unfold cursor.
    destruct (this_state st) as [[[|c s]|]]; reflexivity.
Qed.

(** ** Failures while a mail is handled *)

Lemma split_unique {A} (P : A -> bool) (X Y es rest : list A) (x y : A) :
  Forall (fun e => P e = false) X -> Forall (fun e => P e = false) Y ->
  P x = true -> P y = true ->
  es ++ x :: rest = X ++ y :: Y ->
  es = X /\ x = y /\ rest = Y.
Proof.
  intros HX HY Hx Hy. revert es.
  induction HX as [|x0 X Hx0 _ IH]; intros [|e es] Heq; cbn in Heq.
  - by injection Heq as -> ->.
  - injection Heq as -> Heq.
    assert (In x Y) as Hin by (rewrite <- Heq; apply in_elt).
    rewrite List.Forall_forall in HY. specialize (HY x Hin). congruence.
  - injection Heq as -> _. congruence.
  - injection Heq as -> Heq. destruct (IH es Heq) as (-> & -> & ->). done.
Qed.

Lemma quiet_not_github (es : list event) :
  Forall (fun e => quiet e = true) es -> Forall (fun e => is_github e = false) es.
Proof.
  apply List.Forall_impl. intros e. unfold quiet. by destruct (is_github e).
Qed.

Lemma quiet_not_notes_set (es : list event) :
  Forall (fun e => quiet e = true) es ->
  Forall (fun e => is_notes_set e = false) es.
Proof.
  apply List.Forall_impl. intros e. unfold quiet.
  by destruct (is_github e), (is_notes_set e).
Qed.

Lemma silent_quiet (es : list event) :
  Forall (fun e => silent e = true) es -> Forall (fun e => quiet e = true) es.
Proof.
  apply List.Forall_impl. intros e. unfold silent. by destruct (quiet e).
Qed.

Section Failures.

Context (env : environment) (prFilter : option (jsstring -> bool)).

(** What a line leaves in the trace: no call to GitHub and no write at all,
    or one call to GitHub, rejected and logged, or answered and followed by
    the write of the note, rejected and logged, or accepted. The keys and
    the notes change in the last case only. *)
Lemma lineHandler_outcome (line : jsstring) (st : state) :
  let st' := snd (lineHandler env prFilter line st) in
  let events := events_since (trace st) st' in
  (Forall (fun e => quiet e = true) events
   /\ keys st' = keys st /\ notes st' = notes st)
  \/ exists es mid call,
       Forall (fun e => quiet e = true) es
       /\ ((github env (trace st ++ es) call = None
            /\ events = es ++ [EvGitHub mid call; EvConsole (LogSkipping GitHubError)]
            /\ keys st' = keys st /\ notes st' = notes st)
           \/ exists id value,
                github env (trace st ++ es) call = Some id
                /\ ((notes_set_ok env (trace st ++ es ++ [EvGitHub mid call]) mid value
                     = false
                     /\ events = es ++ [EvGitHub mid call; EvNotesSet mid value false;
                                        EvConsole (LogSkipping NotesError)]
                     /\ keys st' = keys st /\ notes st' = notes st)
                    \/ (notes_set_ok env (trace st ++ es ++ [EvGitHub mid call]) mid value
                        = true
                        /\ events = es ++ [EvGitHub mid call; EvNotesSet mid value false]
                        /\ keys st' = {[hashKey mid]} ∪ keys st
                        /\ notes st' = <[hashKey mid := value]> (notes st)))).
Proof.
  destruct (lineHandler_stepped env prFilter line st) as (st' & -> & Hstep).
  cbn [snd]. cbv zeta.
  set (buf := buffer (collect line st)) in *.
  assert (Hbase : forall es, events_since (trace st) (extend es (collect line st)) = es).
  { intros es. change (trace st) with (trace (collect line st)).
    apply events_since_extend. }
  assert (Hnone : forall s, trace s = trace st -> events_since (trace st) s = []).
  { intros s Hs. unfold events_since. by rewrite Hs, skipn_all. }
  stepped_cases Hstep;
    try (left; rewrite Hnone by reflexivity; by repeat split).
  - left. rewrite Hbase. repeat split; try done. by repeat constructor.
  - left. rewrite Hbase. repeat split; try done. by repeat constructor.
  - handled_cases Hhandled; rewrite ?events_since_frame, ?extend_extend, ?Hbase.
    + left. repeat split; try done. constructor; [done|by apply silent_quiet].
    + right. exists (EvParseIds buf :: es), mid0. eexists.
      split; [constructor; [done|by apply silent_quiet]|].
      cbn [trace extend] in Hgh', Hset'. rewrite <- !app_assoc in Hgh', Hset'.
      right. exists id'. eexists.
      split; [exact Hgh'|]. right.
      split; [exact Hset'|]. by repeat split.
  - handled_cases Hhandled; rewrite ?record_extend, ?extend_extend, ?Hbase.
    + left. repeat split; try done.
      constructor; [done|]. apply Forall_app; split; [by apply silent_quiet|].
      by repeat constructor.
    + left. repeat split; try done.
      constructor; [done|]. apply Forall_app; split; [by apply silent_quiet|].
      by repeat constructor.
    + right. exists (EvParseIds buf :: es), mid0. eexists.
      split; [constructor; [done|by apply silent_quiet]|].
      cbn [trace extend] in Hgh'. rewrite <- !app_assoc in Hgh'.
      left. split; [exact Hgh'|]. repeat split; try done.
      cbn. by rewrite <- !app_assoc.
    + right. exists (EvParseIds buf :: es), mid0. eexists.
      split; [constructor; [done|by apply silent_quiet]|].
      cbn [trace extend] in Hgh', Hset'. rewrite <- !app_assoc in Hgh', Hset'.
      right. exists id'. eexists.
      split; [exact Hgh'|]. left.
      split; [exact Hset'|]. repeat split; try done.
      cbn. by rewrite <- !app_assoc.
Qed.

(** A call to GitHub that is rejected is followed by a line in the log and
    nothing else: no note is written and no key is added. *)
Lemma lineHandler_delivery_failed (line : jsstring) (st : state)
    (es rest : list event) (mid : jsstring) (call : github_call) :
  let st' := snd (lineHandler env prFilter line st) in
  events_since (trace st) st' = es ++ EvGitHub mid call :: rest ->
  github env (trace st ++ es) call = None ->
  rest = [EvConsole (LogSkipping GitHubError)]
  /\ keys st' = keys st /\ notes st' = notes st.
Proof.
  intros st' Hevents Hdown. subst st'.
  destruct (lineHandler_outcome line st)
    as [(Hq & _)|(es0 & mid0 & call0 & Hes0 &
                  [(Hgh & Hev & Hk & Hn)|(id & value & Hgh &
                    [(Hset & Hev & Hk & Hn)|(Hset & Hev & Hk & Hn)])])].
  - rewrite Hevents in Hq. apply quiet_not_github in Hq.
    apply Forall_app in Hq as [_ Hq]. by apply Forall_inv in Hq.
  - rewrite Hevents in Hev.
    destruct (split_unique is_github es0 [EvConsole (LogSkipping GitHubError)]
                es rest (EvGitHub mid call) (EvGitHub mid0 call0))
      as (_ & _ & ->); try done; [by apply quiet_not_github|by repeat constructor].
  - rewrite Hevents in Hev.
    destruct (split_unique is_github es0
                [EvNotesSet mid0 value false; EvConsole (LogSkipping NotesError)]
                es rest (EvGitHub mid call) (EvGitHub mid0 call0))
      as (-> & [= -> ->] & _); try done;
      [by apply quiet_not_github|by repeat constructor|congruence].
  - rewrite Hevents in Hev.
    destruct (split_unique is_github es0 [EvNotesSet mid0 value false]
                es rest (EvGitHub mid call) (EvGitHub mid0 call0))
      as (-> & [= -> ->] & _); try done;
      [by apply quiet_not_github|by repeat constructor|congruence].
Qed.

(** A write of a note that is rejected is followed by a line in the log and
    nothing else: the notes and the keys are as before. *)
Lemma lineHandler_record_failed (line : jsstring) (st : state)
    (es rest : list event) (key : jsstring) (value : note) (force : bool) :
  let st' := snd (lineHandler env prFilter line st) in
  events_since (trace st) st' = es ++ EvNotesSet key value force :: rest ->
  notes_set_ok env (trace st ++ es) key value = false ->
  rest = [EvConsole (LogSkipping NotesError)]
  /\ keys st' = keys st /\ notes st' = notes st.
Proof.
  intros st' Hevents Hdown. subst st'.
  assert (Hx : forall (es0 : list event) mid0 call0,
             Forall (fun e => quiet e = true) es0 ->
             Forall (fun e => is_notes_set e = false) (es0 ++ [EvGitHub mid0 call0])).
  { intros. apply Forall_app; split; [by apply quiet_not_notes_set|by repeat constructor]. }
  destruct (lineHandler_outcome line st)
    as [(Hq & _)|(es0 & mid0 & call0 & Hes0 &
                  [(Hgh & Hev & Hk & Hn)|(id & value0 & Hgh &
                    [(Hset & Hev & Hk & Hn)|(Hset & Hev & Hk & Hn)])])].
  - rewrite Hevents in Hq. apply quiet_not_notes_set in Hq.
    apply Forall_app in Hq as [_ Hq]. by apply Forall_inv in Hq.
  - rewrite Hev in Hevents.
    assert (Forall (fun e => is_notes_set e = false)
              (es ++ EvNotesSet key value force :: rest)) as Hq.
    { rewrite <- Hevents. apply Forall_app; split; [by apply quiet_not_notes_set|].
      by repeat constructor. }
    apply Forall_app in Hq as [_ Hq]. by apply Forall_inv in Hq.
  - rewrite Hevents in Hev.
    destruct (split_unique is_notes_set (es0 ++ [EvGitHub mid0 call0])
                [EvConsole (LogSkipping NotesError)]
                es rest (EvNotesSet key value force) (EvNotesSet mid0 value0 false))
      as (_ & _ & ->); try done; [by apply Hx|by repeat constructor|].
    by rewrite <- app_assoc.
  - rewrite Hevents in Hev.
    destruct (split_unique is_notes_set (es0 ++ [EvGitHub mid0 call0]) []
                es rest (EvNotesSet key value force) (EvNotesSet mid0 value0 false))
      as (-> & [= -> -> _] & _); try done; [by apply Hx|by rewrite <- app_assoc|].
    congruence.
Qed.

End Failures.

(** ** Delivered at most once *)

Lemma answered_app env (tr es1 es2 : list event) :
  answered env tr (es1 ++ es2)
  = answered env tr es1 ++ answered env (tr ++ es1) es2.
Proof.
  revert tr. induction es1 as [|e es1 IH]; intros tr.
  - cbn. by rewrite app_nil_r.
  - cbn [app answered]. rewrite !IH, <- !app_assoc. cbn [app].
    destruct e; try reflexivity. by destruct (github env tr call).
Qed.

Lemma answered_quiet env (tr es : list event) :
  Forall (fun e => quiet e = true) es -> answered env tr es = [].
Proof.
  intros H. revert tr. induction H as [|e es He _ IH]; intros tr; [reflexivity|].
  cbn [answered]. rewrite IH. by destruct e.
Qed.

Lemma answered_called env (tr es : list event) p :
  In p (answered env tr es) -> In p (github_calls es).
Proof.
  revert tr. induction es as [|e es IH]; intros tr; [done|].
  cbn [answered]. destruct e; cbn; try apply IH.
  destruct (github env tr call); [|intros H; right; by eapply IH].
  intros [<-|H]; [by left|right; by eapply IH].
Qed.

Section Once.

Context (env : environment) (prFilter : option (jsstring -> bool)).
Hypothesis writable : forall tr key value, notes_set_ok env tr key value = true.

(** A line has at most one call answered, and then the digest of the mail
    is among the keys. *)
Lemma lineHandler_answered (line : jsstring) (st : state) :
  let st' := snd (lineHandler env prFilter line st) in
  let calls := answered env (trace st) (events_since (trace st) st') in
  calls = [] \/ exists mid call, calls = [(mid, call)] /\ hashKey mid ∈ keys st'.
Proof.
  cbv zeta.
  destruct (lineHandler_outcome env prFilter line st)
    as [(Hq & _)|(es0 & mid0 & call0 & Hes0 &
                  [(Hgh & Hev & Hk & Hn)|(id & value & Hgh &
                    [(Hset & Hev & Hk & Hn)|(Hset & Hev & Hk & Hn)])])].
  - left. by apply answered_quiet.
  - left. rewrite Hev, answered_app, answered_quiet by done.
    cbn. by rewrite Hgh.
  - by rewrite writable in Hset.
  - right. exists mid0, call0. split.
    + rewrite Hev, answered_app, answered_quiet by done. cbn. by rewrite Hgh.
    + rewrite Hk. apply elem_of_union. left. by apply elem_of_singleton.
Qed.

(** Over a stream of lines the calls answered are for distinct digests. *)
Lemma each_line_answered_once (lines : list jsstring) (st : state) :
  NoDup (map (fun p => hashKey (fst p))
           (answered env (trace st)
              (events_since (trace st) (snd (each_line env prFilter lines st))))).
Proof.
  revert st. induction lines as [|line rest IH]; intros st.
  { cbn. unfold events_since. rewrite skipn_all. constructor. }
  cbn [each_line]. unfold bind.
  pose proof (lineHandler_answered line st) as Hfirst.
  destruct (lineHandler_stepped env prFilter line st) as (st1 & Hrun & Hstep).
  rewrite Hrun in *. cbn [snd] in Hfirst. cbv zeta in Hfirst.
  destruct (stepped_effect env prFilter line st st1 Hstep) as (es1 & Ht1 & _).
  destruct (each_line_effect env prFilter rest st1) as (es2 & Ht2 & _ & _ & Hunseen).
  specialize (IH st1).
  assert (events_since (trace st) st1 = es1) as He1.
  { unfold events_since. by rewrite Ht1, skipn_app, skipn_all, Nat.sub_diag. }
  assert (events_since (trace st1) (snd (each_line env prFilter rest st1)) = es2) as He2.
  { unfold events_since. by rewrite Ht2, skipn_app, skipn_all, Nat.sub_diag. }
  assert (events_since (trace st) (snd (each_line env prFilter rest st1)) = es1 ++ es2)
    as He.
  { unfold events_since.
    by rewrite Ht2, Ht1, <- app_assoc, skipn_app, skipn_all, Nat.sub_diag. }
  rewrite He, answered_app, <- Ht1, map_app. rewrite He1 in Hfirst. rewrite He2 in IH.
  destruct Hfirst as [->|(mid & call & -> & Hkey)]; [exact IH|].
  cbn [map app fst]. constructor; [|exact IH].
  rewrite list_elem_of_In, in_map_iff. intros ([mid' call'] & Heq & Hin).
  apply answered_called, Hunseen in Hin. cbn [fst] in Heq.
  unfold seen in Hin. rewrite bool_decide_eq_false, Heq in Hin. done.
Qed.

End Once.

Section Recorded.

Context (env : environment) (prFilter : option (jsstring -> bool)).

(** A write of a note that is accepted ends the line, and the digest of its
    key is among the keys from then on. *)
Lemma lineHandler_recorded (line : jsstring) (st : state)
    (es rest : list event) (key : jsstring) (value : note) (force : bool) :
  let st' := snd (lineHandler env prFilter line st) in
  events_since (trace st) st' = es ++ EvNotesSet key value force :: rest ->
  notes_set_ok env (trace st ++ es) key value = true ->
  rest = [] /\ hashKey key ∈ keys st'.
Proof.
  intros st' Hevents Hok. subst st'.
  assert (Hx : forall (es0 : list event) mid0 call0,
             Forall (fun e => quiet e = true) es0 ->
             Forall (fun e => is_notes_set e = false) (es0 ++ [EvGitHub mid0 call0])).
  { intros. apply Forall_app; split; [by apply quiet_not_notes_set|by repeat constructor]. }
  destruct (lineHandler_outcome env prFilter line st)
    as [(Hq & _)|(es0 & mid0 & call0 & Hes0 &
                  [(Hgh & Hev & Hk & Hn)|(id & value0 & Hgh &
                    [(Hset & Hev & Hk & Hn)|(Hset & Hev & Hk & Hn)])])].
  - rewrite Hevents in Hq. apply quiet_not_notes_set in Hq.
    apply Forall_app in Hq as [_ Hq]. by apply Forall_inv in Hq.
  - rewrite Hev in Hevents.
    assert (Forall (fun e => is_notes_set e = false)
              (es ++ EvNotesSet key value force :: rest)) as Hq.
    { rewrite <- Hevents. apply Forall_app; split; [by apply quiet_not_notes_set|].
      by repeat constructor. }
    apply Forall_app in Hq as [_ Hq]. by apply Forall_inv in Hq.
  - rewrite Hevents in Hev.
    destruct (split_unique is_notes_set (es0 ++ [EvGitHub mid0 call0])
                [EvConsole (LogSkipping NotesError)]
                es rest (EvNotesSet key value force) (EvNotesSet mid0 value0 false))
      as (-> & [= -> -> _] & _); try done; [by apply Hx|by repeat constructor| |].
    + by rewrite <- app_assoc.
    + congruence.
  - rewrite Hevents in Hev.
    destruct (split_unique is_notes_set (es0 ++ [EvGitHub mid0 call0]) []
                es rest (EvNotesSet key value force) (EvNotesSet mid0 value0 false))
      as (_ & [= -> _ _] & ->); try done; [by apply Hx|by rewrite <- app_assoc|].
    split; [reflexivity|]. rewrite Hk. apply elem_of_union. left.
    by apply elem_of_singleton.
Qed.

(** Once the note of a mail is written, no call is made for its digest in
    what follows of the stream. *)
Lemma each_line_recorded (lines : list jsstring) (st : state)
    (es rest : list event) (key : jsstring) (value : note) (force : bool) :
  events_since (trace st) (snd (each_line env prFilter lines st))
  = es ++ EvNotesSet key value force :: rest ->
  notes_set_ok env (trace st ++ es) key value = true ->
  forall mid call, In (mid, call) (github_calls rest) -> hashKey mid <> hashKey key.
Proof.
  revert st es. induction lines as [|line lines IH]; intros st es Hev Hok.
  { cbn in Hev. unfold events_since in Hev. rewrite skipn_all in Hev.
    by destruct es. }
  cbn [each_line] in Hev. unfold bind in Hev.
  pose proof (lineHandler_recorded line st) as Hline.
  destruct (lineHandler_stepped env prFilter line st) as (st1 & Hrun & Hstep).
  rewrite Hrun in *. cbn [snd] in Hline. cbv zeta in Hline.
  destruct (stepped_effect env prFilter line st st1 Hstep) as (es1 & Ht1 & _).
  destruct (each_line_effect env prFilter lines st1) as (es2 & Ht2 & _ & _ & Hunseen).
  assert (events_since (trace st) st1 = es1) as He1.
  { unfold events_since. by rewrite Ht1, skipn_app, skipn_all, Nat.sub_diag. }
  assert (events_since (trace st1) (snd (each_line env prFilter lines st1)) = es2) as He2.
  { unfold events_since. by rewrite Ht2, skipn_app, skipn_all, Nat.sub_diag. }
  assert (events_since (trace st) (snd (each_line env prFilter lines st1)) = es1 ++ es2)
    as He.
  { unfold events_since.
    by rewrite Ht2, Ht1, <- app_assoc, skipn_app, skipn_all, Nat.sub_diag. }
  rewrite He in Hev. rewrite He1 in Hline.
  apply app_eq_app in Hev as [l [[H1 H2]|[H1 H2]]].
  - destruct l as [|x l]; cbn in H2.
    + rewrite app_nil_r in H1. subst es1.
      apply (IH st1 []); [by rewrite He2|].
      by rewrite app_nil_r, Ht1.
    + injection H2 as <- ->.
      destruct (Hline es l key value force H1 Hok) as [-> Hkey].
      cbn [app]. intros mid call Hin Heq.
      specialize (Hunseen mid call Hin). unfold seen in Hunseen.
      rewrite bool_decide_eq_false, Heq in Hunseen. done.
  - subst es. apply (IH st1 l); [by rewrite He2|].
    by rewrite Ht1, <- app_assoc.
Qed.

(** When [mboxHandler] throws, whatever was done before, the keys and the
    notes are as they were. *)
Lemma mboxHandler_thrown (mid : jsstring) (refs : list jsstring)
    (mbox : jsstring) (st st' : state) (reason : failure) :
  mboxHandler env prFilter mid refs mbox st = (Throw reason, st') ->
  keys st' = keys st /\ notes st' = notes st.
Proof.
  intros Hrun. destruct (seen st mid) eqn:Hseen.
  { rewrite mboxHandler_known in Hrun by done. discriminate Hrun. }
  pose proof (mboxHandler_handled env prFilter mid refs mbox st Hseen) as H.
  rewrite Hrun in H. by handled_cases H.
Qed.

End Recorded.

(** C2, as amended: a mail whose digest is among the known keys is not
    delivered. [mboxHandler] returns at once on such a mail, without a call
    and without a change of state; over a whole stream of lines, from any
    state, no GitHub call is made for a Message-ID whose digest was among
    the keys at the start, whatever the lines hold. The digest is added
    when the note of the mail has been written: whenever [mboxHandler] has
    called GitHub and returned, the digest is among the keys; once the
    write of the note of a mail is accepted, no call is made for its digest
    in what follows of the stream, even if its bytes come back; and so,
    the notes being written as asked, the calls GitHub answered are for
    distinct digests. When [mboxHandler] throws, as it does when the
    comment is posted and the write of the note is rejected, the keys and
    the notes are as before: the digest is not added. *)
Theorem known_message_is_not_delivered (env : environment)
    (prFilter : option (jsstring -> bool)) :
  (forall mid refs mbox st,
      seen st mid = true ->
      mboxHandler env prFilter mid refs mbox st = (Ok tt, st))
  /\ (forall lines st mid mid' call,
         seen st mid = true ->
         In (mid', call)
            (github_calls (events_since (trace st)
                             (snd (each_line env prFilter lines st)))) ->
         hashKey mid' <> hashKey mid)
  /\ (forall mid refs mbox st st',
         mboxHandler env prFilter mid refs mbox st = (Ok tt, st') ->
         github_calls (events_since (trace st) st') <> [] ->
         seen st' mid = true)
  /\ ((forall tr key value, notes_set_ok env tr key value = true) ->
      forall lines st,
        NoDup (map (fun p => hashKey (fst p))
                 (answered env (trace st)
                    (events_since (trace st)
                       (snd (each_line env prFilter lines st))))))
  /\ (forall lines st es rest key value force,
         events_since (trace st) (snd (each_line env prFilter lines st))
         = es ++ EvNotesSet key value force :: rest ->
         notes_set_ok env (trace st ++ es) key value = true ->
         forall mid call,
           In (mid, call) (github_calls rest) -> hashKey mid <> hashKey key)
  /\ (forall mid refs mbox st st' reason,
         mboxHandler env prFilter mid refs mbox st = (Throw reason, st') ->
         keys st' = keys st /\ notes st' = notes st).
Proof.
  split; [|split; [|split; [|split; [|split]]]];
    [| | |apply each_line_answered_once|apply each_line_recorded
     |apply mboxHandler_thrown].
  - intros. by apply mboxHandler_known.
  - intros lines st mid mid' call Hseen Hin Heq.
    destruct (each_line_effect env prFilter lines st) as (es & Ht & _ & _ & Hc).
    unfold events_since in Hin. rewrite Ht, skipn_app, skipn_all, Nat.sub_diag in Hin.
    cbn in Hin. specialize (Hc _ _ Hin).
    unfold seen in *. rewrite Heq in Hc. congruence.
  - intros mid refs mbox st st' Hrun Hcalls.
    destruct (seen st mid) eqn:Hseen.
    { rewrite mboxHandler_known in Hrun by done. injection Hrun as <-.
      unfold events_since in Hcalls. by rewrite skipn_all in Hcalls. }
    pose proof (mboxHandler_handled env prFilter mid refs mbox st Hseen) as H.
    rewrite Hrun in H. inversion H; subst.
    + rewrite events_since_extend, github_calls_silent in Hcalls; done.
    + unfold seen. cbn. rewrite bool_decide_eq_true. set_solver.
Qed.

Module Twice.

Import Demo.

(** C2 as stated fails: the notes of mails cannot be written and the diff
    of [M0] comes twice in the log of one scan. The comment is posted, the
    write of the note is rejected and logged, the digest of [M0] is not
    added to the keys, and the comment is posted again: GitHub has answered
    two calls for the same Message-ID. *)
Lemma unrecorded_mail_is_delivered_twice_counterexample :
  let env := env_notes_readonly
               (Demo.env (ls_tree_of [A]) (lit "h1") (diff_of_M0 ++ diff_of_M0)) in
  let st := state_of [A] (Some (lit "h0")) in
  let st' := snd (processMails env None st) in
  let call := addPRComment url (comment_of env M0 parsed (lit "Hello")) in
  seen st M0 = false
  /\ fst (processMails env None st) = Ok true
  /\ answered env (trace st) (events_since (trace st) st')
     = [(M0, call); (M0, call)]
  /\ seen st' M0 = false
  /\ ~ NoDup (map (fun p => hashKey (fst p))
              (answered env (trace st) (events_since (trace st) st'))).
Proof.
  cbv zeta.
  assert (answered
            (env_notes_readonly
               (Demo.env (ls_tree_of [A]) (lit "h1") (diff_of_M0 ++ diff_of_M0)))
            (trace (state_of [A] (Some (lit "h0"))))
            (events_since (trace (state_of [A] (Some (lit "h0"))))
               (snd (processMails
                       (env_notes_readonly
                          (Demo.env (ls_tree_of [A]) (lit "h1")
                             (diff_of_M0 ++ diff_of_M0)))
                       None (state_of [A] (Some (lit "h0"))))))
          = [(M0, addPRComment url
                    (comment_of
                       (env_notes_readonly
                          (Demo.env (ls_tree_of [A]) (lit "h1")
                             (diff_of_M0 ++ diff_of_M0)))
                       M0 parsed (lit "Hello")));
             (M0, addPRComment url
                    (comment_of
                       (env_notes_readonly
                          (Demo.env (ls_tree_of [A]) (lit "h1")
                             (diff_of_M0 ++ diff_of_M0)))
                       M0 parsed (lit "Hello")))]) as Hcalls
    by (vm_compute; reflexivity).
  split; [vm_compute; reflexivity|].
  split; [vm_compute; reflexivity|].
  split; [exact Hcalls|].
  split; [vm_compute; reflexivity|].
  rewrite Hcalls. cbn [map fst]. intros Hnd.
  apply NoDup_cons in Hnd as [Hnot _]. apply Hnot, list_elem_of_here.
Qed.

End Twice.

(** ** A read of the notes that is rejected *)

Lemma split_in_front {A} (P : A -> bool) (X tail es rest : list A) (x : A) :
  Forall (fun e => P e = false) tail -> P x = true ->
  X ++ tail = es ++ x :: rest ->
  exists rest', X = es ++ x :: rest' /\ rest = rest' ++ tail.
Proof.
  intros Htail Hx Heq.
  assert (~ In x tail) as Hnot.
  { intros Hin. rewrite List.Forall_forall in Htail.
    specialize (Htail x Hin). congruence. }
  apply app_eq_app in Heq as [l [[HX Ht]|[Hes Ht]]].
  - destruct l as [|y l]; cbn in Ht.
    + destruct Hnot. rewrite <- Ht. by left.
    + injection Ht as <- ->. by exists l.
  - destruct Hnot. rewrite Ht. apply in_elt.
Qed.

Lemma github_calls_reads (es : list event) :
  Forall (fun e => is_notes_get e = true) es -> github_calls es = [].
Proof.
  induction 1 as [|e es He _ IH]; [reflexivity|].
  unfold github_calls in *. cbn [flat_map]. rewrite IH. by destruct e.
Qed.

Lemma notes_set_reads (es : list event) :
  Forall (fun e => is_notes_get e = true) es ->
  Forall (fun e => is_notes_set e = false) es.
Proof. apply List.Forall_impl. by intros []. Qed.

Section Reads.

Context (env : environment) (prFilter : option (jsstring -> bool)).

(** The loop leaves reads in the trace and nothing else, and stops at the
    first read that is rejected. *)
Lemma resolve_reads (references : list jsstring) (v : Vars.t) (st : state) :
  exists es r,
    resolve env prFilter references v st = (r, extend es st)
    /\ Forall (fun e => is_notes_get e = true) es
    /\ forall es1 key rest,
         es = es1 ++ EvNotesGet key :: rest ->
         notes_get_ok env (trace st ++ es1) key = false ->
         rest = [] /\ r = Throw NotesError.
Proof.
  revert v st. induction references as [|reference references IH]; intros v st.
  - exists [], (Ok v). cbn. rewrite extend_nil.
    split; [reflexivity|]. split; [constructor|].
    intros [|e es1] key rest Heq; discriminate Heq.
  - cbn [resolve]. unfold bind, notes_get.
    destruct (notes_get_ok env (trace st) reference) eqn:Hget.
    + destruct (IH (consider prFilter reference (notes st !! hashKey reference) v)
                   (record (EvNotesGet reference) st)) as (es & r & Hr & Hes & Hrej).
      exists (EvNotesGet reference :: es), r. rewrite Hr.
      change (record (EvNotesGet reference) st)
        with (extend [EvNotesGet reference] st).
      rewrite extend_extend. split; [reflexivity|]. split; [by constructor|].
      intros [|e es1] key rest Heq Hdown; cbn in Heq.
      * injection Heq as <- _. rewrite app_nil_r in Hdown. congruence.
      * injection Heq as <- ->. apply (Hrej es1 key rest); [reflexivity|].
        cbn [trace record]. by rewrite <- app_assoc.
    + exists [EvNotesGet reference], (Throw NotesError).
      split; [reflexivity|]. split; [by repeat constructor|].
      intros [|e [|e' es1]] key rest Heq _; cbn in Heq; try discriminate Heq.
      by injection Heq as _ <-.
Qed.

(** Once the loop is over no note is read. *)
Lemma mboxHandler_after_reads (mid : jsstring) (refs : list jsstring)
    (mbox : jsstring) (st : state) (reads : list event) (v : Vars.t) :
  seen st mid = false ->
  resolve env prFilter (List.filter (seen st) refs) Vars.undefined st
  = (Ok v, extend reads st) ->
  exists tail,
    trace (snd (mboxHandler env prFilter mid refs mbox st))
    = trace st ++ reads ++ tail
    /\ Forall (fun e => is_notes_get e = false) tail.
Proof.
  intros Hseen Hr. unfold mboxHandler. rewrite Hseen. unfold bind at 1. rewrite Hr.
  destruct (Vars.pullRequestURL v) as [[|c u]|];
    try (exists []; unfold ret; cbn [snd trace extend];
         rewrite app_nil_r; by split).
  unfold bind at 1, console_log, modify. rewrite record_extend.
  unfold bind at 1, call_parseMBox. rewrite record_extend.
  destruct (parseMBox env _ mbox) as [parsed|].
  2:{ eexists. cbn [snd trace extend]. rewrite <- !app_assoc.
      split; [reflexivity|by repeat constructor]. }
  unfold bind at 1, call_mbox2markdown.
  destruct (mbox2markdown env parsed) as [text|].
  2:{ eexists. cbn [snd trace extend]. rewrite <- !app_assoc.
      split; [reflexivity|by repeat constructor]. }
  unfold bind at 1. rewrite deliver_shape. cbv zeta. rewrite record_extend.
  destruct (github env _ _) as [id|].
  2:{ eexists. cbn [snd trace extend]. rewrite <- !app_assoc.
      split; [reflexivity|by repeat constructor]. }
  unfold bind at 1, notes_set. rewrite record_extend.
  destruct (notes_set_ok env _ _ _).
  - eexists. unfold modify. cbn [snd trace extend set_keys set_notes].
    rewrite <- !app_assoc. split; [reflexivity|by repeat constructor].
  - eexists. cbn [snd trace extend]. rewrite <- !app_assoc.
    split; [reflexivity|by repeat constructor].
Qed.

(** A read that is rejected is the last thing [mboxHandler] does: it
    throws, and only reads came before. *)
Lemma mboxHandler_read_failed (mid : jsstring) (refs : list jsstring)
    (mbox : jsstring) (st : state) (es rest : list event) (key : jsstring) :
  seen st mid = false ->
  events_since (trace st) (snd (mboxHandler env prFilter mid refs mbox st))
  = es ++ EvNotesGet key :: rest ->
  notes_get_ok env (trace st ++ es) key = false ->
  mboxHandler env prFilter mid refs mbox st
  = (Throw NotesError, extend (es ++ [EvNotesGet key]) st)
  /\ rest = []
  /\ Forall (fun e => is_notes_get e = true) es.
Proof.
  intros Hseen Hev Hdown.
  destruct (resolve_reads (List.filter (seen st) refs) Vars.undefined st)
    as (reads & r & Hr & Hreads & Hrej).
  destruct r as [v|reason].
  - destruct (mboxHandler_after_reads mid refs mbox st reads v Hseen Hr)
      as (tail & Ht & Htail).
    unfold events_since in Hev.
    rewrite Ht, skipn_app, skipn_all, Nat.sub_diag in Hev. cbn [skipn app] in Hev.
    destruct (split_in_front is_notes_get reads tail es rest (EvNotesGet key))
      as (rest' & Hsplit & _); try done.
    destruct (Hrej es key rest' Hsplit Hdown) as [_ Hthrown]. discriminate Hthrown.
  - assert (mboxHandler env prFilter mid refs mbox st
            = (Throw reason, extend reads st)) as Hrun.
    { unfold mboxHandler. rewrite Hseen. unfold bind at 1. by rewrite Hr. }
    rewrite Hrun in Hev |- *. cbn [snd] in Hev.
    rewrite events_since_extend in Hev.
    destruct (Hrej es key rest Hev Hdown) as [-> [= ->]].
    split; [by rewrite Hev|]. split; [reflexivity|].
    rewrite Hev in Hreads. by apply Forall_app in Hreads as [? _].
Qed.

(** The same for the line that ends the mail: the failure is logged and
    nothing else happens to that mail. *)
Lemma lineHandler_read_failed (line : jsstring) (st : state)
    (es rest : list event) (key : jsstring) :
  let st' := snd (lineHandler env prFilter line st) in
  events_since (trace st) st' = es ++ EvNotesGet key :: rest ->
  notes_get_ok env (trace st ++ es) key = false ->
  rest = [EvConsole (LogSkipping NotesError)]
  /\ github_calls (events_since (trace st) st') = []
  /\ Forall (fun e => is_notes_set e = false) (events_since (trace st) st')
  /\ keys st' = keys st /\ notes st' = notes st.
Proof.
  cbv zeta. unfold lineHandler.
  assert (Hnone : forall s, trace s = trace st ->
            events_since (trace st) s = es ++ EvNotesGet key :: rest -> False).
  { intros s Hs. unfold events_since. rewrite Hs, skipn_all.
    by destruct es. }
  destruct (startsWith line (lit "@@ ")).
  { destruct (match_hunk_header line); cbn [snd]; intros Hev;
      by destruct (Hnone _ eq_refl Hev). }
  destruct (truthy_number (counter st)).
  2:{ cbn [snd]. intros Hev. by destruct (Hnone _ eq_refl Hev). }
  cbv zeta.
  change (set_counter
            (decrement (counter (set_buffer (buffer st ++ substr 1 line ++ [10]) st)))
            (set_buffer (buffer st ++ substr 1 line ++ [10]) st))
    with (collect line st).
  change (counter (collect line st)) with (decrement (counter st)).
  destruct (truthy_number (decrement (counter st))).
  { cbn [snd]. intros Hev. by destruct (Hnone _ eq_refl Hev). }
  set (buf := buffer (collect line st)).
  assert (Hbase : forall l, events_since (trace st) (extend l (collect line st)) = l).
  { intros l. change (trace st) with (trace (collect line st)).
    apply events_since_extend. }
  unfold try_catch, bind, call_parseMBoxMessageIDAndReferences.
  change (trace (collect line st)) with (trace st).
  change (record ?e (collect line st)) with (extend [e] (collect line st)).
  destruct (parseMBoxMessageIDAndReferences env (trace st) buf)
    as [[mid refs]|]; cbn [fst snd].
  2:{ unfold console_log, modify. rewrite record_extend. cbn [snd].
      rewrite Hbase. intros Hev.
      destruct es as [|e [|e' [|e'' es]]]; discriminate Hev. }
  set (st0 := extend [EvParseIds buf] (collect line st)).
  destruct (seen st0 mid) eqn:Hseen.
  { rewrite mboxHandler_known by exact Hseen. cbn [snd]. unfold st0.
    rewrite Hbase. intros Hev. destruct es as [|e [|e' es]]; discriminate Hev. }
  pose proof (mboxHandler_handled env prFilter mid refs buf st0 Hseen) as Hh.
  destruct (mboxHandler env prFilter mid refs buf st0) as [r st1] eqn:Hrun.
  destruct (handled_effect _ _ _ _ _ _ _ _ Hh) as (es0 & [Ht _ _ _ _ _ _ _]).
  cbn [trace extend st0] in Ht.
  assert (events_since (trace st0) st1 = es0) as Hsince.
  { unfold events_since, st0. cbn [trace extend].
    by rewrite Ht, skipn_app, skipn_all, Nat.sub_diag. }
  set (logged := match r with
                 | Ok _ => []
                 | Throw reason => [EvConsole (LogSkipping reason)]
                 end).
  assert (events_since (trace st)
            (snd match r with
                 | Ok a => (Ok a, st1)
                 | Throw reason => console_log (LogSkipping reason) st1
                 end)
          = EvParseIds buf :: es0 ++ logged) as ->.
  { subst logged. destruct r as [[]|reason];
      unfold events_since, console_log, modify; cbn [snd trace record];
      rewrite Ht, <- ?app_assoc, skipn_app, skipn_all, Nat.sub_diag;
      cbn [skipn app]; by rewrite ?app_nil_r. }
  assert (Forall (fun e => is_notes_get e = false) logged) as Hlogged.
  { subst logged. destruct r; by repeat constructor. }
  intros Hev Hdown.
  destruct es as [|e es]; [discriminate Hev|]. cbn [app] in Hev.
  injection Hev as <- Hev.
  destruct (split_in_front is_notes_get es0 logged es rest (EvNotesGet key))
    as (rest' & Hsplit & Hrest); try done.
  destruct (mboxHandler_read_failed mid refs buf st0 es rest' key Hseen)
    as (Hthrown & -> & Hreads).
  { rewrite Hrun. cbn [snd]. by rewrite Hsince. }
  { unfold st0. cbn [trace extend]. by rewrite <- app_assoc. }
  rewrite Hrun in Hthrown.
  assert (r = Throw NotesError) as -> by congruence.
  assert (st1 = extend (es ++ [EvNotesGet key]) st0) as -> by congruence.
  subst rest logged es0. cbn [app].
  split; [reflexivity|]. rewrite !events_since_extend.
  unfold console_log, modify. cbn [snd keys notes record extend st0 collect
    set_counter set_buffer].
  split; [|split; [|by split]].
  - change (EvParseIds buf :: (es ++ [EvNotesGet key])
              ++ [EvConsole (LogSkipping NotesError)])
      with ([EvParseIds buf] ++ (es ++ [EvNotesGet key])
              ++ [EvConsole (LogSkipping NotesError)]).
    rewrite !github_calls_app, (github_calls_reads es) by done. reflexivity.
  - constructor; [done|]. apply Forall_app; split; [|by repeat constructor].
    apply Forall_app; split; [by apply notes_set_reads|by repeat constructor].
Qed.

End Reads.

Lemma asked_trace (env : environment) (out : jsstring) (st : state) :
  trace (asked env out st)
  = trace st ++ [EvGit (ls_tree_args env) (workDir env);
                 EvRevParse (lit "master") (publicInboxGitDir env)].
Proof. unfold asked. cbn [trace record]. by rewrite started_trace, <- app_assoc. Qed.

(** With new history and the log read to its end, the scan ends with the
    write of the new cursor. *)
Lemma processMails_persists (env : environment)
    (prFilter : option (jsstring -> bool)) (st : state) (out head : jsstring)
    (lines : list jsstring) :
  git env (trace st) (ls_tree_args env) (workDir env) = Some out ->
  revParse env (trace st ++ [EvGit (ls_tree_args env) (workDir env)])
    (lit "master") (publicInboxGitDir env) = Some head ->
  cursor (this_state st) <> head ->
  git_lines env
    (trace st ++ [EvGit (ls_tree_args env) (workDir env);
                  EvRevParse (lit "master") (publicInboxGitDir env)])
    (log_args (cursor (this_state st)) head) (publicInboxGitDir env)
  = (lines, true) ->
  let value := MirrorState {| latestRevision := Some head |} in
  exists st' es,
    events_since (trace st) st' = es ++ [EvNotesSet stateKey value true]
    /\ latestRevision (this_state st') = Some head
    /\ ((notes_set_ok env (trace st ++ es) stateKey value = true
         /\ processMails env prFilter st = (Ok true, st')
         /\ notes st' !! hashKey stateKey = Some value)
        \/ (notes_set_ok env (trace st ++ es) stateKey value = false
            /\ processMails env prFilter st = (Throw NotesError, st'))).
Proof.
  intros Hls Hhead Hne Hlog value.
  rewrite <- asked_trace with (out := out) in Hlog.
  rewrite (processMails_advances env prFilter st out head lines) by done.
  fold value.
  destruct (each_line_effect env prFilter lines (logging env out head st))
    as (es1 & Ht & _).
  set (st1 := snd (each_line env prFilter lines (logging env out head st))) in *.
  assert (trace st1 = trace st ++
            ([EvGit (ls_tree_args env) (workDir env);
              EvRevParse (lit "master") (publicInboxGitDir env);
              EvGit (log_args (cursor (this_state st)) head) (publicInboxGitDir env)]
               ++ es1)) as Ht1.
  { rewrite Ht. unfold logging. cbn [trace record].
    rewrite asked_trace, <- !app_assoc. reflexivity. }
  set (es := _ ++ es1) in Ht1.
  destruct (notes_set_ok env (trace st1) stateKey value) eqn:Hset.
  - exists (set_notes (<[hashKey stateKey := value]> (notes st1))
              (record (EvNotesSet stateKey value true)
                 (set_this_state {| latestRevision := Some head |} st1))), es.
    split; [|split; [reflexivity|]].
    + unfold events_since. cbn [trace set_notes record set_this_state].
      by rewrite Ht1, <- app_assoc, skipn_app, skipn_all, Nat.sub_diag.
    + left. rewrite <- Ht1. repeat split; try done.
      cbn [notes set_notes]. by rewrite lookup_insert_eq.
  - exists (record (EvNotesSet stateKey value true)
              (set_this_state {| latestRevision := Some head |} st1)), es.
    split; [|split; [reflexivity|]].
    + unfold events_since. cbn [trace set_notes record set_this_state].
      by rewrite Ht1, <- app_assoc, skipn_app, skipn_all, Nat.sub_diag.
    + right. rewrite <- Ht1. by split.
Qed.

(** C7: a scan that finds new history and reads its log to the end sets
    the cursor to the head and writes the state of the mirror, whatever
    GitHub, the notes of the mails and the parser answered on the way: no
    assumption is made on them. A call to GitHub that is rejected is logged
    and is the end of that mail for this scan: nothing is written for it,
    no key is added, and the line handler returns normally, so the scan goes
    on to the next line and to the write of the cursor. *)
Theorem cursor_advances_whatever_was_delivered (env : environment)
    (prFilter : option (jsstring -> bool)) :
  (forall st out head lines,
      git env (trace st) (ls_tree_args env) (workDir env) = Some out ->
      revParse env (trace st ++ [EvGit (ls_tree_args env) (workDir env)])
        (lit "master") (publicInboxGitDir env) = Some head ->
      cursor (this_state st) <> head ->
      git_lines env
        (trace st ++ [EvGit (ls_tree_args env) (workDir env);
                      EvRevParse (lit "master") (publicInboxGitDir env)])
        (log_args (cursor (this_state st)) head) (publicInboxGitDir env)
      = (lines, true) ->
      (forall tr value, notes_set_ok env tr stateKey value = true) ->
      exists st' es,
        processMails env prFilter st = (Ok true, st')
        /\ latestRevision (this_state st') = Some head
        /\ notes st' !! hashKey stateKey
           = Some (MirrorState {| latestRevision := Some head |})
        /\ events_since (trace st) st'
           = es ++ [EvNotesSet stateKey
                      (MirrorState {| latestRevision := Some head |}) true])
  /\ (forall line st es rest mid call,
         let st' := snd (lineHandler env prFilter line st) in
         events_since (trace st) st' = es ++ EvGitHub mid call :: rest ->
         github env (trace st ++ es) call = None ->
         fst (lineHandler env prFilter line st) = Ok tt
         /\ rest = [EvConsole (LogSkipping GitHubError)]
         /\ keys st' = keys st /\ notes st' = notes st).
Proof.
  split.
  - intros st out head lines Hls Hhead Hne Hlog Hset.
    destruct (processMails_persists env prFilter st out head lines)
      as (st' & es & Hev & Hrev & [(_ & Hrun & Hnote)|(Hfail & _)]); try done.
    + by exists st', es.
    + by rewrite Hset in Hfail.
  - intros line st es rest mid call st' Hev Hdown.
    split; [apply lineHandler_returns|].
    by eapply lineHandler_delivery_failed.
Qed.

(** C8, as amended: a read or a write of the notes that fails while a mail
    is handled does not stop the scan: the line handler returns normally
    whatever fails. A rejected write is logged and leaves the notes and the
    keys as they were. A rejected read is logged and is the end of that
    mail: no call is made to GitHub for it, nothing is written, and the
    notes and the keys are as they were. The scan goes on to write the
    cursor. What stops the scan is a failure outside the handling of mails:
    the listing of the notes at the start, after which nothing else is done
    and the state is untouched, so that the next scan starts from the same
    cursor; and the write of the cursor itself. *)
Theorem storage_failure_stops_the_scan_only_outside_mails
    (env : environment) (prFilter : option (jsstring -> bool)) :
  (forall st,
      git env (trace st) (ls_tree_args env) (workDir env) = None ->
      processMails env prFilter st
      = (Throw GitError, record (EvGit (ls_tree_args env) (workDir env)) st))
  /\ (forall lines st, fst (each_line env prFilter lines st) = Ok tt)
  /\ (forall line st es rest key value force,
         let st' := snd (lineHandler env prFilter line st) in
         events_since (trace st) st' = es ++ EvNotesSet key value force :: rest ->
         notes_set_ok env (trace st ++ es) key value = false ->
         rest = [EvConsole (LogSkipping NotesError)]
         /\ keys st' = keys st /\ notes st' = notes st
         /\ fst (lineHandler env prFilter line st) = Ok tt)
  /\ (forall line st es rest key,
         let st' := snd (lineHandler env prFilter line st) in
         events_since (trace st) st' = es ++ EvNotesGet key :: rest ->
         notes_get_ok env (trace st ++ es) key = false ->
         rest = [EvConsole (LogSkipping NotesError)]
         /\ github_calls (events_since (trace st) st') = []
         /\ Forall (fun e => is_notes_set e = false) (events_since (trace st) st')
         /\ keys st' = keys st /\ notes st' = notes st
         /\ fst (lineHandler env prFilter line st) = Ok tt)
  /\ (forall st out head lines,
         git env (trace st) (ls_tree_args env) (workDir env) = Some out ->
         revParse env (trace st ++ [EvGit (ls_tree_args env) (workDir env)])
           (lit "master") (publicInboxGitDir env) = Some head ->
         cursor (this_state st) <> head ->
         git_lines env
           (trace st ++ [EvGit (ls_tree_args env) (workDir env);
                         EvRevParse (lit "master") (publicInboxGitDir env)])
           (log_args (cursor (this_state st)) head) (publicInboxGitDir env)
         = (lines, true) ->
         let value := MirrorState {| latestRevision := Some head |} in
         exists st' es,
           events_since (trace st) st' = es ++ [EvNotesSet stateKey value true]
           /\ ((notes_set_ok env (trace st ++ es) stateKey value = true
                /\ processMails env prFilter st = (Ok true, st')
                /\ notes st' !! hashKey stateKey = Some value)
               \/ (notes_set_ok env (trace st ++ es) stateKey value = false
                   /\ processMails env prFilter st = (Throw NotesError, st')))).
Proof.
  split; [apply processMails_not_listed|].
  split; [apply each_line_returns|].
  split.
  { intros line st es rest key value force st' Hev Hdown.
    destruct (lineHandler_record_failed env prFilter line st es rest key value force
                Hev Hdown) as (Hrest & Hkeys & Hnotes).
    repeat split; try done. apply lineHandler_returns. }
  split.
  { intros line st es rest key st' Hev Hdown.
    destruct (lineHandler_read_failed env prFilter line st es rest key Hev Hdown)
      as (Hrest & Hcalls & Hwrites & Hkeys & Hnotes).
    repeat split; try done. apply lineHandler_returns. }
  intros st out head lines Hls Hhead Hne Hlog value.
  destruct (processMails_persists env prFilter st out head lines)
    as (st' & es & Hev & _ & H); try done.
  by exists st', es.
Qed.

Module Failing.

Import Demo.

(** C8 as stated fails: the write of the note of [M0] is rejected while the
    scan is under way; the failure is logged, the scan returns [true] and
    the cursor is written all the same, and the comment was posted. *)
Lemma rejected_write_does_not_stop_the_scan_counterexample :
  let env := env_notes_readonly world_with_M0 in
  let st := state_of [A] (Some (lit "h0")) in
  let st' := snd (processMails env None st) in
  fst (processMails env None st) = Ok true
  /\ notes st' !! hashKey stateKey
     = Some (MirrorState {| latestRevision := Some (lit "h1") |})
  /\ logged_skipping NotesError (trace st') = true
  /\ github_calls (trace st')
     = [(M0, addPRComment url (comment_of env M0 parsed (lit "Hello")))]
  /\ notes st' !! hashKey M0 = None.
Proof.
  cbv zeta.
  split; [vm_compute; reflexivity|].
  split; [vm_compute; reflexivity|].
  split; [vm_compute; reflexivity|].
  split; vm_compute; reflexivity.
Qed.

End Failing.

(** ** The theorems at work in the small world *)

Lemma returned_ok {A B} (p : result A * B) (a : A) :
  fst p = Ok a -> p = (Ok a, snd p).
Proof. destruct p as [r s]. cbn. by intros ->. Qed.

Module Witnesses.

Import Demo.

Lemma known_message_is_not_delivered_witness :
  let st := state_of [A] None in
  let st' := snd (each_line world None diff_of_M0 st) in
  seen st (messageID A) = true
  /\ mboxHandler world None (messageID A) [] M0 st = (Ok tt, st)
  /\ In (M0, addPRComment url (comment_of world M0 parsed (lit "Hello")))
        (github_calls (events_since (trace st) st'))
  /\ hashKey M0 <> hashKey (messageID A)
  /\ seen (snd (mboxHandler world None M0 [messageID A] M0 st)) M0 = true
  /\ NoDup (map (fun p => hashKey (fst p))
              (answered world (trace st)
                 (events_since (trace st)
                    (snd (each_line world None (diff_of_M0 ++ diff_of_M0) st)))))
  /\ (forall mid call,
         In (mid, call)
            (github_calls [EvParseIds (lit "m@x" ++ [10] ++ lit "a@x" ++ [10])]) ->
         hashKey mid <> hashKey M0)
  /\ keys (snd (mboxHandler (env_notes_readonly world) None M0 [messageID A] M0 st))
     = keys st.
Proof.
  destruct (known_message_is_not_delivered world None) as (H1 & H2 & H3 & H4 & H5 & _).
  destruct (known_message_is_not_delivered (env_notes_readonly world) None)
    as (_ & _ & _ & _ & _ & H6).
  assert (seen (state_of [A] None) (messageID A) = true) as Hseen
    by (vm_compute; reflexivity).
  assert (In (M0, addPRComment url (comment_of world M0 parsed (lit "Hello")))
            (github_calls (events_since (trace (state_of [A] None))
               (snd (each_line world None diff_of_M0 (state_of [A] None))))))
    as Hin by (vm_compute; left; reflexivity).
  cbv zeta.
  split; [exact Hseen|].
  split; [apply H1; exact Hseen|].
  split; [exact Hin|].
  split; [exact (H2 diff_of_M0 (state_of [A] None) (messageID A) M0 _ Hseen Hin)|].
  split.
  { apply (H3 M0 [messageID A] M0 (state_of [A] None)).
    - apply returned_ok. vm_compute. reflexivity.
    - vm_compute. discriminate. }
  split; [apply H4; intros tr key value; reflexivity|].
  split.
  { set (mbox := lit "m@x" ++ [10] ++ lit "a@x" ++ [10]).
    apply (H5 (diff_of_M0 ++ diff_of_M0) (state_of [A] None)
              [EvParseIds mbox; EvNotesGet (lit "a@x");
               EvConsole (LogMessage M0 8 url None None); EvParseMBox mbox;
               EvGitHub M0 (addPRComment url (comment_of world M0 parsed (lit "Hello")))]
              [EvParseIds mbox] M0
              (MailMetadata {| messageID := M0; pullRequestURL := url;
                               originalCommit := None; issueCommentId := None |})
              false).
    - vm_compute. reflexivity.
    - reflexivity. }
  assert (fst (mboxHandler (env_notes_readonly world) None M0 [messageID A] M0
                 (state_of [A] None)) = Throw NotesError) as Hthrown
    by (vm_compute; reflexivity).
  destruct (mboxHandler (env_notes_readonly world) None M0 [messageID A] M0
              (state_of [A] None)) as [r st'] eqn:Hrun.
  cbn [fst snd] in *. subst r.
  exact (proj1 (H6 M0 [messageID A] M0 (state_of [A] None) st' NotesError Hrun)).
Defined.

Lemma hunk_is_collected_and_handed_over_witness :
  let st := state_of [A] None in
  let lines := [lit "+m@x"; lit "+a@x"] in
  let header := hunk_header (lit "0,0") (lit "1") (lit "2") (lit " @@") in
  header = lit "@@ -0,0 +1,2 @@"
  /\ decimal_value (lit "2") = 2
  /\ lineHandler world None header st
     = (Ok tt, set_buffer [] (set_counter (Num 2) st))
  /\ buffer (snd (each_line world None (header :: lines) st))
     = lit "m@x" ++ [10] ++ lit "a@x" ++ [10]
  /\ counter (snd (each_line world None (header :: lines) st)) = Num 0.
Proof.
  assert (forall d, is_digit d = true -> digits [d]) as Hd.
  { intros d H. split; [discriminate|]. constructor; [exact H|constructor]. }
  destruct (hunk_is_collected_and_handed_over world None (state_of [A] None)
              (lit "0,0") (lit "1") (lit "2") (lit " @@")
              [lit "+m@x"; lit "+a@x"])
    as (H1 & _ & _ & H2 & H3 & _).
  - right. exists (lit "0"), (lit "0").
    split; [apply Hd; reflexivity|]. split; [apply Hd; reflexivity|reflexivity].
  - apply Hd. reflexivity.
  - apply Hd. reflexivity.
  - reflexivity.
  - split; reflexivity.
  - reflexivity.
  - repeat constructor.
  - cbv zeta.
    split; [reflexivity|]. split; [reflexivity|].
    split; [exact H1|]. split; [exact H2|exact H3].
Defined.

Lemma exactly_one_delivery_mode_witness :
  let st := state_of [B] None in
  seen st M0 = false
  /\ Vars.issueCommentId (target None st [messageID B]) = Some 7
  /\ github_calls (events_since (trace st)
                     (snd (mboxHandler world None M0 [messageID B] M0 st)))
     = [(M0, addPRCommentReply url 7 (comment_of world M0 parsed (lit "Hello")))].
Proof.
  assert (seen (state_of [B] None) M0 = false) as Hseen by (vm_compute; reflexivity).
  assert (target None (state_of [B] None) [messageID B]
          = {| Vars.pullRequestURL := Some url; Vars.originalCommit := None;
               Vars.issueCommentId := Some 7 |}) as Ht by (vm_compute; reflexivity).
  destruct (exactly_one_delivery_mode world None M0 [messageID B] M0
              (state_of [B] None) url parsed (lit "Hello")) as (H1 & _ & _).
  - exact Hseen.
  - intros tr key. reflexivity.
  - rewrite Ht. reflexivity.
  - discriminate.
  - intros tr. reflexivity.
  - reflexivity.
  - cbv zeta. rewrite Ht in H1. destruct H1 as (id & Hid & Hcalls); [reflexivity|].
    injection Hid as <-.
    split; [exact Hseen|]. split; [rewrite Ht; reflexivity|exact Hcalls].
Defined.

Lemma merge_keeps_the_last_richer_record_witness :
  let st := state_of [A; B; C] None in
  seen st (messageID A) = true
  /\ target None st [messageID A; messageID B; messageID C]
     = {| Vars.pullRequestURL := Some url;
          Vars.originalCommit := Some (lit "c0ffee");
          Vars.issueCommentId := None |}.
Proof.
  cbv zeta.
  assert (seen (state_of [A; B; C] None) (messageID A) = true) as Hseen
    by (vm_compute; reflexivity).
  split; [exact Hseen|].
  destruct (merge_keeps_the_last_richer_record None (state_of [A; B; C] None)
              (messageID A) (messageID B) (messageID C) A B C) as [H _].
  - exact Hseen.
  - vm_compute. reflexivity.
  - vm_compute. reflexivity.
  - vm_compute. reflexivity.
  - vm_compute. reflexivity.
  - vm_compute. reflexivity.
  - reflexivity.
  - reflexivity.
  - reflexivity.
  - reflexivity.
  - reflexivity.
  - reflexivity.
  - reflexivity.
  - reflexivity.
  - reflexivity.
  - reflexivity.
  - discriminate.
  - exact H.
Defined.

Lemma delivery_is_recorded_witness :
  let st := state_of [B] None in
  let st' := snd (mboxHandler world None M0 [messageID B] M0 st) in
  fst (mboxHandler world None M0 [messageID B] M0 st) = Ok tt
  /\ seen st' M0 = true
  /\ exists data, notes st' !! hashKey M0 = Some (MailMetadata data)
                  /\ issueCommentId data = Some 1003.
Proof.
  cbv zeta.
  assert (fst (mboxHandler world None M0 [messageID B] M0 (state_of [B] None)) = Ok tt)
    as Hok by (vm_compute; reflexivity).
  destruct (delivery_is_recorded world None M0 [messageID B] M0 (state_of [B] None)
              _ (returned_ok _ _ Hok))
    as (es & call & id & data & _ & _ & _ & Hnote & _ & _ & _ & Hseen).
  - vm_compute. discriminate.
  - split; [exact Hok|]. split; [exact Hseen|]. exists data.
    split; [exact Hnote|].
    assert (notes (snd (mboxHandler world None M0 [messageID B] M0 (state_of [B] None)))
              !! hashKey M0
            = Some (MailMetadata {| messageID := M0; pullRequestURL := url;
                                    originalCommit := None;
                                    issueCommentId := Some 1003 |})) as Hn
      by (vm_compute; reflexivity).
    rewrite Hn in Hnote. injection Hnote as <-. reflexivity.
Defined.

Lemma skipped_mail_changes_nothing_witness :
  let st := state_of [A] None in
  let st' := snd (mboxHandler world None M0 [lit "z@x"] M0 st) in
  seen st (lit "z@x") = false
  /\ github_calls (events_since (trace st) st') = []
  /\ notes st' = notes st /\ keys st' = keys st
  /\ seen st' M0 = seen st M0.
Proof.
  assert (seen (state_of [A] None) (lit "z@x") = false) as Hz
    by (vm_compute; reflexivity).
  destruct (skipped_mail_changes_nothing world None M0 [lit "z@x"] M0
              (state_of [A] None)) as (H1 & _ & H2 & H3 & H4).
  - right. left. intros ref [<-|[]] Hseen. rewrite Hz in Hseen. discriminate Hseen.
  - cbv zeta. split; [exact Hz|]. split; [exact H1|]. split; [exact H2|].
    split; [exact H3|exact H4].
Defined.

Lemma no_new_history_no_effect_witness :
  let st := state_of [A] (Some (lit "h1")) in
  exists st',
    processMails world None st = (Ok false, st')
    /\ github_calls (events_since (trace st) st') = []
    /\ notes st' = notes st.
Proof.
  destruct (no_new_history_no_effect world None (state_of [A] (Some (lit "h1")))
              [] (lit "h1")) as (st' & Hrun & _ & Hcalls & _ & Hnotes & _).
  - reflexivity.
  - reflexivity.
  - reflexivity.
  - exists st'. split; [exact Hrun|]. split; [exact Hcalls|exact Hnotes].
Defined.

Lemma cursor_advances_whatever_was_delivered_witness :
  let env := env_github_down world_with_M0 in
  let st := state_of [A] (Some (lit "h0")) in
  let st1 := set_counter (Num 1) (set_buffer (lit "m@x" ++ [10]) st) in
  (exists st', processMails env None st = (Ok true, st')
               /\ latestRevision (this_state st') = Some (lit "h1"))
  /\ logged_skipping GitHubError (trace (snd (processMails env None st))) = true
  /\ fst (lineHandler env None (lit "+a@x") st1) = Ok tt
  /\ keys (snd (lineHandler env None (lit "+a@x") st1)) = keys st1.
Proof.
  destruct (cursor_advances_whatever_was_delivered (env_github_down world_with_M0) None)
    as (H1 & H2).
  cbv zeta. split; [|split; [vm_compute; reflexivity|]].
  - destruct (H1 (state_of [A] (Some (lit "h0"))) (ls_tree_of [A]) (lit "h1") diff_of_M0)
      as (st' & es & Hrun & Hrev & _).
    + reflexivity.
    + reflexivity.
    + discriminate.
    + reflexivity.
    + intros tr value. reflexivity.
    + exists st'. split; [exact Hrun|exact Hrev].
  - set (st1 := set_counter (Num 1)
                  (set_buffer (lit "m@x" ++ [10]) (state_of [A] (Some (lit "h0"))))).
    set (mbox := lit "m@x" ++ [10] ++ lit "a@x" ++ [10]).
    destruct (H2 (lit "+a@x") st1
                [EvParseIds mbox; EvNotesGet (lit "a@x");
                 EvConsole (LogMessage M0 8 url None None); EvParseMBox mbox]
                [EvConsole (LogSkipping GitHubError)] M0
                (addPRComment url
                   (comment_of (env_github_down world_with_M0) M0 parsed (lit "Hello"))))
      as (Hok & _ & Hkeys & _).
    + vm_compute. reflexivity.
    + reflexivity.
    + split; [exact Hok|exact Hkeys].
Defined.

Lemma storage_failure_stops_the_scan_only_outside_mails_witness :
  let env := env_notes_readonly world_with_M0 in
  let st := state_of [A] (Some (lit "h0")) in
  let st1 := set_counter (Num 1) (set_buffer (lit "m@x" ++ [10]) st) in
  fst (each_line env None diff_of_M0 st) = Ok tt
  /\ (exists st', processMails env None st = (Ok true, st'))
  /\ keys (snd (lineHandler env None (lit "+a@x") st1)) = keys st1
  /\ github_calls
       (events_since (trace st1)
          (snd (lineHandler (Worlds.env_notes_unreadable world_with_M0) None
                  (lit "+a@x") st1))) = [].
Proof.
  destruct (storage_failure_stops_the_scan_only_outside_mails
              (env_notes_readonly world_with_M0) None) as (_ & H2 & H3 & _ & H4).
  destruct (storage_failure_stops_the_scan_only_outside_mails
              (Worlds.env_notes_unreadable world_with_M0) None)
    as (_ & _ & _ & H5 & _).
  cbv zeta. split; [apply H2|]. split.
  - destruct (H4 (state_of [A] (Some (lit "h0"))) (ls_tree_of [A]) (lit "h1") diff_of_M0)
      as (st' & es & _ & [(_ & Hrun & _)|(Hfail & _)]).
    + reflexivity.
    + reflexivity.
    + discriminate.
    + reflexivity.
    + exists st'. exact Hrun.
    + cbn [notes_set_ok env_notes_readonly] in Hfail.
      rewrite bool_decide_eq_true_2 in Hfail by reflexivity. discriminate Hfail.
  - set (st1 := set_counter (Num 1)
                  (set_buffer (lit "m@x" ++ [10]) (state_of [A] (Some (lit "h0"))))).
    set (mbox := lit "m@x" ++ [10] ++ lit "a@x" ++ [10]).
    set (comment := comment_of (env_notes_readonly world_with_M0) M0 parsed (lit "Hello")).
    destruct (H3 (lit "+a@x") st1
                [EvParseIds mbox; EvNotesGet (lit "a@x");
                 EvConsole (LogMessage M0 8 url None None); EvParseMBox mbox;
                 EvGitHub M0 (addPRComment url comment)]
                [EvConsole (LogSkipping NotesError)] M0
                (MailMetadata {| messageID := M0; pullRequestURL := url;
                                 originalCommit := None; issueCommentId := None |})
                false)
      as (_ & Hkeys & _).
    + vm_compute. reflexivity.
    + vm_compute. reflexivity.
    + split; [exact Hkeys|].
      destruct (H5 (lit "+a@x") st1 [EvParseIds mbox] [EvConsole (LogSkipping NotesError)]
                  (lit "a@x")) as (_ & Hcalls & _).
      * vm_compute. reflexivity.
      * reflexivity.
      * exact Hcalls.
Defined.

End Witnesses.

(** ** Where the target of a mail comes from *)

Lemma consider_cases prFilter reference data v :
  consider prFilter reference data v = v
  \/ exists d, data = Some (MailMetadata d)
       /\ truthy_string (Some (pullRequestURL d)) = true
       /\ (forall accepts, prFilter = Some accepts ->
             accepts (pullRequestURL d) = true)
       /\ consider prFilter reference data v = selection reference d.
Proof.
  unfold consider. destruct data as [[d|s]|]; try by left.
  destruct (truthy_string (Some (pullRequestURL d))) eqn:Hurl; [|by left].
  destruct prFilter as [accepts|].
  - destruct (accepts (pullRequestURL d)) eqn:Hacc; cbn [negb]; [|by left].
    match goal with |- context [if ?c then _ else v] => destruct c end; [|by left].
    right. exists d. repeat split; try done. by intros ? [= <-].
  - match goal with |- context [if ?c then _ else v] => destruct c end; [|by left].
    right. exists d. by repeat split.
Qed.

Lemma resolved_cases prFilter store references v :
  resolved prFilter store references v = v
  \/ exists reference d,
       In reference references
       /\ store !! hashKey reference = Some (MailMetadata d)
       /\ truthy_string (Some (pullRequestURL d)) = true
       /\ (forall accepts, prFilter = Some accepts ->
             accepts (pullRequestURL d) = true)
       /\ resolved prFilter store references v = selection reference d.
Proof.
  unfold resolved. revert v.
  induction references as [|reference rest IH]; intros v; [by left|].
  cbn [fold_left].
  destruct (IH (consider prFilter reference (store !! hashKey reference) v))
    as [Hsame|(r & d & Hin & Hd & Hurl & Hacc & Hsel)].
  - rewrite Hsame.
    destruct (consider_cases prFilter reference (store !! hashKey reference) v)
      as [->|(d & Hd & Hurl & Hacc & ->)]; [by left|].
    right. exists reference, d. repeat split; try done. by left.
  - right. exists r, d. repeat split; try done. by right.
Qed.

(** The target of a mail, by cases. *)
Lemma target_cases (prFilter : option (jsstring -> bool))
    (st : state) (refs : list jsstring) :
  target prFilter st refs = Vars.undefined
  \/ exists reference d,
       In reference refs /\ seen st reference = true
       /\ notes st !! hashKey reference = Some (MailMetadata d)
       /\ pullRequestURL d <> []
       /\ (forall accepts, prFilter = Some accepts ->
             accepts (pullRequestURL d) = true)
       /\ target prFilter st refs = selection reference d.
Proof.
  unfold target.
  destruct (resolved_cases prFilter (notes st) (List.filter (seen st) refs)
              Vars.undefined)
    as [Hsame|(r & d & Hin & Hd & Hurl & Hacc & Hsel)]; [by left|].
  right. exists r, d. apply List.filter_In in Hin as [Hin Hseen].
  repeat split; try done. by destruct (pullRequestURL d).
Qed.

(** X1: the target of a mail is never put together from several notes: it
    is either empty or the selection made from the note of one reference of
    the mail, a reference already seen whose note has a pull request that
    the filter of the caller, if any, accepts. *)
Theorem target_is_one_selection (prFilter : option (jsstring -> bool))
    (st : state) (refs : list jsstring) :
  target prFilter st refs = Vars.undefined
  \/ exists reference d,
       In reference refs /\ seen st reference = true
       /\ notes st !! hashKey reference = Some (MailMetadata d)
       /\ pullRequestURL d <> []
       /\ (forall accepts, prFilter = Some accepts ->
             accepts (pullRequestURL d) = true)
       /\ target prFilter st refs = selection reference d.
Proof. apply target_cases. Qed.

(** ** The calls of a line *)

Section Calls.

Context (env : environment) (prFilter : option (jsstring -> bool)).

(** The GitHub call of a line, if any, is the one chosen for the target of
    the mail of that line, computed on the notes and the keys as they were
    before the line. *)
Lemma lineHandler_call (line : jsstring) (st : state) p :
  In p (github_calls (events_since (trace st)
                        (snd (lineHandler env prFilter line st)))) ->
  exists refs url comment,
    seen st (fst p) = false
    /\ Vars.pullRequestURL (target prFilter st refs) = Some url
    /\ snd p = delivery_call (workDir env) url (target prFilter st refs) comment.
Proof.
  destruct (lineHandler_stepped env prFilter line st) as (st' & -> & Hstep).
  cbn [snd].
  assert (Hbase : forall es, events_since (trace st) (extend es (collect line st)) = es).
  { intros es. change (trace st) with (trace (collect line st)).
    apply events_since_extend. }
  assert (Hnone : forall s, trace s = trace st -> events_since (trace st) s = []).
  { intros s Hs. unfold events_since. by rewrite Hs, skipn_all. }
  assert (Htarget : forall refs,
             target prFilter (extend [EvParseIds (buffer (collect line st))]
                                (collect line st)) refs
             = target prFilter st refs) by reflexivity.
  stepped_cases Hstep; try (rewrite Hnone by reflexivity; by intros []);
    try (rewrite Hbase; cbn; tauto).
  - handled_cases Hhandled;
      rewrite ?events_since_frame, ?extend_extend, ?Hbase, ?github_calls_app;
      cbn [github_calls flat_map app];
      rewrite ?(github_calls_silent es) by done; cbn [app]; try (by intros []).
    intros [<-|[]]. exists refs0, url'. eexists.
    rewrite <- Htarget. by repeat split.
  - handled_cases Hhandled;
      rewrite ?record_extend, ?extend_extend, ?Hbase, ?github_calls_app;
      cbn [github_calls flat_map app];
      rewrite ?(github_calls_silent es) by done; cbn [app]; try (by intros []).
    + intros [<-|[]]. exists refs0, url'. eexists.
      rewrite <- Htarget. by repeat split.
    + intros [<-|[]]. exists refs0, url'. eexists.
      rewrite <- Htarget. by repeat split.
Qed.

(** What holds of the calls of every line holds of the calls of a stream. *)
Lemma each_line_calls (P : jsstring * github_call -> Prop) :
  (forall line st p,
      In p (github_calls (events_since (trace st)
                            (snd (lineHandler env prFilter line st)))) -> P p) ->
  forall lines st p,
    In p (github_calls (events_since (trace st)
                          (snd (each_line env prFilter lines st)))) -> P p.
Proof.
  intros Hline lines. induction lines as [|line rest IH]; intros st p.
  { cbn. unfold events_since. by rewrite skipn_all. }
  cbn [each_line]. unfold bind.
  pose proof (Hline line st) as H1.
  destruct (lineHandler_stepped env prFilter line st) as (st1 & Hrun & Hstep).
  rewrite Hrun in *. cbn [snd] in H1.
  destruct (stepped_effect env prFilter line st st1 Hstep) as (es1 & Ht1 & _).
  destruct (each_line_effect env prFilter rest st1) as (es2 & Ht2 & _).
  specialize (IH st1).
  assert (events_since (trace st) st1 = es1) as He1.
  { unfold events_since. by rewrite Ht1, skipn_app, skipn_all, Nat.sub_diag. }
  assert (events_since (trace st1) (snd (each_line env prFilter rest st1)) = es2) as He2.
  { unfold events_since. by rewrite Ht2, skipn_app, skipn_all, Nat.sub_diag. }
  assert (events_since (trace st) (snd (each_line env prFilter rest st1)) = es1 ++ es2)
    as ->.
  { unfold events_since.
    by rewrite Ht2, Ht1, <- app_assoc, skipn_app, skipn_all, Nat.sub_diag. }
  rewrite He1 in H1. rewrite He2 in IH. rewrite github_calls_app.
  intros Hin. apply in_app_or in Hin as [Hin|Hin]; [by apply H1|by apply IH].
Qed.

End Calls.

Lemma url_of_delivery_call dir url v comment :
  url_of_call (delivery_call dir url v comment) = url.
Proof.
  unfold delivery_call.
  by destruct (truthy_id (Vars.issueCommentId v)),
              (truthy_string (Vars.originalCommit v)).
Qed.

(** X2: with a filter, whatever the stream of lines holds, every call to
    GitHub is made on a pull request the filter accepts. *)
Theorem calls_are_on_accepted_pull_requests (env : environment)
    (accepts : jsstring -> bool) (lines : list jsstring) (st : state)
    (mid : jsstring) (call : github_call) :
  In (mid, call)
     (github_calls (events_since (trace st)
                      (snd (each_line env (Some accepts) lines st)))) ->
  accepts (url_of_call call) = true.
Proof.
  apply (each_line_calls env (Some accepts)
           (fun p => accepts (url_of_call (snd p)) = true)).
  intros line st0 p Hin.
  destruct (lineHandler_call env (Some accepts) line st0 p Hin)
    as (refs & url & comment & _ & Hurl & ->).
  rewrite url_of_delivery_call.
  destruct (target_cases (Some accepts) st0 refs)
    as [Hnone|(r & d & _ & _ & _ & _ & Hacc & Hsel)].
  - by rewrite Hnone in Hurl.
  - rewrite Hsel in Hurl. injection Hurl as <-. by apply Hacc.
Qed.

(** ** The notes a stream of lines writes *)

Section Written.

Context (env : environment) (prFilter : option (jsstring -> bool)).

(** A line leaves the notes and the keys as they are, or writes the note of
    one mail not seen before, whose pull request is that of its target,
    and adds its digest to the keys. *)
Lemma lineHandler_written (line : jsstring) (st : state) :
  let st' := snd (lineHandler env prFilter line st) in
  (notes st' = notes st /\ keys st' = keys st)
  \/ exists mid refs url id,
       seen st mid = false
       /\ Vars.pullRequestURL (target prFilter st refs) = Some url
       /\ notes st'
          = <[hashKey mid := note_of mid url (target prFilter st refs) id]> (notes st)
       /\ keys st' = {[hashKey mid]} ∪ keys st.
Proof.
  destruct (lineHandler_stepped env prFilter line st) as (st' & -> & Hstep).
  cbn [snd]. cbv zeta.
  stepped_cases Hstep; try (left; by split).
  - handled_cases Hhandled; try (left; by split).
    right. exists mid0, refs0, url', id'. by repeat split.
  - handled_cases Hhandled; left; by split.
Qed.

(** A relation between the state before and the state after, kept by
    every line, is kept by a stream of lines. *)
Lemma each_line_relation (R : state -> state -> Prop) :
  (forall st, R st st) ->
  (forall st1 st2 st3, R st1 st2 -> R st2 st3 -> R st1 st3) ->
  (forall line st, R st (snd (lineHandler env prFilter line st))) ->
  forall lines st, R st (snd (each_line env prFilter lines st)).
Proof.
  intros Hrefl Htrans Hline lines.
  induction lines as [|line rest IH]; intros st; [apply Hrefl|].
  cbn [each_line]. unfold bind.
  pose proof (Hline line st) as H1.
  destruct (lineHandler_stepped env prFilter line st) as (st1 & Hrun & _).
  rewrite Hrun in *. cbn [snd] in H1. eapply Htrans; [exact H1|apply IH].
Qed.

(** What holds of the calls of a line in the state the line starts from,
    and goes back over a line, holds of the calls of a stream in the state
    the stream starts from. *)
Lemma each_line_calls_from (P : state -> jsstring * github_call -> Prop) :
  (forall line st p,
      In p (github_calls (events_since (trace st)
                            (snd (lineHandler env prFilter line st)))) -> P st p) ->
  (forall line st p, P (snd (lineHandler env prFilter line st)) p -> P st p) ->
  forall lines st p,
    In p (github_calls (events_since (trace st)
                          (snd (each_line env prFilter lines st)))) -> P st p.
Proof.
  intros Hline Hback lines. induction lines as [|line rest IH]; intros st p.
  { cbn. unfold events_since. by rewrite skipn_all. }
  cbn [each_line]. unfold bind.
  pose proof (Hline line st) as H1. pose proof (Hback line st) as H2.
  destruct (lineHandler_stepped env prFilter line st) as (st1 & Hrun & Hstep).
  rewrite Hrun in *. cbn [snd] in H1, H2.
  destruct (stepped_effect env prFilter line st st1 Hstep) as (es1 & Ht1 & _).
  destruct (each_line_effect env prFilter rest st1) as (es2 & Ht2 & _).
  specialize (IH st1).
  assert (events_since (trace st) st1 = es1) as He1.
  { unfold events_since. by rewrite Ht1, skipn_app, skipn_all, Nat.sub_diag. }
  assert (events_since (trace st1) (snd (each_line env prFilter rest st1)) = es2) as He2.
  { unfold events_since. by rewrite Ht2, skipn_app, skipn_all, Nat.sub_diag. }
  assert (events_since (trace st) (snd (each_line env prFilter rest st1)) = es1 ++ es2)
    as ->.
  { unfold events_since.
    by rewrite Ht2, Ht1, <- app_assoc, skipn_app, skipn_all, Nat.sub_diag. }
  rewrite He1 in H1. rewrite He2 in IH. rewrite github_calls_app.
  intros Hin. apply in_app_or in Hin as [Hin|Hin]; [by apply H1|].
  apply H2. by apply IH.
Qed.

(** A line brings no pull request into the notes. *)
Lemma lineHandler_urls (line : jsstring) (st : state) (url : jsstring) :
  url_known (notes (snd (lineHandler env prFilter line st))) url ->
  url_known (notes st) url.
Proof.
  destruct (lineHandler_written line st)
    as [[-> _]|(mid & refs & url0 & id & _ & Hurl & -> & _)]; [done|].
  intros (digest & data & Hlook & <-).
  destruct (decide (hashKey mid = digest)) as [<-|Hne].
  - rewrite lookup_insert_eq in Hlook. injection Hlook as <-. cbn [pullRequestURL].
    destruct (target_cases prFilter st refs)
      as [Hnone|(r & d & _ & _ & Hnote & _ & _ & Hsel)].
    + by rewrite Hnone in Hurl.
    + rewrite Hsel in Hurl. injection Hurl as <-. by exists (hashKey r), d.
  - rewrite lookup_insert_ne in Hlook by done. by exists digest, data.
Qed.

End Written.

(** X3: a stream of lines brings no pull request in: every pull request
    found in the note of a mail afterwards was in the note of a mail before,
    and every call to GitHub is made on such a pull request. *)
Theorem scan_invents_no_pull_request (env : environment)
    (prFilter : option (jsstring -> bool)) (lines : list jsstring) (st : state) :
  let st' := snd (each_line env prFilter lines st) in
  (forall url, url_known (notes st') url -> url_known (notes st) url)
  /\ (forall mid call,
         In (mid, call) (github_calls (events_since (trace st) st')) ->
         url_known (notes st) (url_of_call call)).
Proof.
  split.
  - revert lines st.
    apply (each_line_relation env prFilter
             (fun st st' => forall url, url_known (notes st') url ->
                                        url_known (notes st) url)); auto.
    intros line st url. apply lineHandler_urls.
  - intros mid call.
    apply (each_line_calls_from env prFilter
             (fun st p => url_known (notes st) (url_of_call (snd p)))).
    + intros line st0 p Hin.
      destruct (lineHandler_call env prFilter line st0 p Hin)
        as (refs & url & comment & _ & Hurl & ->).
      rewrite url_of_delivery_call.
      destruct (target_cases prFilter st0 refs)
        as [Hnone|(r & d & _ & _ & Hnote & _ & _ & Hsel)].
      * by rewrite Hnone in Hurl.
      * rewrite Hsel in Hurl. injection Hurl as <-. by exists (hashKey r), d.
    + intros line st0 p. apply lineHandler_urls.
Qed.

(** X4: the note kept under a known key is never written again: over a
    stream of lines, the notes under the digests that were among the keys at
    the start are untouched. *)
Theorem known_notes_are_not_rewritten (env : environment)
    (prFilter : option (jsstring -> bool)) (lines : list jsstring) (st : state)
    (digest : jsstring) :
  digest ∈ keys st ->
  notes (snd (each_line env prFilter lines st)) !! digest = notes st !! digest.
Proof.
  intros Hin.
  assert (keys st ⊆ keys (snd (each_line env prFilter lines st))
          /\ forall d, d ∈ keys st ->
               notes (snd (each_line env prFilter lines st)) !! d = notes st !! d)
    as [_ H]; [|by apply H].
  clear digest Hin. revert lines st.
  apply (each_line_relation env prFilter
           (fun st st' => keys st ⊆ keys st'
                          /\ forall d, d ∈ keys st -> notes st' !! d = notes st !! d)).
  - by intros st.
  - intros st1 st2 st3 [Hk1 Hn1] [Hk2 Hn2]. split; [by etrans|].
    intros d Hd. rewrite Hn2 by (by apply Hk1). by apply Hn1.
  - intros line st.
    destruct (lineHandler_written env prFilter line st)
      as [[-> ->]|(mid & refs & url & id & Hseen & _ & -> & ->)]; [done|].
    split; [apply union_subseteq_r|].
    intros d Hd. apply lookup_insert_ne. intros <-.
    unfold seen in Hseen. by rewrite bool_decide_eq_false in Hseen.
Qed.

(** ** Lines that are no part of a mail *)

(** Lines that open no hunk, while none is open. *)
Lemma each_line_idle (env : environment)
    (prFilter : option (jsstring -> bool)) (lines : list jsstring) (st : state) :
  truthy_number (counter st) = false ->
  Forall (fun line => startsWith line (lit "@@ ") = false) lines ->
  each_line env prFilter lines st = (Ok tt, st).
Proof.
  intros Hcounter Hlines. induction Hlines as [|line rest Hline _ IH]; [reflexivity|].
  cbn [each_line]. unfold bind, lineHandler at 1. by rewrite Hline, Hcounter.
Qed.

(** X5: while no hunk is open (the counter is zero or not a number), the
    lines that do not start a hunk change nothing: a stream of such lines
    leaves the state and the trace as they are. *)
Theorem lines_outside_hunks_are_ignored (env : environment)
    (prFilter : option (jsstring -> bool)) (lines : list jsstring) (st : state) :
  truthy_number (counter st) = false ->
  Forall (fun line => startsWith line (lit "@@ ") = false) lines ->
  each_line env prFilter lines st = (Ok tt, st).
Proof. apply each_line_idle. Qed.

(** X6: a hunk header with the count zero, as for a file that is emptied or
    removed, opens no hunk: the buffer is emptied and the lines that follow
    are ignored. *)
Theorem empty_hunk_opens_nothing (env : environment)
    (prFilter : option (jsstring -> bool)) (st : state)
    (old c ds tail : jsstring) (lines : list jsstring) :
  old_range old -> digits c -> digits ds -> no_digit_ahead tail ->
  decimal_value ds = 0 ->
  Forall (fun line => startsWith line (lit "@@ ") = false) lines ->
  each_line env prFilter (hunk_header old c ds tail :: lines) st
  = (Ok tt, set_buffer [] (set_counter (Num 0) st)).
Proof.
  intros Hold Hc Hds Htail Hzero Hlines.
  cbn [each_line]. unfold bind.
  rewrite lineHandler_header by done. rewrite Hzero.
  by apply each_line_idle.
Qed.

(** ** A mail that cannot be parsed *)

(** A hunk under way: the header and some of its lines. *)
Lemma each_line_open_hunk (env : environment)
    (prFilter : option (jsstring -> bool)) (st : state)
    (old c ds tail : jsstring) (some : list jsstring) :
  old_range old -> digits c -> digits ds -> no_digit_ahead tail ->
  Z.of_nat (length some) < decimal_value ds ->
  Forall (fun line => startsWith line (lit "@@ ") = false) some ->
  each_line env prFilter (hunk_header old c ds tail :: some) st
  = (Ok tt, set_buffer (collected some)
              (set_counter (Num (decimal_value ds - Z.of_nat (length some))) st)).
Proof.
  intros Hold Hc Hds Htail Hlen Hsome.
  cbn [each_line]. unfold bind. rewrite lineHandler_header by done.
  by rewrite (each_line_collecting env prFilter some _ (decimal_value ds)).
Qed.

(** X7: when the Message-ID and the references of a mail cannot be parsed,
    the mail is dropped and nothing else happens: after the hunk the trace
    holds the attempt and the line of the log, the hunk is closed, and the
    notes, the keys and the cursor are as before. *)
Theorem unparsable_mail_is_dropped (env : environment)
    (prFilter : option (jsstring -> bool)) (st : state)
    (old c ds tail : jsstring) (lines : list jsstring) :
  old_range old -> digits c -> digits ds -> no_digit_ahead tail ->
  0 < decimal_value ds < 2 ^ 53 ->
  Z.of_nat (length lines) = decimal_value ds ->
  Forall (fun line => startsWith line (lit "@@ ") = false) lines ->
  parseMBoxMessageIDAndReferences env (trace st) (collected lines) = None ->
  each_line env prFilter (hunk_header old c ds tail :: lines) st
  = (Ok tt,
     extend [EvParseIds (collected lines); EvConsole (LogSkipping MBoxError)]
       (set_buffer (collected lines) (set_counter (Num 0) st))).
Proof.
  intros Hold Hc Hds Htail [Hpos _] Hlen Hlines Hparse.
  destruct (exists_last (l := lines)) as (init & last & ->).
  { intros ->. cbn in Hlen. lia. }
  apply Forall_app in Hlines as [Hinit Hend]. apply Forall_inv in Hend.
  rewrite length_app in Hlen. cbn [length] in Hlen.
  rewrite app_comm_cons, each_line_app.
  rewrite each_line_open_hunk by (try done; lia).
  cbn [snd each_line]. unfold bind, ret.
  set (st1 := set_buffer _ _).
  assert (Hbuf : buffer (collect last st1) = collected (init ++ [last])).
  { unfold collected. rewrite flat_map_app. cbn. by rewrite app_nil_r. }
  assert (Hone : counter st1 = Num 1) by (unfold st1; cbn; f_equal; lia).
  destruct (lineHandler_stepped env prFilter last st1) as (st2 & -> & Hstep).
  f_equal.
  stepped_cases Hstep; try congruence;
    try (rewrite Hone in *; discriminate);
    try (change (trace st1) with (trace st) in Hids; rewrite Hbuf in Hids; congruence).
  change (collect last st1)
    with (set_buffer (buffer (collect last st1))
            (set_counter (decrement (counter st1)) st)).
  by rewrite Hbuf, Hone.
Qed.

(** ** The archive failing *)

Section Archive.

Context (env : environment) (prFilter : option (jsstring -> bool)).

Lemma processMails_no_head (st : state) (out : jsstring) :
  git env (trace st) (ls_tree_args env) (workDir env) = Some out ->
  revParse env (trace st ++ [EvGit (ls_tree_args env) (workDir env)])
    (lit "master") (publicInboxGitDir env) = None ->
  processMails env prFilter st = (Throw GitError, asked env out st).
Proof.
  intros Hls Hhead. unfold processMails, bind at 1, call_git.
  fold (ls_tree_args env). rewrite Hls.
  unfold bind at 1, modify. unfold bind at 1, modify.
  unfold bind at 1, call_revParse.
  match goal with
  | |- context [revParse env (trace ?s)] => change s with (started env out st)
  end.
  by rewrite started_trace, Hhead.
Qed.

Lemma processMails_log_failed (st : state) (out head : jsstring)
    (lines : list jsstring) :
  git env (trace st) (ls_tree_args env) (workDir env) = Some out ->
  revParse env (trace st ++ [EvGit (ls_tree_args env) (workDir env)])
    (lit "master") (publicInboxGitDir env) = Some head ->
  cursor (this_state st) <> head ->
  git_lines env (trace (asked env out st))
    (log_args (cursor (this_state st)) head) (publicInboxGitDir env)
  = (lines, false) ->
  processMails env prFilter st
  = (Throw GitError, snd (each_line env prFilter lines (logging env out head st))).
Proof.
  intros Hls Hhead Hne Hlog.
  rewrite (processMails_asked env prFilter st out head) by done.
  rewrite bool_decide_eq_false_2 by done.
  unfold bind at 1, call_git_lines. rewrite Hlog.
  fold (logging env out head st). unfold bind at 1.
  pose proof (each_line_returns env prFilter lines (logging env out head st)) as Hret.
  destruct (each_line env prFilter lines (logging env out head st)) as [r st1].
  cbn [fst snd] in *. by subst r.
Qed.



End Archive.


(** ** The shape of a digest *)

Module Sha1Facts.

Lemma round_length (st : list Z) (tw : Z * Z) :
  length (Sha1.round st tw) = length st.
Proof.
  destruct st as [|a [|b [|c [|d [|e [|f r]]]]]]; destruct tw; reflexivity.
Qed.

Lemma rounds_length (l : list (Z * Z)) (st : list Z) :
  length (fold_left Sha1.round l st) = length st.
Proof.
  revert st. induction l as [|tw l IH]; intros st; [reflexivity|].
  cbn [fold_left]. by rewrite IH, round_length.
Qed.

Lemma compress_length (h block : list Z) :
  length (Sha1.compress h block) = length h.
Proof.
  unfold Sha1.compress. rewrite length_map, length_combine, rounds_length.
  apply Nat.min_id.
Qed.

Lemma blocks_length (blocks : list (list Z)) (h : list Z) :
  length (fold_left Sha1.compress blocks h) = length h.
Proof.
  revert h. induction blocks as [|b blocks IH]; intros h; [reflexivity|].
  cbn [fold_left]. by rewrite IH, compress_length.
Qed.

Lemma be_bytes_bytes (n : nat) (x : Z) :
  Forall (fun b => 0 <= b < 256) (Sha1.be_bytes n x).
Proof.
  induction n as [|n IH]; [constructor|].
  cbn [Sha1.be_bytes]. constructor; [|exact IH].
  change 0xFF with (Z.ones 8). rewrite Z.land_ones by lia.
  apply Z.mod_pos_bound. lia.
Qed.

Lemma be_bytes_length (n : nat) (x : Z) : length (Sha1.be_bytes n x) = n.
Proof. induction n as [|n IH]; [reflexivity|]. cbn. by rewrite IH. Qed.

Lemma digest_length (msg : list Z) : length (Sha1.digest msg) = 20%nat.
Proof.
  unfold Sha1.digest.
  pose proof (blocks_length
                (Sha1.chunks (length (Sha1.pad msg)) 64 (Sha1.pad msg)) Sha1.H0) as H.
  destruct (fold_left Sha1.compress _ Sha1.H0) as [|a [|b [|c [|d [|e [|f r]]]]]];
    try discriminate H.
  cbn [flat_map]. rewrite !length_app, !be_bytes_length. reflexivity.
Qed.

Lemma digest_bytes (msg : list Z) :
  Forall (fun b => 0 <= b < 256) (Sha1.digest msg).
Proof.
  unfold Sha1.digest. apply Forall_flat_map, List.Forall_forall.
  intros x _. apply be_bytes_bytes.
Qed.

Lemma hex_digit_hex (n : Z) :
  0 <= n < 16 -> is_hex_digit (Sha1.hex_digit n) = true.
Proof.
  intros Hn. unfold Sha1.hex_digit, is_hex_digit.
  destruct (n <? 10) eqn:Hlt; lia.
Qed.

Lemma hex_length (bs : list Z) : length (Sha1.hex bs) = (2 * length bs)%nat.
Proof.
  induction bs as [|b bs IH]; [reflexivity|].
  cbn [Sha1.hex flat_map length app]. fold (Sha1.hex bs). lia.
Qed.

Lemma hex_digits (bs : list Z) :
  Forall (fun b => 0 <= b < 256) bs ->
  Forall (fun c => is_hex_digit c = true) (Sha1.hex bs).
Proof.
  induction 1 as [|b bs Hb _ IH]; [constructor|].
  cbn [Sha1.hex flat_map app]. fold (Sha1.hex bs).
  constructor; [|constructor; [|exact IH]]; apply hex_digit_hex.
  - rewrite Z.shiftr_div_pow2 by lia. change (2 ^ 4) with 16.
    split; [apply Z.div_pos; lia|apply Z.div_lt_upper_bound; lia].
  - change 0xF with (Z.ones 4). rewrite Z.land_ones by lia.
    apply Z.mod_pos_bound. lia.
Qed.

End Sha1Facts.

Lemma hashKey_hex (key : jsstring) :
  length (hashKey key) = 40%nat
  /\ Forall (fun c => is_hex_digit c = true) (hashKey key).
Proof.
  unfold hashKey, digest_hex. split.
  - by rewrite Sha1Facts.hex_length, Sha1Facts.digest_length.
  - apply Sha1Facts.hex_digits, Sha1Facts.digest_bytes.
Qed.

Lemma hashKey_plain (key : jsstring) :
  Forall (fun c => c <> 10 /\ c <> 47) (hashKey key).
Proof.
  destruct (hashKey_hex key) as [_ Hhex]. revert Hhex.
  apply List.Forall_impl. intros c. unfold is_hex_digit. lia.
Qed.

(** X9: the digest of every key is made of forty lower-case hexadecimal
    digits; it has no slash and no line feed in it. *)
Theorem hashKey_is_forty_hex_digits (key : jsstring) :
  length (hashKey key) = 40%nat
  /\ Forall (fun c => is_hex_digit c = true) (hashKey key)
  /\ Forall (fun c => c <> 10 /\ c <> 47) (hashKey key).
Proof.
  destruct (hashKey_hex key) as [Hlen Hhex].
  split; [exact Hlen|]. split; [exact Hhex|].
  apply hashKey_plain.
Qed.

(** ** The listing of the notes *)

Lemma split_newline_line (line rest cur : jsstring) :
  Forall (fun c => c <> 10) line ->
  split_newline (line ++ 10 :: rest) cur
  = (rev cur ++ line) :: split_newline rest [].
Proof.
  intros Hline. revert cur. induction Hline as [|c line Hc _ IH]; intros cur.
  - cbn. by rewrite app_nil_r.
  - cbn [app split_newline]. assert ((c =? 10) = false) as -> by lia.
    rewrite IH. cbn [rev]. by rewrite <- app_assoc.
Qed.

Lemma split_newline_lines (lines : list jsstring) :
  Forall (Forall (fun c => c <> 10)) lines ->
  split_newline (flat_map (fun line => line ++ [10]) lines) [] = lines ++ [[]].
Proof.
  induction 1 as [|line lines Hline _ IH]; [reflexivity|].
  cbn [flat_map app]. rewrite <- app_assoc. cbn [app].
  by rewrite split_newline_line, IH.
Qed.

Lemma keys_of_lines (g : jsstring -> jsstring) (lines : list jsstring)
    (known : gset (list Z)) :
  fold_left (fun keys line => {[g line]} ∪ keys) lines known
  = list_to_set (map g lines) ∪ known.
Proof.
  revert known. induction lines as [|line lines IH]; intros known.
  - cbn. by rewrite union_empty_l_L.
  - cbn [fold_left map list_to_set]. rewrite IH.
    rewrite (union_assoc_L (list_to_set (map g lines))). f_equal.
    apply union_comm_L.
Qed.

Lemma remove_slashes_fan_out (levels : nat) (digest : jsstring) :
  Forall (fun c => c <> 10 /\ c <> 47) digest ->
  remove_slashes (fan_out levels digest) = digest.
Proof.
  assert (forall l : jsstring, Forall (fun c => c <> 10 /\ c <> 47) l ->
            List.filter (fun c => negb (c =? 47)) l = l) as Hid.
  { induction 1 as [|c l [_ Hc] _ IH]; [reflexivity|].
    cbn. assert ((c =? 47) = false) as -> by lia. cbn. by rewrite IH. }
  revert digest. induction levels as [|levels IH]; intros digest Hd.
  - by apply Hid.
  - cbn [fan_out]. unfold remove_slashes in *.
    rewrite !List.filter_app. cbn [List.filter Z.eqb Pos.eqb negb app].
    rewrite Hid by by apply Forall_take.
    rewrite IH by by apply Forall_drop.
    apply firstn_skipn.
Qed.

Lemma fan_out_one_line (levels : nat) (digest : jsstring) :
  Forall (fun c => c <> 10 /\ c <> 47) digest ->
  Forall (fun c => c <> 10) (fan_out levels digest).
Proof.
  revert digest. induction levels as [|levels IH]; intros digest Hd.
  - revert Hd. apply List.Forall_impl. tauto.
  - cbn [fan_out]. repeat (apply Forall_app; split).
    + apply Forall_take. revert Hd. apply List.Forall_impl. tauto.
    + by repeat constructor.
    + by apply IH, Forall_drop.
Qed.

Lemma substr_ls_tree_line (object path : jsstring) :
  length object = 40%nat -> substr 53 (ls_tree_line object path) = path.
Proof.
  intros Hlen. unfold substr, ls_tree_line.
  change (lit "100644 blob ") with [49; 48; 48; 54; 52; 52; 32; 98; 108; 111; 98; 32].
  rewrite !app_assoc, <- (app_assoc _ object [9]).
  rewrite skipn_app, skipn_all2; rewrite ?length_app, ?Hlen; cbn [length]; [|lia].
  cbn [app]. replace (53 - (12 + (40 + 1)))%nat with 0%nat by lia. reflexivity.
Qed.

(** X10: from a listing of the notes as [git ls-tree -r] prints it (mode,
    type, an object name of forty characters, a tab, the path), the keys
    read are the digests of the keys the notes are kept under, whatever the
    fan-out of each path, and the empty string, read from what follows the
    last line feed: every mail with a note is seen and no other is. *)
Theorem listed_notes_are_the_keys
    (entries : list (jsstring * (nat * jsstring))) :
  Forall (fun entry => length (fst entry) = 40%nat
                       /\ Forall (fun c => c <> 10) (fst entry)) entries ->
  keys_of_ls_tree
    (ls_tree_output
       (map (fun entry =>
               (fst entry, (fst (snd entry), hashKey (snd (snd entry)))))
          entries))
  = list_to_set (map (fun entry => hashKey (snd (snd entry))) entries) ∪ {[ [] ]}.
Proof.
  intros Hentries. unfold keys_of_ls_tree.
  set (line_of := fun entry : jsstring * (nat * jsstring) =>
                    ls_tree_line (fst entry)
                      (fan_out (fst (snd entry)) (hashKey (snd (snd entry))))).
  assert (ls_tree_output
            (map (fun entry =>
                    (fst entry, (fst (snd entry), hashKey (snd (snd entry)))))
               entries)
          = flat_map (fun line => line ++ [10]) (map line_of entries)) as ->.
  { clear Hentries. unfold ls_tree_output.
    induction entries as [|entry entries IH]; [reflexivity|].
    cbn [map flat_map fst snd]. by rewrite IH. }
  rewrite split_newline_lines.
  2:{ apply Forall_map. revert Hentries. apply List.Forall_impl.
      intros [object [levels key]] [Hlen Hobject]. cbn [fst snd] in *.
      unfold line_of, ls_tree_line. cbn [fst snd].
      repeat (apply Forall_app; split); try done.
      - by repeat constructor.
      - by repeat constructor.
      - apply fan_out_one_line, hashKey_plain. }
  rewrite keys_of_lines, map_app, map_map. cbn [map].
  rewrite list_to_set_app_L. cbn [list_to_set].
  assert (map (fun entry => remove_slashes (substr 53 (line_of entry))) entries
          = map (fun entry => hashKey (snd (snd entry))) entries) as ->.
  { apply map_ext_in. intros [object [levels key]] Hin.
    rewrite List.Forall_forall in Hentries. destruct (Hentries _ Hin) as [Hlen _].
    unfold line_of. cbn [fst snd] in *.
    rewrite substr_ls_tree_line by done.
    apply remove_slashes_fan_out, hashKey_plain. }
  by rewrite union_empty_r_L, union_empty_r_L.
Qed.

(** ** A helper made after a scan *)

Section Restart.
Context (env : environment) (prFilter : option (jsstring -> bool)).

(** A scan that returns true has written the head it reached, in the helper
    and in the notes. *)
Lemma processMails_true (st st1 : state) :
  processMails env prFilter st = (Ok true, st1) ->
  exists head,
    this_state st1 = {| latestRevision := Some head |}
    /\ notes st1 !! hashKey stateKey
       = Some (MirrorState {| latestRevision := Some head |})
    /\ cursor (this_state st) <> head.
Proof.
  intros Hrun.
  destruct (git env (trace st) (ls_tree_args env) (workDir env)) as [out|] eqn:Hls.
  2:{ rewrite processMails_not_listed in Hrun by done. discriminate. }
  destruct (revParse env (trace st ++ [EvGit (ls_tree_args env) (workDir env)])
              (lit "master") (publicInboxGitDir env)) as [head|] eqn:Hhead.
  2:{ rewrite (processMails_no_head env prFilter st out) in Hrun by done.
      discriminate. }
  destruct (decide (cursor (this_state st) = head)) as [Heq|Hne].
  { rewrite (processMails_asked env prFilter st out head) in Hrun by done.
    rewrite bool_decide_eq_true_2 in Hrun by done. discriminate. }
  destruct (git_lines env (trace (asked env out st))
              (log_args (cursor (this_state st)) head) (publicInboxGitDir env))
    as [lines [|]] eqn:Hlog.
  2:{ rewrite (processMails_log_failed env prFilter st out head lines) in Hrun
        by done. discriminate. }
  rewrite (processMails_advances env prFilter st out head lines) in Hrun by done.
  cbv zeta in Hrun.
  destruct (notes_set_ok env _ stateKey _); [|discriminate].
  apply (f_equal snd) in Hrun. cbn [snd] in Hrun. subst st1. exists head. cbn [this_state notes set_notes record
    set_this_state]. split; [reflexivity|]. split; [|done].
  apply lookup_insert_eq.
Qed.

End Restart.

(** X11: the cursor survives a restart. After a scan that returned true, a
    helper made anew by [get] from the same notes, whatever state the
    process held before, holds the revision that scan reached; and if that
    revision is still the head of the archive (and is not the empty
    string), its scan asks for the listing and for the head, reads no log
    and returns false. *)
Theorem cursor_survives_a_restart (env : environment)
    (prFilter : option (jsstring -> bool)) (st st1 : state)
    (forgotten : IGitMailingListMirrorState) :
  processMails env prFilter st = (Ok true, st1) ->
  notes_get_ok env (trace st1) stateKey = true ->
  exists head,
    let st2 := set_this_state {| latestRevision := Some head |}
                 (record (EvNotesGet stateKey) (set_this_state forgotten st1)) in
    this_state st1 = {| latestRevision := Some head |}
    /\ PublicInboxGitHelper_get env (set_this_state forgotten st1) = (Ok tt, st2)
    /\ (head <> [] ->
        forall out,
          git env (trace st2) (ls_tree_args env) (workDir env) = Some out ->
          revParse env (trace st2 ++ [EvGit (ls_tree_args env) (workDir env)])
            (lit "master") (publicInboxGitDir env) = Some head ->
          processMails env prFilter st2 = (Ok false, asked env out st2)).
Proof.
  intros Hrun Hread.
  destruct (processMails_true env prFilter st st1 Hrun) as (head & Hstate & Hnote & _).
  exists head. cbv zeta. split; [exact Hstate|]. split.
  - unfold PublicInboxGitHelper_get, bind, notes_get, modify.
    cbn [trace notes set_this_state]. rewrite Hread, Hnote. reflexivity.
  - intros Hne out Hls Hhead.
    rewrite (processMails_asked env prFilter _ out head) by done.
    rewrite bool_decide_eq_true_2; [reflexivity|].
    cbn [this_state set_this_state]. unfold cursor. cbn [latestRevision].
    destruct head; [done|reflexivity].
Qed.

(** ** The rendering of a mail *)

Module MarkdownFacts.
Import Markdown.

Lemma hex_char_spec (upper : bool) (n : Z) :
  0 <= n < 16 ->
  is_hex (hex_char upper n) = true /\ hex_value (hex_char upper n) = n.
Proof.
  intros Hn. unfold is_hex, hex_value, hex_char.
  destruct (Z.ltb_spec n 10); destruct upper; split;
    repeat match goal with
           | |- context [?a <=? ?b] => destruct (Z.leb_spec a b)
           end; cbn; lia.
Qed.

Lemma is_hex_plain (c : Z) :
  is_hex c = true -> (c =? 61) = false /\ (c =? 13) = false /\ (c =? 10) = false
                     /\ is_blank c = false.
Proof. unfold is_hex, is_blank. lia. Qed.

Lemma strip_no_blank (s : jsstring) :
  Forall (fun c => is_blank c = false) s -> strip_blank_at_line_end s = s.
Proof.
  induction 1 as [|c s Hc _ IH]; [reflexivity|].
  cbn [strip_blank_at_line_end]. by rewrite Hc, IH.
Qed.

Lemma remove_soft_breaks_escape (h l : Z) (rest : jsstring) :
  is_hex h = true -> is_hex l = true ->
  remove_soft_breaks (61 :: h :: l :: rest) = 61 :: h :: l :: remove_soft_breaks rest.
Proof.
  intros Hh Hl.
  destruct (is_hex_plain h Hh) as (Hh1 & Hh2 & Hh3 & _).
  destruct (is_hex_plain l Hl) as (Hl1 & _).
  cbn [remove_soft_breaks]. change (61 =? 61) with true. cbv iota.
  rewrite Hh1, Hh2, Hh3, Hl1. reflexivity.
Qed.

Lemma decode_escapes_escape (h l : Z) (rest : jsstring) :
  is_hex h = true -> is_hex l = true ->
  decode_escapes (61 :: h :: l :: rest)
  = (16 * hex_value h + hex_value l) :: decode_escapes rest.
Proof.
  intros Hh Hl. cbn [decode_escapes]. change (61 =? 61) with true.
  by rewrite Hh, Hl.
Qed.

Lemma decode_escapes_plain (c : Z) (s : jsstring) :
  c <> 61 -> decode_escapes (c :: s) = c :: decode_escapes s.
Proof.
  intros Hc. cbn [decode_escapes].
  assert ((c =? 61) = false) as -> by lia.
  by destruct s as [|h [|l rest]].
Qed.

Lemma decode_escapes_prefix (p r : jsstring) :
  Forall (fun c => c <> 61) p -> decode_escapes (p ++ r) = p ++ decode_escapes r.
Proof.
  induction 1 as [|c p Hc _ IH]; [reflexivity|].
  cbn [app]. by rewrite decode_escapes_plain, IH.
Qed.

Lemma remove_soft_breaks_prefix (p r : jsstring) :
  Forall (fun c => c <> 61) p ->
  remove_soft_breaks (p ++ r) = p ++ remove_soft_breaks r.
Proof.
  induction 1 as [|c p Hc _ IH]; [reflexivity|].
  cbn [app remove_soft_breaks].
  assert ((c =? 61) = false) as -> by lia. by rewrite IH.
Qed.

Lemma escapes_blank_free (upper : bool) (bytes : list Z) :
  Forall (fun b => 0 <= b < 256) bytes ->
  Forall (fun c => is_blank c = false) (flat_map (escape upper) bytes).
Proof.
  induction 1 as [|b bytes Hb _ IH]; [constructor|].
  cbn [flat_map escape app].
  destruct (hex_char_spec upper (b / 16)) as [H1 _].
  { split; [apply Z.div_pos; lia|apply Z.div_lt_upper_bound; lia]. }
  destruct (hex_char_spec upper (b mod 16)) as [H2 _].
  { apply Z.mod_pos_bound. lia. }
  repeat constructor; try exact IH.
  - by destruct (is_hex_plain _ H1) as (_ & _ & _ & ?).
  - by destruct (is_hex_plain _ H2) as (_ & _ & _ & ?).
Qed.

Lemma quoted_printable_escapes (upper : bool) (bytes : list Z) :
  Forall (fun b => 0 <= b < 256) bytes ->
  quoted_printable (flat_map (escape upper) bytes) = bytes.
Proof.
  intros Hbytes. unfold quoted_printable.
  rewrite strip_no_blank by by apply escapes_blank_free.
  induction Hbytes as [|b bytes Hb _ IH]; [reflexivity|].
  cbn [flat_map escape app].
  destruct (hex_char_spec upper (b / 16)) as [H1 V1].
  { split; [apply Z.div_pos; lia|apply Z.div_lt_upper_bound; lia]. }
  destruct (hex_char_spec upper (b mod 16)) as [H2 V2].
  { apply Z.mod_pos_bound. lia. }
  rewrite remove_soft_breaks_escape, decode_escapes_escape by done.
  rewrite IH, V1, V2. f_equal. pose proof (Z.div_mod b 16). lia.
Qed.

Lemma other_headers_decode_nothing (base64 : jsstring -> jsstring)
    (hs : list (jsstring * jsstring)) (body : jsstring) :
  Forall (fun header =>
            fst header <> lit "Content-Transfer-Encoding"
            \/ (lower_is (snd header) (lit "base64") = false
                /\ lower_is (snd header) (lit "quoted-printable") = false)) hs ->
  fold_left (decode_header base64) hs body = body.
Proof.
  induction 1 as [|header hs Hh _ IH]; [reflexivity|].
  cbn [fold_left]. rewrite <- IH at 2. f_equal.
  unfold decode_header. destruct Hh as [Hkey|[H1 H2]].
  - by rewrite bool_decide_eq_false_2.
  - rewrite H1, H2. by destruct (bool_decide _).
Qed.

Lemma strip_line_prefix (line tail : jsstring) (c : Z) :
  Forall (fun x => is_line_terminator x = false) line ->
  is_line_terminator c = false ->
  strip_blank_at_line_end (line ++ c :: tail)
  = line ++ strip_blank_at_line_end (c :: tail).
Proof.
  intros Hline Hc. induction Hline as [|x line Hx Hline IH]; [reflexivity|].
  cbn [List.app strip_blank_at_line_end]. rewrite IH.
  assert (at_line_end (line ++ c :: tail) = false) as ->.
  { destruct Hline as [|y line Hy _]; cbn; done. }
  by rewrite andb_false_r.
Qed.

End MarkdownFacts.

(** X12: a body of [=XX] escapes, in upper or in lower case, under one
    Content-Transfer-Encoding header that reads quoted-printable in whatever
    case, is rendered as the bytes the escapes stand for, each as one code
    unit, between the fences; the other headers change nothing. *)
Theorem escaped_body_is_decoded (base64 : jsstring -> jsstring)
    (sender : option jsstring) (before after : list (jsstring * jsstring))
    (value : jsstring) (upper : bool) (bytes : list Z) :
  Forall (fun header => fst header <> lit "Content-Transfer-Encoding")
    (before ++ after) ->
  Markdown.lower_is value (lit "quoted-printable") = true ->
  Forall (fun b => 0 <= b < 256) bytes ->
  Markdown.mbox2markdown base64
    {| from := sender;
       headers := Some (before ++ (lit "Content-Transfer-Encoding", value) :: after);
       body := flat_map (Markdown.escape upper) bytes |}
  = Some (Markdown.fenced bytes).
Proof.
  intros Hother Hvalue Hbytes. apply Forall_app in Hother as [Hbefore Hafter].
  unfold Markdown.mbox2markdown. cbn [headers body]. f_equal. f_equal.
  rewrite fold_left_app. cbn [fold_left].
  rewrite (MarkdownFacts.other_headers_decode_nothing base64 after)
    by (revert Hafter; apply List.Forall_impl; tauto).
  rewrite (MarkdownFacts.other_headers_decode_nothing base64 before)
    by (revert Hbefore; apply List.Forall_impl; tauto).
  unfold Markdown.decode_header. cbn [fst snd].
  rewrite bool_decide_eq_true_2 by reflexivity.
  assert (Markdown.lower_is value (lit "base64") = false) as ->.
  { unfold Markdown.lower_is in *. apply bool_decide_eq_true_1 in Hvalue.
    apply bool_decide_eq_false_2. rewrite Hvalue. vm_compute. discriminate. }
  rewrite Hvalue. by apply MarkdownFacts.quoted_printable_escapes.
Qed.

(** X13: of the blanks that end a line of a quoted-printable body only the
    last one is removed, before a line terminator as at the end of the
    body. *)
Theorem only_the_last_blank_is_removed (line rest : jsstring) (b1 b2 t : Z) :
  Forall (fun c => c <> 61 /\ Markdown.is_line_terminator c = false) line ->
  Markdown.is_blank b1 = true -> Markdown.is_blank b2 = true ->
  Markdown.is_line_terminator t = true ->
  Markdown.quoted_printable (line ++ [b1; b2; t] ++ rest)
  = line ++ [b1; t] ++ Markdown.quoted_printable rest
  /\ Markdown.quoted_printable (line ++ [b1; b2]) = line ++ [b1].
Proof.
  intros Hline Hb1 Hb2 Ht.
  assert (Markdown.is_line_terminator b2 = false) as Hb2'
    by (unfold Markdown.is_blank, Markdown.is_line_terminator in *; lia).
  assert (Markdown.is_blank t = false) as Ht'
    by (unfold Markdown.is_blank, Markdown.is_line_terminator in *; lia).
  assert (forall tail c,
             Markdown.is_line_terminator c = false ->
             Markdown.strip_blank_at_line_end (line ++ c :: tail)
             = line ++ Markdown.strip_blank_at_line_end (c :: tail)) as Hstrip.
  { intros tail c Hc. induction Hline as [|x line [_ Hx] Hline IH]; [reflexivity|].
    cbn [app Markdown.strip_blank_at_line_end]. rewrite IH.
    assert (Markdown.at_line_end (line ++ c :: tail) = false) as ->.
    { destruct Hline as [|y line [_ Hy] _]; cbn; done. }
    by rewrite andb_false_r. }
  assert (Forall (fun c => c <> 61) line) as Hplain.
  { revert Hline. apply List.Forall_impl. tauto. }
  assert (b1 <> 61 /\ t <> 61) as [Hb1e Hte]
    by (unfold Markdown.is_blank, Markdown.is_line_terminator in *; lia).
  assert (Markdown.is_line_terminator b1 = false) as Hb1'
    by (unfold Markdown.is_blank, Markdown.is_line_terminator in *; lia).
  unfold Markdown.quoted_printable. split.
  - cbn [app]. rewrite Hstrip by done.
    cbn [Markdown.strip_blank_at_line_end Markdown.at_line_end].
    rewrite Hb1, Hb2, Hb2', Ht, Ht'. cbn [andb].
    change (line ++ b1 :: t :: ?s) with (line ++ [b1; t] ++ s).
    rewrite app_assoc.
    rewrite MarkdownFacts.remove_soft_breaks_prefix,
      MarkdownFacts.decode_escapes_prefix, <- app_assoc; try done.
    all: apply Forall_app; split; [done|by repeat constructor].
  - rewrite Hstrip by done.
    cbn [Markdown.strip_blank_at_line_end Markdown.at_line_end].
    rewrite Hb1, Hb2, Hb2'. cbn [andb].
    rewrite <- (app_nil_r (line ++ [b1])), <- app_assoc.
    rewrite app_assoc.
    rewrite MarkdownFacts.remove_soft_breaks_prefix,
      MarkdownFacts.decode_escapes_prefix; try done.
    all: apply Forall_app; split; [done|by repeat constructor].
Qed.

(** X14: a mail without a Content-Transfer-Encoding header that reads
    base64 or quoted-printable is rendered as it is, escapes and all; the
    key of a header is compared as it is written, so that a header spelled
    in another case is not seen. *)
Theorem other_encodings_are_rendered_verbatim (base64 : jsstring -> jsstring)
    (mbox : IParsedMBox) (hs : list (jsstring * jsstring)) :
  headers mbox = Some hs ->
  Forall (fun header =>
            fst header <> lit "Content-Transfer-Encoding"
            \/ (Markdown.lower_is (snd header) (lit "base64") = false
                /\ Markdown.lower_is (snd header) (lit "quoted-printable") = false))
    hs ->
  Markdown.mbox2markdown base64 mbox = Some (Markdown.fenced (body mbox)).
Proof.
  intros Hhs Hother. unfold Markdown.mbox2markdown. rewrite Hhs.
  by rewrite MarkdownFacts.other_headers_decode_nothing.
Qed.

(** X15: whatever the mail and its encoding, the text rendered is empty or
    opens with a fence line and closes with a line feed and a fence line:
    the closing fence always starts a line. *)
Theorem rendered_text_is_empty_or_fenced (base64 : jsstring -> jsstring)
    (mbox : IParsedMBox) (text : jsstring) :
  Markdown.mbox2markdown base64 mbox = Some text ->
  text = []
  \/ exists inner,
       text = Markdown.fence ++ inner ++ [10] ++ Markdown.fence.
Proof.
  unfold Markdown.mbox2markdown. destruct (headers mbox) as [hs|]; [|done].
  intros [= <-]. unfold Markdown.fenced.
  set (decoded := fold_left _ hs _). clearbody decoded.
  destruct (length decoded =? 0)%nat; [by left|right].
  unfold Markdown.endsWith_newline.
  destruct (rev decoded) as [|c r] eqn:Hrev.
  - exists decoded. reflexivity.
  - destruct (c =? 10) eqn:Hc.
    + exists (rev r). apply (f_equal (@rev Z)) in Hrev.
      rewrite rev_involutive in Hrev. cbn [rev] in Hrev. subst decoded.
      assert (c = 10) as -> by lia. by rewrite <- !app_assoc.
    + exists decoded. reflexivity.
Qed.

(** X16: a soft line break, an equals sign that ends a line, joins the line
    to the next one, and what stands before it, blanks included, is kept;
    at the end of the body the equals sign is dropped. *)
Theorem soft_line_break_joins_lines (line rest : jsstring) :
  Forall (fun c => c <> 61 /\ Markdown.is_line_terminator c = false) line ->
  Markdown.quoted_printable (line ++ [61; 13; 10] ++ rest)
  = line ++ Markdown.quoted_printable rest
  /\ Markdown.quoted_printable (line ++ [61; 10] ++ rest)
     = line ++ Markdown.quoted_printable rest
  /\ Markdown.quoted_printable (line ++ [61]) = line.
Proof.
  intros Hline.
  assert (Forall (fun c => c <> 61) line) as Hplain.
  { revert Hline. apply List.Forall_impl. tauto. }
  assert (Forall (fun c => Markdown.is_line_terminator c = false) line) as Hone.
  { revert Hline. apply List.Forall_impl. tauto. }
  unfold Markdown.quoted_printable. cbn [List.app].
  rewrite !MarkdownFacts.strip_line_prefix by done.
  cbn [Markdown.strip_blank_at_line_end Markdown.is_blank Z.eqb Pos.eqb orb andb].
  rewrite !MarkdownFacts.remove_soft_breaks_prefix by done.
  cbn [Markdown.remove_soft_breaks Z.eqb Pos.eqb].
  rewrite !MarkdownFacts.decode_escapes_prefix by done.
  cbn [Markdown.decode_escapes]. by rewrite app_nil_r.
Qed.

(** ** The [/submit] command *)

Module ProbotFacts.
Import Probot.

Lemma truthy_string_default (o : option jsstring) :
  truthy_string o = true -> o = Some (default [] o) /\ default [] o <> [].
Proof. by destruct o as [[|c s]|]. Qed.

Lemma effects_emitted (st : app) (es : list effect) :
  skipn (length (done st)) (done st ++ es) = es.
Proof. by rewrite skipn_app, skipn_all, Nat.sub_diag. Qed.

(** Runs the handler on a state, one case for each way it can go. *)
Ltac run :=
  unfold handler, effects, the_instance, addComment, and_then, catch, call,
    console_log, pure, throw, emit;
  cbv beta zeta; cbn [done gitGitGadget fst snd];
  repeat (case_match; cbn [done gitGitGadget fst snd] in *; simplify_eq);
  cbn [done gitGitGadget fst snd] in *;
  rewrite <- ?app_assoc in *; cbn [List.app] in *;
  rewrite ?effects_emitted, ?skipn_all in *.

Ltac falsy H :=
  repeat match type of H with
         | _ || _ = false => apply orb_false_iff in H; destruct H as [H ?]
         | negb _ = false => apply negb_false_iff in H
         end.

End ProbotFacts.

(** X17: GitGitGadget is asked to submit only what the payload and GitHub
    gave in full: the command has no arguments, the login of the author of
    the comment, the URL of the pull request, its title and its body are
    there and not empty, the description is the title, an empty line and
    the body, and the labels and commits of both branches are not empty. *)
Theorem submit_is_given_complete_data (w : Probot.world)
    (context : Probot.Payload) (command : Probot.Command) (st : Probot.app)
    (gitHubUser pullRequestURL description baseLabel baseCommit headLabel
     headCommit : jsstring) :
  In (Probot.GitGitGadget_submit gitHubUser pullRequestURL description
        baseLabel baseCommit headLabel headCommit)
     (Probot.effects st (snd (Probot.handler w context command st))) ->
  truthy_string (Probot.arguments command) = false
  /\ Probot.property (Probot.property (Probot.comment context) Probot.user)
       Probot.login = Some gitHubUser
  /\ (exists issue title body,
         Probot.issue context = Some issue
         /\ Probot.property (Probot.pull_request issue) Probot.html_url
            = Some pullRequestURL
         /\ Probot.title issue = Some title /\ Probot.body issue = Some body
         /\ title <> [] /\ body <> []
         /\ description = title ++ [10; 10] ++ body)
  /\ Forall (fun s => s <> [])
       [gitHubUser; pullRequestURL; baseLabel; baseCommit; headLabel; headCommit].
Proof.
  intros Hin. revert Hin. ProbotFacts.run.
  all: intros Hin; cbn [In] in Hin.
  all: repeat (destruct Hin as [Hin|Hin]; try discriminate Hin); try done.
  all: injection Hin as <- <- <- <- <- <- <-.
  all: repeat match goal with
         | H : _ || _ = false |- _ => ProbotFacts.falsy H
         | H : negb _ = false |- _ => ProbotFacts.falsy H
         end.
  all: repeat match goal with
         | H : truthy_string _ = true |- _ =>
             apply ProbotFacts.truthy_string_default in H; destruct H as [? ?]
         end.
  all: split; [done|]; split; [done|]; split;
    [eexists _, _, _; repeat split; try eassumption; done|].
  all: by repeat constructor.
Qed.

(** X18: what is written on the pull request is one of three texts: that
    the command takes no arguments, when it was given some; where the
    patches were submitted; or what went wrong while submitting, which is
    always the reason of a rejected promise. Unless the command was given
    arguments nothing is written before GitGitGadget was asked to submit:
    a payload that lacks something, or an answer of GitHub without the
    details of the branches, leaves the pull request without an answer. *)
Theorem comments_are_of_three_kinds (w : Probot.world)
    (context : Probot.Payload) (command : Probot.Command) (st : Probot.app)
    (text : jsstring) :
  In (Probot.CreateComment text)
     (Probot.effects st (snd (Probot.handler w context command st))) ->
  (truthy_string (Probot.arguments command) = true
   /\ text = lit "/submit does not take arguments")
  \/ (truthy_string (Probot.arguments command) = false
      /\ existsb Probot.is_submit
           (Probot.effects st (snd (Probot.handler w context command st))) = true
      /\ ((exists coverMid, text = Probot.submitted_as coverMid)
          \/ (exists reason,
                 text = Probot.error_occurred (Probot.Reason reason)))).
Proof.
  intros Hin. revert Hin. ProbotFacts.run.
  all: intros Hin; cbn [In] in Hin.
  all: repeat (destruct Hin as [Hin|Hin]; try discriminate Hin); try done.
  all: injection Hin as <-.
  all: first [by left|right; split; [done|]; split; [reflexivity|]].
  all: first [by left; eexists|by right; eexists].
Qed.

(** X19: once GitGitGadget was asked to submit, the pull request is
    answered: nothing was written before, and after it comes one comment,
    or two when GitHub refused the comment that tells where the patches
    were submitted: the handler then writes a second one, that an error
    occurred while submitting, with the reason of that refusal. *)
Theorem every_submission_is_answered (w : Probot.world)
    (context : Probot.Payload) (command : Probot.Command) (st : Probot.app)
    (call : Probot.effect) :
  Probot.is_submit call = true ->
  In call (Probot.effects st (snd (Probot.handler w context command st))) ->
  exists pre post,
    Probot.effects st (snd (Probot.handler w context command st))
    = pre ++ call :: post
    /\ existsb Probot.is_comment pre = false
    /\ existsb Probot.is_submit pre = false
    /\ ((exists text, post = [Probot.CreateComment text])
        \/ (exists coverMid reason,
               post = [Probot.CreateComment (Probot.submitted_as coverMid);
                       Probot.CreateComment
                         (Probot.error_occurred (Probot.Reason reason))]
               /\ Probot.createComment w (Probot.done st ++ pre ++ [call])
                    (Probot.submitted_as coverMid)
                  = Probot.Rejected reason)).
Proof.
  intros Hcall Hin. revert Hin. ProbotFacts.run.
  all: intros Hin; cbn [In] in Hin.
  all: repeat (destruct Hin as [Hin|Hin];
               try (subst call; discriminate Hcall)); try done.
  all: subst call.
  all: match goal with
       | |- exists pre post, ?l = _ /\ _ =>
           match l with
           | context [Probot.GitGitGadget_submit ?a ?b ?c ?d ?e ?f ?g :: ?post] =>
               match l with
               | [Probot.GitGitGadget_submit _ _ _ _ _ _ _; _] => exists []
               | [Probot.GitGitGadget_submit _ _ _ _ _ _ _; _; _] => exists []
               | [?x; Probot.GitGitGadget_submit _ _ _ _ _ _ _; _] => exists [x]
               | [?x; Probot.GitGitGadget_submit _ _ _ _ _ _ _; _; _] => exists [x]
               | [?x; ?y; Probot.GitGitGadget_submit _ _ _ _ _ _ _; _] =>
                   exists [x; y]
               | [?x; ?y; Probot.GitGitGadget_submit _ _ _ _ _ _ _; _; _] =>
                   exists [x; y]
               | [?x; ?y; ?z; Probot.GitGitGadget_submit _ _ _ _ _ _ _; _] =>
                   exists [x; y; z]
               | [?x; ?y; ?z; Probot.GitGitGadget_submit _ _ _ _ _ _ _; _; _] =>
                   exists [x; y; z]
               | [?x; ?y; ?z; ?v; Probot.GitGitGadget_submit _ _ _ _ _ _ _; _] =>
                   exists [x; y; z; v]
               | [?x; ?y; ?z; ?v; Probot.GitGitGadget_submit _ _ _ _ _ _ _; _; _] =>
                   exists [x; y; z; v]
               end; exists post
           end
       end.
  all: split; [reflexivity|]; split; [reflexivity|]; split; [reflexivity|].
  all: first [by left; eexists
             |right; eexists _, _; split; [reflexivity|];
              rewrite <- ?app_assoc; cbn [List.app]; eassumption].
Qed.

(** X20: the handler logs that it could not determine the pull request and
    goes on. Without a repository, or without its owner, in the payload it
    then throws a TypeError and GitHub is not asked; with an owner but
    without a login, a name or a number it asks GitHub for the pull request
    all the same, with what is missing left undefined. *)
Theorem undetermined_pull_request_is_asked_for (w : Probot.world)
    (context : Probot.Payload) (command : Probot.Command) (st : Probot.app)
    (issue : Probot.Issue) :
  truthy_string (Probot.arguments command) = false ->
  Probot.gitGitGadget st = true ->
  truthy_string
    (Probot.property (Probot.property (Probot.comment context) Probot.user)
       Probot.login) = true ->
  Probot.issue context = Some issue ->
  truthy_string (Probot.property (Probot.pull_request issue) Probot.html_url)
  = true ->
  truthy_string (Probot.title issue) = true ->
  truthy_string (Probot.body issue) = true ->
  (Probot.property (Probot.repository context) Probot.owner = None ->
   Probot.handler w context command st
   = (Probot.Throws Probot.TypeError,
      Probot.emit (Probot.ConsoleLog Probot.NoPR) st))
  /\ (forall repository account,
         Probot.repository context = Some repository ->
         Probot.owner repository = Some account ->
         truthy_string (Probot.login account)
         && truthy_string (Probot.name repository)
         && truthy_id (Probot.number issue) = false ->
         firstn 2 (Probot.effects st (snd (Probot.handler w context command st)))
         = [Probot.ConsoleLog Probot.NoPR;
            Probot.PullRequests_get (Probot.number issue)
              (Probot.login account) (Probot.name repository)]).
Proof.
  intros Hargs Hinst Huser Hissue Hurl Htitle Hbody.
  unfold Probot.handler. rewrite Hargs, Hissue.
  cbv zeta. rewrite Huser, Hurl, Htitle, Hbody. cbn [negb orb].
  split.
  - intros Hnone.
    destruct (Probot.repository context) as [repository|];
      cbn [Probot.property Probot.is_some negb orb] in Hnone |- *;
      rewrite ?Hnone; cbn [Probot.property Probot.is_some negb orb];
      ProbotFacts.run; congruence.
  - intros repository account Hrepo Howner Hmissing. rewrite Hrepo.
    cbn [Probot.property Probot.is_some negb orb]. rewrite Howner.
    cbn [Probot.property Probot.is_some negb orb].
    assert (negb (truthy_string (Probot.login account))
            || negb (truthy_string (Probot.name repository))
            || negb (truthy_id (Probot.number issue)) = true) as ->.
    { destruct (truthy_string (Probot.login account)),
        (truthy_string (Probot.name repository)),
        (truthy_id (Probot.number issue)); done. }
    ProbotFacts.run; first [congruence|reflexivity].
Qed.

(** X21: the instance of GitGitGadget is made when the first command
    without arguments comes and kept from then on. A run with an instance
    asks for none and keeps it; a run without one that gets past the
    arguments logs that it gets one and asks for it before anything else,
    once, and holds an instance afterwards exactly when it was given one:
    when the promise is rejected the handler throws the reason and the
    next command asks again. A command with arguments leaves things as
    they are. *)
Theorem instance_is_made_once (w : Probot.world)
    (context : Probot.Payload) (command : Probot.Command) (st : Probot.app) :
  let after := Probot.handler w context command st in
  let run := Probot.effects st (snd after) in
  (Probot.gitGitGadget st = true ->
   Probot.gitGitGadget (snd after) = true /\ existsb Probot.is_get run = false)
  /\ (truthy_string (Probot.arguments command) = true ->
      Probot.gitGitGadget (snd after) = Probot.gitGitGadget st
      /\ existsb Probot.is_get run = false)
  /\ (truthy_string (Probot.arguments command) = false ->
      Probot.gitGitGadget st = false ->
      firstn 2 run
      = [Probot.ConsoleLog Probot.GettingInstance; Probot.GitGitGadget_get]
      /\ existsb Probot.is_get (skipn 2 run) = false
      /\ match Probot.get w (Probot.done st
                              ++ [Probot.ConsoleLog Probot.GettingInstance]) with
         | Probot.Fulfilled _ => Probot.gitGitGadget (snd after) = true
         | Probot.Rejected reason =>
             after
             = (Probot.Throws (Probot.Reason reason),
                Probot.emit Probot.GitGitGadget_get
                  (Probot.emit (Probot.ConsoleLog Probot.GettingInstance) st))
         end).
Proof.
  cbv zeta. split; [|split].
  - intros Hinst. ProbotFacts.run; try congruence; by split.
  - intros Hargs. ProbotFacts.run; try congruence; by split.
  - intros Hargs Hinst. ProbotFacts.run; try congruence.
    all: repeat split; try reflexivity; congruence.
Qed.

(** ** The properties above, on the small worlds *)

Module Examples.

Import Demo.
Import Worlds.

Lemma target_is_one_selection_witness :
  target None (state_of [A] None) [lit "a@x"] = selection (lit "a@x") A.
Proof.
  destruct (target_is_one_selection None (state_of [A] None) [lit "a@x"])
    as [Hnone|(reference & d & Hin & _ & Hnote & _ & _ & Htarget)].
  - vm_compute in Hnone. discriminate Hnone.
  - destruct Hin as [<-|[]]. rewrite Htarget. f_equal.
    vm_compute in Hnote. injection Hnote as <-. vm_compute. reflexivity.
Defined.

Lemma calls_are_on_accepted_pull_requests_witness :
  let st := state_of [A] (Some (lit "h0")) in
  let call := addPRComment url (comment_of world_with_M0 M0 parsed (lit "Hello")) in
  In (M0, call)
     (github_calls (events_since (trace st)
                      (snd (each_line world_with_M0 (Some of_gitgitgadget)
                              diff_of_M0 st))))
  /\ of_gitgitgadget (url_of_call call) = true.
Proof.
  cbv zeta.
  assert (In (M0, addPRComment url (comment_of world_with_M0 M0 parsed (lit "Hello")))
            (github_calls
               (events_since (trace (state_of [A] (Some (lit "h0"))))
                  (snd (each_line world_with_M0 (Some of_gitgitgadget) diff_of_M0
                          (state_of [A] (Some (lit "h0")))))))) as Hin.
  { vm_compute. left. reflexivity. }
  split; [exact Hin|].
  exact (calls_are_on_accepted_pull_requests world_with_M0 of_gitgitgadget
           diff_of_M0 (state_of [A] (Some (lit "h0"))) M0 _ Hin).
Defined.

Lemma scan_invents_no_pull_request_witness :
  let st := state_of [A] (Some (lit "h0")) in
  let call := addPRComment url (comment_of world_with_M0 M0 parsed (lit "Hello")) in
  url_known (notes st) (url_of_call call).
Proof.
  cbv zeta.
  destruct (scan_invents_no_pull_request world_with_M0 None diff_of_M0
              (state_of [A] (Some (lit "h0")))) as [_ Hcalls].
  apply (Hcalls M0). vm_compute. left. reflexivity.
Defined.

Lemma known_notes_are_not_rewritten_witness :
  let st := state_of [A] (Some (lit "h0")) in
  hashKey (lit "a@x") ∈ keys st
  /\ notes (snd (each_line world_with_M0 None diff_of_M0 st)) !! hashKey (lit "a@x")
     = notes st !! hashKey (lit "a@x").
Proof.
  cbv zeta.
  assert (hashKey (lit "a@x") ∈ keys (state_of [A] (Some (lit "h0")))) as Hkey.
  { apply (bool_decide_unpack _). vm_compute. exact I. }
  split; [exact Hkey|].
  exact (known_notes_are_not_rewritten world_with_M0 None diff_of_M0
           (state_of [A] (Some (lit "h0"))) (hashKey (lit "a@x")) Hkey).
Defined.

Lemma lines_outside_hunks_are_ignored_witness :
  let st := state_of [A] None in
  let lines := [lit "diff --git a/m b/m"; lit "+++ b/m"; lit "+a@x"] in
  each_line world None lines st = (Ok tt, st).
Proof.
  cbv zeta.
  apply (lines_outside_hunks_are_ignored world None
           [lit "diff --git a/m b/m"; lit "+++ b/m"; lit "+a@x"] (state_of [A] None)).
  - reflexivity.
  - constructor; [vm_compute; reflexivity|].
    constructor; [vm_compute; reflexivity|].
    constructor; [vm_compute; reflexivity|]. constructor.
Defined.

Lemma empty_hunk_opens_nothing_witness :
  let st := set_buffer (lit "left over") (state_of [A] None) in
  let header := hunk_header (lit "1,2") (lit "0") (lit "0") (lit " @@") in
  header = lit "@@ -1,2 +0,0 @@"
  /\ each_line world None [header; lit "-m@x"; lit "-a@x"] st
     = (Ok tt, set_buffer [] (set_counter (Num 0) st)).
Proof.
  assert (forall d, is_digit d = true -> digits [d]) as Hd.
  { intros d H. split; [discriminate|]. constructor; [exact H|constructor]. }
  cbv zeta. split; [reflexivity|].
  apply (empty_hunk_opens_nothing world None
           (set_buffer (lit "left over") (state_of [A] None))
           (lit "1,2") (lit "0") (lit "0") (lit " @@") [lit "-m@x"; lit "-a@x"]).
  - right. exists (lit "1"), (lit "2").
    split; [apply Hd; reflexivity|]. split; [apply Hd; reflexivity|reflexivity].
  - apply Hd. reflexivity.
  - apply Hd. reflexivity.
  - reflexivity.
  - reflexivity.
  - constructor; [vm_compute; reflexivity|].
    constructor; [vm_compute; reflexivity|]. constructor.
Defined.

Lemma unparsable_mail_is_dropped_witness :
  let env := env_unparsable world in
  let st := state_of [A] None in
  let lines := [lit "+m@x"; lit "+a@x"] in
  let header := hunk_header (lit "0,0") (lit "1") (lit "2") (lit " @@") in
  each_line env None (header :: lines) st
  = (Ok tt,
     extend [EvParseIds (collected lines); EvConsole (LogSkipping MBoxError)]
       (set_buffer (collected lines) (set_counter (Num 0) st))).
Proof.
  assert (forall d, is_digit d = true -> digits [d]) as Hd.
  { intros d H. split; [discriminate|]. constructor; [exact H|constructor]. }
  cbv zeta.
  apply (unparsable_mail_is_dropped (env_unparsable world) None (state_of [A] None)
           (lit "0,0") (lit "1") (lit "2") (lit " @@") [lit "+m@x"; lit "+a@x"]).
  - right. exists (lit "0"), (lit "0").
    split; [apply Hd; reflexivity|]. split; [apply Hd; reflexivity|reflexivity].
  - apply Hd. reflexivity.
  - apply Hd. reflexivity.
  - reflexivity.
  - split; reflexivity.
  - reflexivity.
  - constructor; [vm_compute; reflexivity|].
    constructor; [vm_compute; reflexivity|]. constructor.
  - reflexivity.
Defined.


Lemma listed_notes_are_the_keys_witness :
  let entries := [(repeat 48 40, (1%nat, lit "a@x"));
                  (repeat 102 40, (2%nat, lit "b@x"))] in
  keys_of_ls_tree
    (ls_tree_output
       (map (fun entry =>
               (fst entry, (fst (snd entry), hashKey (snd (snd entry)))))
          entries))
  = list_to_set (map (fun entry => hashKey (snd (snd entry))) entries) ∪ {[ [] ]}.
Proof.
  cbv zeta.
  apply (listed_notes_are_the_keys
           [(repeat 48 40, (1%nat, lit "a@x")); (repeat 102 40, (2%nat, lit "b@x"))]).
  constructor; [|constructor; [|constructor]].
  - split; [reflexivity|]. cbn [fst repeat]. repeat (constructor; [discriminate|]).
    constructor.
  - split; [reflexivity|]. cbn [fst repeat]. repeat (constructor; [discriminate|]).
    constructor.
Defined.

Lemma cursor_survives_a_restart_witness :
  let st := state_of [A] (Some (lit "h0")) in
  let st1 := snd (processMails world_with_M0 None st) in
  let forgotten := {| latestRevision := None |} in
  exists head,
    let st2 := set_this_state {| latestRevision := Some head |}
                 (record (EvNotesGet stateKey) (set_this_state forgotten st1)) in
    this_state st1 = {| latestRevision := Some head |}
    /\ PublicInboxGitHelper_get world_with_M0 (set_this_state forgotten st1)
       = (Ok tt, st2)
    /\ (head <> [] ->
        forall out,
          git world_with_M0 (trace st2) (ls_tree_args world_with_M0)
            (workDir world_with_M0) = Some out ->
          revParse world_with_M0
            (trace st2 ++ [EvGit (ls_tree_args world_with_M0) (workDir world_with_M0)])
            (lit "master") (publicInboxGitDir world_with_M0) = Some head ->
          processMails world_with_M0 None st2 = (Ok false, asked world_with_M0 out st2)).
Proof.
  cbv zeta.
  apply (cursor_survives_a_restart world_with_M0 None
           (state_of [A] (Some (lit "h0")))).
  - apply returned_ok. vm_compute. reflexivity.
  - reflexivity.
Defined.

Lemma escaped_body_is_decoded_witness :
  Markdown.mbox2markdown (fun body => body)
    {| from := None;
       headers := Some [(lit "Subject", lit "Hi");
                        (lit "Content-Transfer-Encoding", lit "Quoted-Printable")];
       body := flat_map (Markdown.escape true) [72; 233; 10] |}
  = Some (Markdown.fenced [72; 233; 10]).
Proof.
  apply (escaped_body_is_decoded (fun body => body) None
           [(lit "Subject", lit "Hi")] [] (lit "Quoted-Printable") true [72; 233; 10]).
  - constructor; [|constructor]. vm_compute. discriminate.
  - vm_compute. reflexivity.
  - repeat (constructor; [lia|]). constructor.
Defined.

Lemma only_the_last_blank_is_removed_witness :
  Markdown.quoted_printable (lit "foo" ++ [32; 9; 10] ++ lit "bar")
  = lit "foo" ++ [32; 10] ++ Markdown.quoted_printable (lit "bar")
  /\ Markdown.quoted_printable (lit "foo" ++ [32; 9]) = lit "foo" ++ [32].
Proof.
  apply (only_the_last_blank_is_removed (lit "foo") (lit "bar") 32 9 10).
  - repeat (constructor; [split; [discriminate|reflexivity]|]). constructor.
  - reflexivity.
  - reflexivity.
  - reflexivity.
Defined.

Lemma other_encodings_are_rendered_verbatim_witness :
  let mbox := {| from := None;
                 headers := Some [(lit "content-transfer-encoding",
                                   lit "quoted-printable");
                                  (lit "Content-Transfer-Encoding", lit "8bit")];
                 body := lit "a=3Db" |} in
  Markdown.mbox2markdown (fun body => body) mbox
  = Some (Markdown.fenced (lit "a=3Db")).
Proof.
  cbv zeta.
  refine (other_encodings_are_rendered_verbatim (fun body => body)
            {| from := None;
               headers := Some [(lit "content-transfer-encoding",
                                 lit "quoted-printable");
                                (lit "Content-Transfer-Encoding", lit "8bit")];
               body := lit "a=3Db" |}
            [(lit "content-transfer-encoding", lit "quoted-printable");
             (lit "Content-Transfer-Encoding", lit "8bit")] eq_refl _).
  constructor; [left; vm_compute; discriminate|].
  constructor; [right; split; vm_compute; reflexivity|]. constructor.
Defined.

Lemma rendered_text_is_empty_or_fenced_witness :
  Markdown.mbox2markdown (fun body => body) parsed
  = Some (Markdown.fence ++ lit "Hello" ++ [10] ++ Markdown.fence)
  /\ (Markdown.fence ++ lit "Hello" ++ [10] ++ Markdown.fence = []
      \/ exists inner,
           Markdown.fence ++ lit "Hello" ++ [10] ++ Markdown.fence
           = Markdown.fence ++ inner ++ [10] ++ Markdown.fence).
Proof.
  assert (Markdown.mbox2markdown (fun body => body) parsed
          = Some (Markdown.fence ++ lit "Hello" ++ [10] ++ Markdown.fence)) as H.
  { vm_compute. reflexivity. }
  split; [exact H|].
  exact (rendered_text_is_empty_or_fenced (fun body => body) parsed _ H).
Defined.

Lemma submit_is_given_complete_data_witness :
  In the_submission
     (Probot.effects fresh (snd (Probot.handler up payload plain fresh)))
  /\ truthy_string (Probot.arguments plain) = false
  /\ Probot.property (Probot.property (Probot.comment payload) Probot.user)
       Probot.login = Some (lit "dscho").
Proof.
  assert (In the_submission
            (Probot.effects fresh (snd (Probot.handler up payload plain fresh))))
    as Hin.
  { vm_compute. do 3 right. left. reflexivity. }
  split; [exact Hin|].
  destruct (submit_is_given_complete_data up payload plain fresh _ _ _ _ _ _ _ Hin)
    as (Hargs & Huser & _).
  split; [exact Hargs|exact Huser].
Defined.

Lemma comments_are_of_three_kinds_witness :
  let text := Probot.error_occurred (Probot.Reason (lit "Not Found")) in
  let run := Probot.effects fresh
               (snd (Probot.handler comment_refused payload plain fresh)) in
  In (Probot.CreateComment text) run
  /\ ((truthy_string (Probot.arguments plain) = true
       /\ text = lit "/submit does not take arguments")
      \/ (truthy_string (Probot.arguments plain) = false
          /\ existsb Probot.is_submit run = true
          /\ ((exists coverMid, text = Probot.submitted_as coverMid)
              \/ (exists reason,
                     text = Probot.error_occurred (Probot.Reason reason))))).
Proof.
  cbv zeta.
  assert (In (Probot.CreateComment
                (Probot.error_occurred (Probot.Reason (lit "Not Found"))))
            (Probot.effects fresh
               (snd (Probot.handler comment_refused payload plain fresh))))
    as Hin.
  { vm_compute. do 5 right. left. reflexivity. }
  split; [exact Hin|].
  exact (comments_are_of_three_kinds comment_refused payload plain fresh _ Hin).
Defined.

Lemma every_submission_is_answered_witness :
  let run := Probot.effects fresh
               (snd (Probot.handler comment_refused payload plain fresh)) in
  In the_submission run
  /\ exists pre post,
       run = pre ++ the_submission :: post
       /\ existsb Probot.is_comment pre = false
       /\ existsb Probot.is_submit pre = false
       /\ ((exists text, post = [Probot.CreateComment text])
           \/ (exists coverMid reason,
                  post = [Probot.CreateComment (Probot.submitted_as coverMid);
                          Probot.CreateComment
                            (Probot.error_occurred (Probot.Reason reason))]
                  /\ Probot.createComment comment_refused
                       (Probot.done fresh ++ pre ++ [the_submission])
                       (Probot.submitted_as coverMid)
                     = Probot.Rejected reason)).
Proof.
  cbv zeta.
  assert (In the_submission
            (Probot.effects fresh
               (snd (Probot.handler comment_refused payload plain fresh))))
    as Hin.
  { vm_compute. do 3 right. left. reflexivity. }
  split; [exact Hin|].
  apply (every_submission_is_answered comment_refused payload plain fresh
           the_submission); [reflexivity|exact Hin].
Defined.

Lemma undetermined_pull_request_is_asked_for_witness :
  Probot.handler up payload_without_repository plain warm
  = (Probot.Throws Probot.TypeError,
     Probot.emit (Probot.ConsoleLog Probot.NoPR) warm).
Proof.
  destruct (undetermined_pull_request_is_asked_for up payload_without_repository
              plain warm the_issue) as [Hthrown _].
  - reflexivity.
  - reflexivity.
  - reflexivity.
  - reflexivity.
  - reflexivity.
  - reflexivity.
  - reflexivity.
  - apply Hthrown. reflexivity.
Defined.

Lemma soft_line_break_joins_lines_witness :
  Markdown.quoted_printable (lit "foo " ++ [61; 13; 10] ++ lit "bar")
  = lit "foo " ++ Markdown.quoted_printable (lit "bar")
  /\ Markdown.quoted_printable (lit "foo " ++ [61; 10] ++ lit "bar")
     = lit "foo " ++ Markdown.quoted_printable (lit "bar")
  /\ Markdown.quoted_printable (lit "foo " ++ [61]) = lit "foo ".
Proof.
  apply (soft_line_break_joins_lines (lit "foo ") (lit "bar")).
  repeat (constructor; [split; [discriminate|reflexivity]|]). constructor.
Defined.

Lemma instance_is_made_once_witness :
  Probot.gitGitGadget (snd (Probot.handler up payload plain warm)) = true
  /\ existsb Probot.is_get
       (Probot.effects warm (snd (Probot.handler up payload plain warm))) = false.
Proof.
  destruct (instance_is_made_once up payload plain warm) as [Hkept _].
  apply Hkept. reflexivity.
Defined.

End Examples.
